(** * PRxWidget: the bridge between the embedded widget document and the
    native shell (src/PRxWidget.tsx).

    The component is embedded shallowly: JavaScript values are an inductive
    type, numbers are IEEE-754 binary64 values ([spec_float]), strings are
    byte strings, the component's hooks are a record threaded through a
    small state/exception/effect monad, and the platform services
    (JSON.parse, Number to string, Linking.openURL, expo-location) are
    modelled next to the code that calls them. *)

From Stdlib Require Import String Ascii List ZArith Bool Arith Lia SpecFloat DecimalString DecimalPos.
Import ListNotations.
Local Open Scope list_scope.
Local Open Scope string_scope.

(** ** Strings

    A JavaScript string is modelled by the bytes of its UTF-8 text. The
    component compares strings only with ASCII literals ([===],
    [startsWith], [includes]), for which bytes and UTF-16 code units
    agree. *)

Definition dq : string := String "034"%char EmptyString.
Definition nl : string := String "010"%char EmptyString.

(** [q s] is [s] between double quotes. *)
Definition q (s : string) : string := dq ++ s ++ dq.

(** String.prototype.startsWith *)
Definition startsWith (s p : string) : bool := String.prefix p s.

(** String.prototype.includes *)
Fixpoint includes (s needle : string) : bool :=
  String.prefix needle s ||
  match s with
  | EmptyString => false
  | String _ s' => includes s' needle
  end.

Definition snoc (s : string) (c : ascii) : string := s ++ String c EmptyString.

(** ** Numbers: IEEE-754 binary64 *)

Definition number := spec_float.

Module Number.

Definition prec : Z := 53.
Definition emax : Z := 1024.

(** The Number value of an integer. *)
Definition of_Z (z : Z) : number := binary_normalize prec emax z 0 false.

(** [of_decimal neg m e] is the Number value of the decimal
    [(-1)^neg * m * 10^e], rounded to nearest, ties to even. Exponents
    far outside the binary64 range are cut off before any power of ten
    is computed. *)
Definition of_decimal (neg : bool) (m : Z) (e : Z) : number :=
  match m with
  | Zpos p =>
      let d := (Z.log2 m + 1)%Z in
      if (0 <=? e)%Z then
        if (400 <? e)%Z then S754_infinity neg
        else binary_normalize prec emax (if neg then - (m * 10 ^ e) else m * 10 ^ e)%Z 0 false
      else
        if (d + 1200 <? - e)%Z then S754_zero neg
        else
          let '(mz, ez, lz) := SFdiv_core_binary prec emax m 0 (10 ^ (- e))%Z 0 in
          binary_round_aux prec emax neg mz ez lz
  | _ => S754_zero neg
  end.

(** Truthiness of a Number (ToBoolean): zero of either sign and NaN are
    falsy. *)
Definition truthy (x : number) : bool :=
  match x with
  | S754_zero _ | S754_nan => false
  | _ => true
  end.

(** *** Number::toString (radix 10)

    The shortest decimal that reads back as the same Number, laid out
    as ECMA-262 prescribes: plain digits while the decimal exponent [n]
    is at most 21, a leading [0.] down to 1e-6, exponent notation
    otherwise. *)

Definition Z_to_string (z : Z) : string :=
  DecimalString.NilZero.string_of_int (Z.to_int z).

(** [x / 10^p] as a fraction, for [x = num / den]. *)
Definition scaled (num den p : Z) : Z * Z :=
  if (0 <=? p)%Z then (num, den * 10 ^ p)%Z else (num * 10 ^ (- p), den)%Z.

(** The decimal exponent of [x = num / den > 0]: the [n] with
    [10^(n-1) <= x < 10^n], searched upwards from an underestimate. *)
Fixpoint decimal_exponent_from (fuel : nat) (num den n : Z) : Z :=
  match fuel with
  | O => n
  | S fuel' =>
      let '(a, b) := scaled num den n in
      if (a <? b)%Z then n else decimal_exponent_from fuel' num den (n + 1)%Z
  end.

Definition decimal_exponent (num den : Z) : Z :=
  let b := (Z.log2 num - Z.log2 den)%Z in
  decimal_exponent_from 8 num den (b * 30103 / 100000 - 2)%Z.

(** The digits [s] and scale [p] of the shortest decimal [s * 10^p] that
    reads back as [x], trying [k = 1, 2, ...] significant digits; of two
    candidates the one closer to [x] is taken, the even one on a tie. *)
Fixpoint shortest_decimal (fuel : nat) (k : Z) (x : number) (num den n : Z) : Z * Z :=
  let p := (n - k)%Z in
  let '(a, b) := scaled num den p in
  let lo := (a / b)%Z in
  let hi := (lo + 1)%Z in
  match fuel with
  | O => (lo, p)
  | S fuel' =>
      let ok_lo := SFeqb (of_decimal false lo p) x in
      let ok_hi := SFeqb (of_decimal false hi p) x in
      if ok_lo && ok_hi then
        match (2 * a ?= (2 * lo + 1) * b)%Z with
        | Lt => (lo, p)
        | Gt => (hi, p)
        | Eq => if Z.even lo then (lo, p) else (hi, p)
        end
      else if ok_lo then (lo, p)
      else if ok_hi then (hi, p)
      else shortest_decimal fuel' (k + 1)%Z x num den n
  end.

Fixpoint strip_trailing_zeros_rev (r : list ascii) : list ascii :=
  match r with
  | "0"%char :: r' => strip_trailing_zeros_rev r'
  | _ => r
  end.

Definition strip_trailing_zeros (s : string) : string :=
  string_of_list_ascii (rev (strip_trailing_zeros_rev (rev (list_ascii_of_string s)))).

Fixpoint zeros (n : nat) : string :=
  match n with
  | O => EmptyString
  | S n' => String "0"%char (zeros n')
  end.

(** Steps 7 to 11 of Number::toString, for digits [ds] (no trailing
    zero) and decimal exponent [n]. *)
Definition layout_decimal (ds : string) (n : Z) : string :=
  let k := Z.of_nat (String.length ds) in
  if ((k <=? n) && (n <=? 21))%Z then
    ds ++ zeros (Z.to_nat (n - k))
  else if ((0 <? n) && (n <=? 21))%Z then
    substring 0 (Z.to_nat n) ds ++ "." ++ substring (Z.to_nat n) (Z.to_nat (k - n)) ds
  else if ((-6 <? n) && (n <=? 0))%Z then
    "0." ++ zeros (Z.to_nat (- n)) ++ ds
  else
    let e := (n - 1)%Z in
    let exponent := (if (e <? 0)%Z then "-" else "+") ++ Z_to_string (Z.abs e) in
    if (k =? 1)%Z then ds ++ "e" ++ exponent
    else substring 0 1 ds ++ "." ++ substring 1 (Z.to_nat (k - 1)) ds ++ "e" ++ exponent.

Definition toString (x : number) : string :=
  match x with
  | S754_nan => "NaN"
  | S754_zero _ => "0"
  | S754_infinity s => if s then "-Infinity" else "Infinity"
  | S754_finite s m e =>
      let num := (if (0 <=? e)%Z then Zpos m * 2 ^ e else Zpos m)%Z in
      let den := (if (0 <=? e)%Z then 1 else 2 ^ (- e))%Z in
      let n0 := decimal_exponent num den in
      let '(d, p) := shortest_decimal 17 1 (S754_finite false m e) num den n0 in
      let all := Z_to_string d in
      let ds := strip_trailing_zeros all in
      (if s then "-" else EmptyString)
        ++ layout_decimal ds (Z.of_nat (String.length all) + p)
  end.

(** *** Decimal literals *)

Definition is_digit (c : ascii) : bool :=
  let n := nat_of_ascii c in ((48 <=? n) && (n <=? 57))%nat.

Definition digit_val (c : ascii) : Z := Z.of_nat (nat_of_ascii c) - 48.

Fixpoint span_digits (s : string) : string * string :=
  match s with
  | String c s' =>
      if is_digit c then let '(ds, r) := span_digits s' in (String c ds, r)
      else (EmptyString, s)
  | EmptyString => (EmptyString, EmptyString)
  end.

Fixpoint Z_of_digits (acc : Z) (ds : string) : Z :=
  match ds with
  | EmptyString => acc
  | String c ds' => Z_of_digits (10 * acc + digit_val c) ds'
  end.

Definition nonempty (s : string) : bool :=
  match s with EmptyString => false | _ => true end.

(** A JSON number: an optional minus sign; an integer part, 0 or
    digits not starting with 0; an optional fraction, a dot and digits;
    an optional exponent, e or E, an optional sign and digits. *)
Definition of_literal (s : string) : option number :=
  let '(neg, s1) :=
    match s with String "-"%char t => (true, t) | _ => (false, s) end in
  let '(ip, s2) := span_digits s1 in
  let int_ok :=
    match ip with
    | EmptyString => false
    | String "0"%char (String _ _) => false
    | _ => true
    end in
  let '(fp, frac_ok, s3) :=
    match s2 with
    | String "."%char t => let '(f, r) := span_digits t in (f, nonempty f, r)
    | _ => (EmptyString, true, s2)
    end in
  let '(ex, exp_ok) :=
    match s3 with
    | EmptyString => (0%Z, true)
    | String ("e" | "E")%char t =>
        let '(eneg, t1) :=
          match t with
          | String "-"%char u => (true, u)
          | String "+"%char u => (false, u)
          | _ => (false, t)
          end in
        let '(ed, r) := span_digits t1 in
        let e := Z_of_digits 0 ed in
        ((if eneg then - e else e)%Z, nonempty ed && negb (nonempty r))
    | _ => (0%Z, false)
    end in
  if int_ok && frac_ok && exp_ok then
    Some (of_decimal neg (Z_of_digits 0 (ip ++ fp))
            (ex - Z.of_nat (String.length fp))%Z)
  else None.

End Number.

(** ** JavaScript values *)

#[local] Set Warnings "-register-all".

Inductive JSValue : Type :=
| VUndefined
| VNull
| VBool (b : bool)
| VNum (x : number)
| VStr (s : string)
| VArr (elems : list JSValue)
| VObj (props : list (string * JSValue)).

(** ToBoolean *)
Definition truthy (v : JSValue) : bool :=
  match v with
  | VUndefined | VNull => false
  | VBool b => b
  | VNum x => Number.truthy x
  | VStr s => negb (String.eqb s EmptyString)
  | VArr _ | VObj _ => true
  end.

(** [v === 'lit'] for a string literal *)
Definition strict_eq_str (v : JSValue) (lit : string) : bool :=
  match v with
  | VStr s => String.eqb s lit
  | _ => false
  end.

Fixpoint lookup (k : string) (props : list (string * JSValue)) : option JSValue :=
  match props with
  | [] => None
  | (k', v) :: props' => if String.eqb k k' then Some v else lookup k props'
  end.

(** Defining a property: an existing key keeps its place and takes the
    new value, a new key goes last. *)
Fixpoint obj_set (k : string) (v : JSValue) (props : list (string * JSValue))
  : list (string * JSValue) :=
  match props with
  | [] => [(k, v)]
  | (k', v') :: props' =>
      if String.eqb k k' then (k', v) :: props' else (k', v') :: obj_set k v props'
  end.

(** The property read [v.k], for the names the component reads (type,
    height, url), which no array, string, number or boolean has: [None]
    is the TypeError of reading a property of null or undefined. *)
Definition getProp (v : JSValue) (k : string) : option JSValue :=
  match v with
  | VUndefined | VNull => None
  | VObj props =>
      match lookup k props with
      | Some x => Some x
      | None => Some VUndefined
      end
  | _ => Some VUndefined
  end.

(** ** JSON.parse

    A lexer, one pass over the text, and a recursive-descent parser over
    the tokens (ECMA-404 grammar). *)

Module JSON.

Inductive token : Type :=
| TLBrace | TRBrace | TLBracket | TRBracket | TColon | TComma
| TString (s : string)
| TNumber (x : number)
| TTrue | TFalse | TNull.

Definition is_ws (c : ascii) : bool :=
  match c with
  | " "%char | "009"%char | "010"%char | "013"%char => true
  | _ => false
  end.

Definition is_number_char (c : ascii) : bool :=
  Number.is_digit c ||
  match c with
  | "-"%char | "+"%char | "."%char | "e"%char | "E"%char => true
  | _ => false
  end.

Definition hex_val (c : ascii) : option N :=
  let n := N_of_ascii c in
  if ((48 <=? n) && (n <=? 57))%N then Some (n - 48)%N
  else if ((65 <=? n) && (n <=? 70))%N then Some (n - 55)%N
  else if ((97 <=? n) && (n <=? 102))%N then Some (n - 87)%N
  else None.

Definition hex4 (a b c d : ascii) : option N :=
  match hex_val a, hex_val b, hex_val c, hex_val d with
  | Some x, Some y, Some z, Some w => Some (x * 4096 + y * 256 + z * 16 + w)%N
  | _, _, _, _ => None
  end.

Definition byte (n : N) : string := String (ascii_of_N n) EmptyString.

(** The UTF-8 bytes of a code point (of a lone surrogate too). *)
Definition utf8 (cp : N) : string :=
  if (cp <? 128)%N then byte cp
  else if (cp <? 2048)%N then byte (192 + cp / 64) ++ byte (128 + cp mod 64)
  else if (cp <? 65536)%N then
    byte (224 + cp / 4096) ++ byte (128 + (cp / 64) mod 64) ++ byte (128 + cp mod 64)
  else
    byte (240 + cp / 262144) ++ byte (128 + (cp / 4096) mod 64)
      ++ byte (128 + (cp / 64) mod 64) ++ byte (128 + cp mod 64).

Definition simple_escape (c : ascii) : option ascii :=
  match c with
  | "034"%char => Some "034"%char
  | "\"%char => Some "\"%char
  | "/"%char => Some "/"%char
  | "b"%char => Some "008"%char
  | "f"%char => Some "012"%char
  | "n"%char => Some "010"%char
  | "r"%char => Some "013"%char
  | "t"%char => Some "009"%char
  | _ => None
  end.

(** After a high surrogate [hi]: the code point it forms with a
    following low-surrogate escape, if there is one. *)
Definition surrogate_pair (hi : N) (s : string) : option N :=
  if ((55296 <=? hi) && (hi <=? 56319))%N then
    match s with
    | String "\"%char (String "u"%char (String a (String b (String c (String d _))))) =>
        match hex4 a b c d with
        | Some lo =>
            if ((56320 <=? lo) && (lo <=? 57343))%N
            then Some (65536 + (hi - 55296) * 1024 + (lo - 56320))%N
            else None
        | None => None
        end
    | _ => None
    end
  else None.

Inductive lex_mode : Type :=
| Between
| InString (acc : string)
| InNumber (acc : string)
| InLiteral (expected : string) (t : token).

(** What a character does between tokens; [k] lexes the rest of the
    text in the mode given. *)
Definition lex_start (c : ascii) (k : lex_mode -> option (list token))
  : option (list token) :=
  if is_ws c then k Between
  else
    match c with
    | "{"%char => option_map (cons TLBrace) (k Between)
    | "}"%char => option_map (cons TRBrace) (k Between)
    | "["%char => option_map (cons TLBracket) (k Between)
    | "]"%char => option_map (cons TRBracket) (k Between)
    | ":"%char => option_map (cons TColon) (k Between)
    | ","%char => option_map (cons TComma) (k Between)
    | "034"%char => k (InString EmptyString)
    | "t"%char => k (InLiteral "rue" TTrue)
    | "f"%char => k (InLiteral "alse" TFalse)
    | "n"%char => k (InLiteral "ull" TNull)
    | "-"%char => k (InNumber "-")
    | _ => if Number.is_digit c then k (InNumber (String c EmptyString)) else None
    end.

Fixpoint lex (m : lex_mode) (s : string) {struct s} : option (list token) :=
  match s with
  | EmptyString =>
      match m with
      | Between => Some []
      | InNumber acc => option_map (fun x => [TNumber x]) (Number.of_literal acc)
      | InString _ | InLiteral _ _ => None
      end
  | String c rest =>
      match m with
      | Between => lex_start c (fun m' => lex m' rest)
      | InNumber acc =>
          if is_number_char c then lex (InNumber (snoc acc c)) rest
          else
            match Number.of_literal acc with
            | Some x => option_map (cons (TNumber x)) (lex_start c (fun m' => lex m' rest))
            | None => None
            end
      | InLiteral expected t =>
          match expected with
          | String x EmptyString =>
              if Ascii.eqb c x then option_map (cons t) (lex Between rest) else None
          | String x xs =>
              if Ascii.eqb c x then lex (InLiteral xs t) rest else None
          | EmptyString => None
          end
      | InString acc =>
          if Ascii.eqb c "034" then option_map (cons (TString acc)) (lex Between rest)
          else if Ascii.eqb c "\" then
            match rest with
            | String "u"%char (String a (String b (String c' (String d rest4)))) =>
                match hex4 a b c' d with
                | Some u =>
                    match surrogate_pair u rest4 with
                    | Some cp =>
                        match rest4 with
                        | String _ (String _ (String _ (String _ (String _ (String _ rest10))))) =>
                            lex (InString (acc ++ utf8 cp)) rest10
                        | _ => None
                        end
                    | None => lex (InString (acc ++ utf8 u)) rest4
                    end
                | None => None
                end
            | String e rest1 =>
                match simple_escape e with
                | Some x => lex (InString (snoc acc x)) rest1
                | None => None
                end
            | EmptyString => None
            end
          else if (nat_of_ascii c <? 32)%nat then None
          else lex (InString (snoc acc c)) rest
      end
  end.

Inductive parsed (A : Type) : Type :=
| Parsed (a : A) (rest : list token)
| SyntaxError
| OutOfFuel.
Arguments Parsed {A} a rest.
Arguments SyntaxError {A}.
Arguments OutOfFuel {A}.

(** [parse_value] reads one value; [parse_elements] the elements of an
    array after its opening bracket, up to and including the closing
    one; [parse_members] likewise the members of an object. *)
Fixpoint parse_value (fuel : nat) (ts : list token) : parsed JSValue :=
  match fuel with
  | O => OutOfFuel
  | S fuel' =>
      match ts with
      | TString s :: r => Parsed (VStr s) r
      | TNumber x :: r => Parsed (VNum x) r
      | TTrue :: r => Parsed (VBool true) r
      | TFalse :: r => Parsed (VBool false) r
      | TNull :: r => Parsed VNull r
      | TLBracket :: TRBracket :: r => Parsed (VArr []) r
      | TLBracket :: r =>
          match parse_elements fuel' r with
          | Parsed vs r' => Parsed (VArr vs) r'
          | SyntaxError => SyntaxError
          | OutOfFuel => OutOfFuel
          end
      | TLBrace :: TRBrace :: r => Parsed (VObj []) r
      | TLBrace :: r =>
          match parse_members fuel' r with
          | Parsed kvs r' =>
              Parsed (VObj (fold_left (fun o kv => obj_set (fst kv) (snd kv) o) kvs [])) r'
          | SyntaxError => SyntaxError
          | OutOfFuel => OutOfFuel
          end
      | _ => SyntaxError
      end
  end
with parse_elements (fuel : nat) (ts : list token) : parsed (list JSValue) :=
  match fuel with
  | O => OutOfFuel
  | S fuel' =>
      match parse_value fuel' ts with
      | Parsed v (TRBracket :: r) => Parsed [v] r
      | Parsed v (TComma :: r) =>
          match parse_elements fuel' r with
          | Parsed vs r' => Parsed (v :: vs) r'
          | SyntaxError => SyntaxError
          | OutOfFuel => OutOfFuel
          end
      | Parsed _ _ => SyntaxError
      | SyntaxError => SyntaxError
      | OutOfFuel => OutOfFuel
      end
  end
with parse_members (fuel : nat) (ts : list token) : parsed (list (string * JSValue)) :=
  match fuel with
  | O => OutOfFuel
  | S fuel' =>
      match ts with
      | TString k :: TColon :: r =>
          match parse_value fuel' r with
          | Parsed v (TRBrace :: r') => Parsed [(k, v)] r'
          | Parsed v (TComma :: r') =>
              match parse_members fuel' r' with
              | Parsed kvs r'' => Parsed ((k, v) :: kvs) r''
              | SyntaxError => SyntaxError
              | OutOfFuel => OutOfFuel
              end
          | Parsed _ _ => SyntaxError
          | SyntaxError => SyntaxError
          | OutOfFuel => OutOfFuel
          end
      | _ => SyntaxError
      end
  end.

Definition parse_fuel (ts : list token) : nat := 2 * List.length ts + 1.

(** A parser result that is a syntax error, or a value with fewer
    tokens left than [n], is not a lack of fuel. *)
Definition progress {A : Type} (res : parsed A) (n : nat) : Prop :=
  res <> OutOfFuel /\ forall a r, res = Parsed a r -> List.length r < n.

(** JSON.parse: [None] is the SyntaxError it throws. *)
Definition parse (text : string) : option JSValue :=
  match lex Between text with
  | Some ts =>
      match parse_value (parse_fuel ts) ts with
      | Parsed v [] => Some v
      | _ => None
      end
  | None => None
  end.

(** *** JSON.stringify

    For the values the injected script serialises: objects whose keys
    are not array indices, keys kept in insertion order. *)

Definition bs : string := String "092"%char EmptyString.

Definition hex_digit (n : N) : string :=
  String (ascii_of_N (if (n <? 10)%N then 48 + n else 87 + n)) EmptyString.

(** QuoteJSONString for one character: the quote and the backslash are
    escaped, a control character takes its short escape or the
    four-digit one, every other character stands for itself. *)
Definition quote_char (c : ascii) : string :=
  let n := N_of_ascii c in
  if Ascii.eqb c "034" then bs ++ dq
  else if Ascii.eqb c "092" then bs ++ bs
  else if (n =? 8)%N then bs ++ "b"
  else if (n =? 9)%N then bs ++ "t"
  else if (n =? 10)%N then bs ++ "n"
  else if (n =? 12)%N then bs ++ "f"
  else if (n =? 13)%N then bs ++ "r"
  else if (n <? 32)%N then bs ++ "u00" ++ hex_digit (n / 16) ++ hex_digit (n mod 16)
  else String c EmptyString.

(** The surrogate code unit that three bytes encode, if they do. *)
Definition surrogate_unit (c b1 b2 : ascii) : option N :=
  if ((N_of_ascii c =? 237) && (160 <=? N_of_ascii b1) && (N_of_ascii b1 <=? 191))%N
  then Some (53248 + (N_of_ascii b1 - 128) * 64 + N_of_ascii b2 mod 64)%N
  else None.

(** A lone surrogate is written as its four-digit escape. *)
Fixpoint quote_body (s : string) : string :=
  match s with
  | EmptyString => EmptyString
  | String c rest =>
      match rest with
      | String b1 (String b2 rest3) =>
          match surrogate_unit c b1 b2 with
          | Some u =>
              bs ++ "ud" ++ hex_digit ((u / 256) mod 16) ++ hex_digit ((u / 16) mod 16)
                 ++ hex_digit (u mod 16) ++ quote_body rest3
          | None => quote_char c ++ quote_body rest
          end
      | _ => quote_char c ++ quote_body rest
      end
  end.

Definition quote (s : string) : string := dq ++ quote_body s ++ dq.

(** Strings without surrogate code units. *)
Fixpoint no_surrogates (s : string) : bool :=
  match s with
  | EmptyString => true
  | String c rest =>
      match rest with
      | String b1 (String b2 _) =>
          match surrogate_unit c b1 b2 with
          | Some _ => false
          | None => no_surrogates rest
          end
      | _ => no_surrogates rest
      end
  end.

Definition is_finite (x : number) : bool :=
  match x with
  | S754_zero _ | S754_finite _ _ _ => true
  | S754_infinity _ | S754_nan => false
  end.

(** A Number that is not finite is serialised as null. *)
Definition number_text (x : number) : string :=
  if is_finite x then Number.toString x else "null".

Fixpoint join (sep : string) (parts : list string) : string :=
  match parts with
  | [] => EmptyString
  | [p] => p
  | p :: rest => p ++ sep ++ join sep rest
  end.

(** JSON.stringify: [None] is the undefined it returns for undefined.
    An undefined element of an array is written null, a property whose
    value is undefined is left out. *)
Fixpoint stringify (v : JSValue) : option string :=
  match v with
  | VUndefined => None
  | VNull => Some "null"
  | VBool b => Some (if b then "true" else "false")
  | VNum x => Some (number_text x)
  | VStr s => Some (quote s)
  | VArr elems =>
      Some ("[" ++ join ","
                     (map (fun e => match stringify e with
                                    | Some t => t
                                    | None => "null"
                                    end) elems)
               ++ "]")
  | VObj props =>
      let fix members (l : list (string * JSValue)) : list string :=
        match l with
        | [] => []
        | (k, x) :: l' =>
            match stringify x with
            | Some t => (quote k ++ ":" ++ t) :: members l'
            | None => members l'
            end
        end in
      Some ("{" ++ join "," (members props) ++ "}")
  end.

End JSON.

(** ** The component's state, effects and handler monad *)

(** [useState<{ lat: number; long: number } | null>] *)
Record UserLocation : Type := { lat : number; long : number }.

(** The three [useState] cells of the component. [height] holds a
    JavaScript value: [setHeight(data.height)] stores whatever the
    parsed message carries. *)
Record State : Type := {
  loading : bool;
  height : JSValue;
  userLocation : option UserLocation
}.

(** [useState(true)], [useState(600)], [useState(null)] *)
Definition mount : State :=
  {| loading := true; height := VNum (Number.of_Z 600); userLocation := None |}.

(** What a handler does to the world outside the component. *)
Inductive Effect : Type :=
| OpenURL (url : JSValue)                      (* Linking.openURL(url) *)
| ConsoleError (msg : string) (err : JSValue)  (* console.error(msg, err) *)
| ConsoleLog (msg : string) (err : JSValue).   (* console.log(msg, err) *)

Inductive Completion (A : Type) : Type :=
| Normal (a : A)
| Throw (e : JSValue).
Arguments Normal {A} a.
Arguments Throw {A} e.

(** A handler body: it reads and writes the state, completes normally
    or throws, and leaves a trace of effects. *)
Definition M (A : Type) : Type := State -> Completion A * State * list Effect.

Definition ret {A} (a : A) : M A := fun st => (Normal a, st, []).

Definition bind {A B} (m : M A) (f : A -> M B) : M B :=
  fun st =>
    match m st with
    | (Normal a, st1, t1) =>
        let '(r, st2, t2) := f a st1 in (r, st2, (t1 ++ t2)%list)
    | (Throw e, st1, t1) => (Throw e, st1, t1)
    end.

Definition throw {A} (e : JSValue) : M A := fun st => (Throw e, st, []).

(** [try { body } catch (e) { handler e }] *)
Definition try_catch {A} (body : M A) (handler : JSValue -> M A) : M A :=
  fun st =>
    match body st with
    | (Normal a, st1, t1) => (Normal a, st1, t1)
    | (Throw e, st1, t1) =>
        let '(r, st2, t2) := handler e st1 in (r, st2, (t1 ++ t2)%list)
    end.

Definition emit (e : Effect) : M unit := fun st => (Normal tt, st, [e]).

Notation "x <- m ;; k" := (bind m (fun x => k))
  (at level 61, m at next level, right associativity).
Notation "m ;;; k" := (bind m (fun _ => k))
  (at level 61, right associativity).

Definition when (b : bool) (m : M unit) : M unit := if b then m else ret tt.

Definition setLoading (b : bool) : M unit :=
  fun st => (Normal tt,
             {| loading := b; height := height st; userLocation := userLocation st |}, []).

Definition setHeight (h : JSValue) : M unit :=
  fun st => (Normal tt,
             {| loading := loading st; height := h; userLocation := userLocation st |}, []).

Definition setUserLocation (l : UserLocation) : M unit :=
  fun st => (Normal tt,
             {| loading := loading st; height := height st; userLocation := Some l |}, []).

Definition error_object (name : string) : JSValue := VObj [("name", VStr name)].

(** [JSON.parse(text)] inside a handler *)
Definition JSON_parse_M (text : string) : M JSValue :=
  match JSON.parse text with
  | Some v => ret v
  | None => throw (error_object "SyntaxError")
  end.

(** [v.k] inside a handler *)
Definition get (v : JSValue) (k : string) : M JSValue :=
  match getProp v k with
  | Some x => ret x
  | None => throw (error_object "TypeError")
  end.

(** ** Device services *)

Inductive Promise (A : Type) : Type :=
| Resolved (a : A)
| Rejected (reason : JSValue).
Arguments Resolved {A} a.
Arguments Rejected {A} reason.

(** [await p] *)
Definition await {A} (p : Promise A) : M A :=
  match p with
  | Resolved a => ret a
  | Rejected reason => throw reason
  end.

(** [p.catch(handler)] *)
Definition promise_catch (p : Promise unit) (handler : JSValue -> M unit) : M unit :=
  match p with
  | Resolved _ => ret tt
  | Rejected reason => handler reason
  end.

(** The device the component runs on: the name react-native reports
    for its platform, and what its URL opener answers when given a URL,
    a promise that is rejected when the URL could not be opened. *)
Record Device : Type := {
  os : string;
  open_result : JSValue -> Promise unit
}.

(** react-native's [Platform] *)
Module Platform.

Definition OS (dev : Device) : string := os dev.

End Platform.

(** react-native's [Linking]. [openURL] validates its argument before
    it asks the device: the URL must be a string, and not the empty
    one; otherwise the call throws, synchronously, and no promise is
    returned. *)
Module Linking.

Definition valid_url (url : JSValue) : bool :=
  match url with
  | VStr s => negb (String.eqb s EmptyString)
  | _ => false
  end.

Definition openURL (dev : Device) (url : JSValue) : M (Promise unit) :=
  emit (OpenURL url) ;;;
  if valid_url url then ret (open_result dev url)
  else throw (error_object "Invariant Violation").

End Linking.

(** expo-location, as far as the component calls it: the answer to the
    permission request (its [status]) and to the position request (the
    [coords] of the fix). *)
Module Location.

Record Service : Type := {
  requestForegroundPermissionsAsync : Promise string;
  getCurrentPositionAsync : Promise UserLocation
}.

End Location.

(** ** The component (src/PRxWidget.tsx) *)

(** The effect run on mount (lines 32-49). *)
Definition requestLocation (L : Location.Service) : M unit :=
  try_catch
    (status <- await (Location.requestForegroundPermissionsAsync L) ;;
     when (String.eqb status "granted")
       (location <- await (Location.getCurrentPositionAsync L) ;;
        setUserLocation {| lat := lat location; long := long location |}))
    (fun error => emit (ConsoleLog "Location permission denied or error:" error)).

Definition locationOverride (userLocation : option UserLocation) : string :=
  match userLocation with
  | Some l => "
        // Override geolocation with native location
        const nativeCoords = { latitude: " ++ Number.toString (lat l) ++ ", longitude: " ++ Number.toString (long l) ++ " };

        navigator.geolocation.getCurrentPosition = function(success, error, options) {
          success({
            coords: {
              latitude: nativeCoords.latitude,
              longitude: nativeCoords.longitude,
              accuracy: 100,
              altitude: null,
              altitudeAccuracy: null,
              heading: null,
              speed: null
            },
            timestamp: Date.now()
          });
        };
      "
  | None => EmptyString
  end.

(** [getInjectedJavaScript] (lines 55-125) *)
Definition getInjectedJavaScript (st : State) : string :=
  "
      (function() {
        " ++ locationOverride (userLocation st) ++ "

        // Intercept window.open to open links in native browser
        const originalOpen = window.open;
        window.open = function(url, target, features) {
          if (url && window.ReactNativeWebView) {
            window.ReactNativeWebView.postMessage(JSON.stringify({
              type: 'external_link',
              url: url
            }));
            return null;
          }
          return originalOpen.call(window, url, target, features);
        };

        // Also intercept link clicks with target=" ++ q "_blank" ++ "
        document.addEventListener('click', function(e) {
          const link = e.target.closest('a[target=" ++ q "_blank" ++ "]');
          if (link && link.href) {
            e.preventDefault();
            window.ReactNativeWebView.postMessage(JSON.stringify({
              type: 'external_link',
              url: link.href
            }));
          }
        }, true);

        // Report height changes
        function reportHeight() {
          const height = Math.max(
            document.body.scrollHeight,
            document.documentElement.scrollHeight
          );
          if (window.ReactNativeWebView) {
            window.ReactNativeWebView.postMessage(JSON.stringify({ type: 'resize', height }));
          }
        }

        new ResizeObserver(reportHeight).observe(document.body);
        window.addEventListener('load', () => setTimeout(reportHeight, 500));
        setInterval(reportHeight, 1000); // Periodic check for dynamic content

        true;
      })();
    ".

(** The JSON configuration block of the markup (lines 144-151). *)
Definition config (widgetId : string) : string :=
  "{
  " ++ q "widget_id" ++ ": " ++ q widgetId ++ ",
  " ++ q "consent_position" ++ ": " ++ q "above-condition" ++ ",
  " ++ q "button_background_color" ++ ": " ++ q "#233b65" ++ ",
  " ++ q "text_accent_color" ++ ": " ++ q "#120c0e" ++ ",
  " ++ q "max_height_mode" ++ ": " ++ q "fill" ++ ",
  " ++ q "container_style" ++ ": " ++ q "none" ++ "
}".

Definition html_before_config : string :=
  "
    <!DOCTYPE html>
    <html>
    <head>
      <meta name=" ++ q "viewport" ++ " content=" ++ q "width=device-width, initial-scale=1, maximum-scale=1, user-scalable=no" ++ ">
      <style>
        * { box-sizing: border-box; }
        html, body {
          margin: 0;
          padding: 0;
          overflow-x: hidden;
          -webkit-overflow-scrolling: touch;
        }
      </style>
    </head>
    <body>
      <script type=" ++ q "application/json" ++ " data-prxengage-config>".

Definition html_after_config : string :=
  "</script>
      <prxengage-widget></prxengage-widget>
      <script src=" ++ q "https://widget.prxengage.com/widget.js" ++ "></script>
    </body>
    </html>
  ".

(** [html] (lines 128-156): the template with [widgetId] interpolated. *)
Definition html (widgetId : string) : string :=
  html_before_config ++ config widgetId ++ html_after_config.

(** [data.type === kind && data.field], the test of both branches of
    [handleMessage]: the field is read only when the discriminator is
    [kind], and is tested for truthiness. *)
Definition has_kind_and (data : JSValue) (kind field : string) : M bool :=
  t <- get data "type" ;;
  if strict_eq_str t kind then (x <- get data field ;; ret (truthy x)) else ret false.

Definition report_open_failure (err : JSValue) : M unit :=
  emit (ConsoleError "Failed to open URL:" err).

(** [handleMessage] (lines 159-176); [event_data] is
    [event.nativeEvent.data]. *)
Definition handleMessage (dev : Device) (event_data : string) : M unit :=
  try_catch
    (data <- JSON_parse_M event_data ;;
     is_resize <- has_kind_and data "resize" "height" ;;
     when is_resize (h <- get data "height" ;; setHeight h) ;;;
     is_link <- has_kind_and data "external_link" "url" ;;
     when is_link
       (u <- get data "url" ;;
        p <- Linking.openURL dev u ;;
        promise_catch p report_open_failure))
    (fun _ => ret tt).

(** The first test of [handleNavigationRequest] (lines 183-189). *)
Definition allowed_in_document (url : string) : bool :=
  String.eqb url "about:blank"
  || startsWith url "data:"
  || includes url "widget.prxengage.com"
  || includes url "api.prxengage.com"
  || includes url "api-staging.prxengage.com".

(** [handleNavigationRequest] (lines 179-202); [url] is [request.url].
    The result tells the WebView whether to load the URL itself. *)
Definition handleNavigationRequest (dev : Device) (url : string) : M bool :=
  if allowed_in_document url then ret true
  else if startsWith url "http" then
    p <- Linking.openURL dev (VStr url) ;;
    promise_catch p report_open_failure ;;;
    ret false
  else ret true.

(** *** Rendering *)

(** The props of the WebView that the claims are about; the constant
    flags (javaScriptEnabled, domStorageEnabled, ...) and the style
    sheets are left out. *)
Record WebViewProps : Type := {
  source_html : string;
  style_height : JSValue;
  onLoadEnd : M unit;
  onMessage : string -> M unit;
  onShouldStartLoadWithRequest : string -> M bool;
  injectedJavaScript : string
}.

Inductive Element : Type :=
| View (children : list Element)
| ActivityIndicator (size color : string)
| iframe (srcDoc : string) (style_height : number) (title allow : string)
| WebView (props : WebViewProps).

(** The function component (lines 25-254), after its hooks: what it
    returns for the current state. *)
Definition PRxWidget (dev : Device) (widgetId : string) (st : State) : Element :=
  if String.eqb (Platform.OS dev) "web" then
    View [iframe (html widgetId) (Number.of_Z 700) "PRx Widget" "geolocation"]
  else
    View ((if loading st then [View [ActivityIndicator "large" "#0891b2"]] else [])
          ++ [WebView {| source_html := html widgetId;
                         style_height := height st;
                         onLoadEnd := setLoading false;
                         onMessage := handleMessage dev;
                         onShouldStartLoadWithRequest := handleNavigationRequest dev;
                         injectedJavaScript := getInjectedJavaScript st |}])%list.

(** App.tsx *)
Definition WIDGET_ID : string := "dd0ed535-3143-4209-876d-8779f0cde888".

(** *** Events

    What can happen to a mounted component: the location request of the
    mount effect settles, or the embedded document host fires one of
    the callbacks of the rendered WebView. *)
Inductive Event : Type :=
| LocationSettled (L : Location.Service)
| LoadEnd
| Message (data : string)
| NavigationRequest (url : string).

(** The WebView of a rendered tree, if it has one. *)
Fixpoint find_WebView (children : list Element) : option WebViewProps :=
  match children with
  | [] => None
  | WebView p :: _ => Some p
  | _ :: rest => find_WebView rest
  end.

Definition rendered_WebView (e : Element) : option WebViewProps :=
  match e with
  | View children => find_WebView children
  | WebView p => Some p
  | _ => None
  end.

(** One event: the mount effect's continuation runs by itself, a
    WebView callback runs only if the current render has a WebView to
    call it. *)
Definition step (dev : Device) (widgetId : string) (ev : Event) : M unit :=
  match ev with
  | LocationSettled L => requestLocation L
  | _ =>
      fun st =>
        match rendered_WebView (PRxWidget dev widgetId st) with
        | None => ret tt st
        | Some p =>
            match ev with
            | LoadEnd => onLoadEnd p st
            | Message data => onMessage p data st
            | NavigationRequest url => (onShouldStartLoadWithRequest p url ;;; ret tt) st
            | LocationSettled _ => ret tt st
            end
        end
  end.

Fixpoint run (dev : Device) (widgetId : string) (evs : list Event) : M unit :=
  match evs with
  | [] => ret tt
  | ev :: evs' => step dev widgetId ev ;;; run dev widgetId evs'
  end.

(** ** The injected script inside the embedded document

    The script is text for the host, and a program for the document
    that runs it. Its first block (lines 58-74) is embedded here as the
    document runs it: the interpolated numerals are read back as
    JavaScript expressions, and the replaced [getCurrentPosition] calls
    its [success] argument. *)

(** The value of an interpolated numeral: NaN, Infinity, or a decimal
    literal, possibly negated. *)
Definition eval_number_text (s : string) : option number :=
  if String.eqb s "NaN" then Some S754_nan
  else if String.eqb s "Infinity" then Some (S754_infinity false)
  else if String.eqb s "-Infinity" then Some (S754_infinity true)
  else Number.of_literal s.

(** [const nativeCoords = { latitude: ${userLocation.lat}, longitude:
    ${userLocation.long} }] *)
Definition nativeCoords (l : UserLocation) : option JSValue :=
  match eval_number_text (Number.toString (lat l)),
        eval_number_text (Number.toString (long l)) with
  | Some a, Some b => Some (VObj [("latitude", VNum a); ("longitude", VNum b)])
  | _, _ => None
  end.

(** The [nativeCoords] of the override that the script installs over
    [navigator.geolocation.getCurrentPosition]; [None] when the script
    has no override block and the document keeps its own. *)
Definition installed_override (st : State) : option JSValue :=
  match userLocation st with
  | Some l => nativeCoords l
  | None => None
  end.

Definition field (v : JSValue) (k : string) : JSValue :=
  match getProp v k with
  | Some x => x
  | None => VUndefined
  end.

(** The function assigned to [getCurrentPosition] (lines 61-74), called
    by the document with its callbacks; [now] is what [Date.now()]
    returns at the call. *)
Definition getCurrentPosition_override {R : Type} (nativeCoords : JSValue) (now : number)
    (success : JSValue -> R) (error options : JSValue) : R :=
  success
    (VObj [("coords",
            VObj [("latitude", field nativeCoords "latitude");
                  ("longitude", field nativeCoords "longitude");
                  ("accuracy", VNum (Number.of_Z 100));
                  ("altitude", VNull);
                  ("altitudeAccuracy", VNull);
                  ("heading", VNull);
                  ("speed", VNull)]);
           ("timestamp", VNum now)]).

(** ** Vocabulary of the claims *)

(** A message the handler acts on: the discriminator and a truthy
    payload field. *)
Definition is_kind (data : JSValue) (kind : string) : bool :=
  strict_eq_str (field data "type") kind.

Definition actionable_resize (data : JSValue) : bool :=
  is_kind data "resize" && truthy (field data "height").

Definition actionable_link (data : JSValue) : bool :=
  is_kind data "external_link" && truthy (field data "url").

(** The message contract in the specification's words: discriminator
    resize with a number for height, or discriminator external_link
    with a string for url. *)
Definition spec_conforms_to_contract (data : JSValue) : bool :=
  (is_kind data "resize"
     && match field data "height" with VNum _ => true | _ => false end)
  || (is_kind data "external_link"
     && match field data "url" with VStr _ => true | _ => false end).

(** What the opener's answer adds to the trace: the failure of the
    device, written to the console. A URL that [Linking.openURL]
    refuses adds nothing: the call throws before there is a promise to
    fail. *)
Definition open_report (dev : Device) (url : JSValue) : list Effect :=
  if Linking.valid_url url then
    match open_result dev url with
    | Resolved _ => []
    | Rejected err => [ConsoleError "Failed to open URL:" err]
    end
  else [].

Definition with_height (st : State) (h : JSValue) : State :=
  {| loading := loading st; height := h; userLocation := userLocation st |}.

(** The state and trace [handleMessage] ends with, as a function of the
    parsed message. *)
Definition message_outcome (dev : Device) (text : string) (st : State)
  : State * list Effect :=
  match JSON.parse text with
  | None => (st, [])
  | Some data =>
      if actionable_resize data then (with_height st (field data "height"), [])
      else if actionable_link data then
        (st, OpenURL (field data "url") :: open_report dev (field data "url"))
      else (st, [])
  end.

(** The host names of the allow-list (lines 186-188). *)
Definition trusted_hosts : list string :=
  ["widget.prxengage.com"; "api.prxengage.com"; "api-staging.prxengage.com"].

(** The allow-list in the specification's words, an allow-list of
    trusted origins: the origin of the URL, the host between [://] and
    the next [/], [?] or [#], is one of the trusted hosts. *)
Fixpoint after_scheme (url : string) : option string :=
  match url with
  | String ":"%char (String "/"%char (String "/"%char rest)) => Some rest
  | String _ url' => after_scheme url'
  | EmptyString => None
  end.

Fixpoint authority (s : string) : string :=
  match s with
  | EmptyString => EmptyString
  | String c s' =>
      match c with
      | "/"%char | "?"%char | "#"%char => EmptyString
      | _ => String c (authority s')
      end
  end.

Definition origin_host (url : string) : option string :=
  option_map authority (after_scheme url).

Definition spec_matches_trusted_origin (url : string) : bool :=
  match origin_host url with
  | Some h => existsb (String.eqb h) trusted_hosts
  | None => false
  end.

(** The allow-list in the words of the specification's glossary, a
    trusted URL prefix: the URL starts with a trusted host, with or
    without a web scheme before it. *)
Definition spec_has_trusted_prefix (url : string) : bool :=
  existsb (fun h => startsWith url h
                    || startsWith url ("https://" ++ h)
                    || startsWith url ("http://" ++ h)) trusted_hosts.

(** The location service of a mount on which permission is refused, or
    the request or the position fix fails. *)
Definition location_unavailable (L : Location.Service) : Prop :=
  (exists status, Location.requestForegroundPermissionsAsync L = Resolved status
                  /\ status <> "granted")
  \/ (exists err, Location.requestForegroundPermissionsAsync L = Rejected err)
  \/ (exists err, Location.getCurrentPositionAsync L = Rejected err).

(** Messages as the injected script posts them:
    [JSON.stringify({ type: kind, field: value })] *)
Definition message_text (kind field value : string) : string :=
  "{" ++ q "type" ++ ":" ++ q kind ++ "," ++ q field ++ ":" ++ value ++ "}".

(** Two native platforms, one whose opener succeeds and one whose
    opener fails, and the web platform. *)
Definition ios : Device :=
  {| os := "ios"; open_result := fun _ => Resolved tt |}.

Definition android_no_browser : Device :=
  {| os := "android";
     open_result := fun _ => Rejected (VStr "No Activity found to handle Intent") |}.

Definition web : Device :=
  {| os := "web"; open_result := fun _ => Resolved tt |}.

Definition granted_at (latitude longitude : number) : Location.Service :=
  {| Location.requestForegroundPermissionsAsync := Resolved "granted";
     Location.getCurrentPositionAsync := Resolved {| lat := latitude; long := longitude |} |}.

Definition denied : Location.Service :=
  {| Location.requestForegroundPermissionsAsync := Resolved "denied";
     Location.getCurrentPositionAsync := Rejected (error_object "Error") |}.

(** The props of the WebView rendered on a native platform. *)
Definition native_WebView (dev : Device) (widgetId : string) (st : State) : WebViewProps :=
  {| source_html := html widgetId;
     style_height := height st;
     onLoadEnd := setLoading false;
     onMessage := handleMessage dev;
     onShouldStartLoadWithRequest := handleNavigationRequest dev;
     injectedJavaScript := getInjectedJavaScript st |}.

(** The three cases of the navigation policy, as the code tests them. *)
Definition allow_listed (url : string) : Prop :=
  url = "about:blank"
  \/ (exists rest, url = "data:" ++ rest)
  \/ (exists host pre post, In host trusted_hosts /\ url = pre ++ host ++ post).

Definition web_scheme (url : string) : Prop := exists rest, url = "http" ++ rest.

(** The URLs handed to the external opener in a trace. *)
Fixpoint open_requests (t : list Effect) : list JSValue :=
  match t with
  | [] => []
  | OpenURL url :: t' => url :: open_requests t'
  | _ :: t' => open_requests t'
  end.

Definition is_LocationSettled (ev : Event) : bool :=
  match ev with LocationSettled _ => true | _ => false end.

Definition is_LoadEnd (ev : Event) : bool :=
  match ev with LoadEnd => true | _ => false end.

(** Identifiers that need no escaping inside a JSON string: no control
    character, no double quote, no backslash. *)
Definition json_safe_char (c : ascii) : bool :=
  negb (Ascii.eqb c "034") && negb (Ascii.eqb c "\") && negb (nat_of_ascii c <? 32)%nat.

Fixpoint json_safe (s : string) : bool :=
  match s with
  | EmptyString => true
  | String c s' => json_safe_char c && json_safe s'
  end.

(** The configuration block as an object. *)
Definition config_object (widgetId : string) : JSValue :=
  VObj [("widget_id", VStr widgetId);
        ("consent_position", VStr "above-condition");
        ("button_background_color", VStr "#233b65");
        ("text_accent_color", VStr "#120c0e");
        ("max_height_mode", VStr "fill");
        ("container_style", VStr "none")].

(** *** The configuration block, as the document delimits it

    The markup is text for the component and a document for the
    WebView. The text of a script element runs from its start tag to
    the first end tag: the characters [</script], in either case,
    followed by white space, [/] or [>] (HTML, script data state).
    After [<!--] the parser is in its escaped states, which are not
    modelled: [script_data] gives no answer for such a text, as it
    gives none for an element that is not closed. *)

Definition lower (c : ascii) : ascii :=
  let n := nat_of_ascii c in
  if ((65 <=? n) && (n <=? 90))%nat then ascii_of_nat (n + 32) else c.

(** [s] without its prefix [p], characters compared by [same]. *)
Fixpoint drop_prefix_by (same : ascii -> ascii -> bool) (p s : string) : option string :=
  match p with
  | EmptyString => Some s
  | String a p' =>
      match s with
      | String b s' => if same a b then drop_prefix_by same p' s' else None
      | EmptyString => None
      end
  end.

Definition drop_prefix : string -> string -> option string := drop_prefix_by Ascii.eqb.

(** Letters compared in either case. *)
Definition drop_prefix_ci : string -> string -> option string :=
  drop_prefix_by (fun a b => Ascii.eqb (lower a) (lower b)).

Definition closes_tag_name (s : string) : bool :=
  match s with
  | String c _ =>
      Ascii.eqb c " " || Ascii.eqb c "009" || Ascii.eqb c "010" || Ascii.eqb c "012"
      || Ascii.eqb c "013" || Ascii.eqb c "/" || Ascii.eqb c ">"
  | EmptyString => false
  end.

Definition at_script_end_tag (s : string) : bool :=
  match drop_prefix_ci "</script" s with
  | Some rest => closes_tag_name rest
  | None => false
  end.

Definition at_comment_start (s : string) : bool :=
  match drop_prefix_ci "<!--" s with
  | Some _ => true
  | None => false
  end.

(** The text of a script element, given the markup after its start
    tag. *)
Fixpoint script_data (s : string) : option string :=
  match s with
  | EmptyString => None
  | String c s' =>
      if at_comment_start s then None
      else if at_script_end_tag s then Some EmptyString
      else option_map (String c) (script_data s')
  end.

(** The markup after the first occurrence of [tag]. *)
Fixpoint after_first (tag s : string) : option string :=
  match drop_prefix tag s with
  | Some rest => Some rest
  | None =>
      match s with
      | EmptyString => None
      | String _ s' => after_first tag s'
      end
  end.

(** The start tag of the configuration block (line 144). *)
Definition config_start_tag : string :=
  "<script type=" ++ q "application/json" ++ " data-prxengage-config>".

(** The configuration block of a document: the text of its
    [script[data-prxengage-config]] element. *)
Definition config_block (doc : string) : option string :=
  match after_first config_start_tag doc with
  | Some rest => script_data rest
  | None => None
  end.

(** An identifier that is written into the markup as it is and
    arrives as the [widget_id] of the block: it needs no escaping in a
    JSON string, and has no [<] that could start a tag or a comment
    inside the script element. *)
Definition plain_identifier (widgetId : string) : bool :=
  json_safe widgetId && negb (includes widgetId "<").

(** An identifier that closes the string of the [widget_id] entry and
    adds an entry of its own. *)
Definition forged_identifier : string :=
  "x" ++ dq ++ ", " ++ q "widget_id" ++ ": " ++ dq ++ "evil".

(** ** The rest of the injected script, inside the embedded document

    The blocks after the geolocation override (lines 82-120): the
    replacement of [window.open], the click listener, [reportHeight]
    and the three registrations that call it. They run in the
    document: what they do there is a trace of document effects. *)

(** What the script reads of its window: whether the host has put
    [window.ReactNativeWebView] there, what the original [window.open]
    returns, and the two scroll heights. *)
Record Window : Type := {
  ReactNativeWebView : bool;
  originalOpen_result : JSValue -> JSValue -> JSValue -> JSValue;
  body_scrollHeight : number;
  documentElement_scrollHeight : number
}.

Inductive DocEffect : Type :=
| PostMessage (data : string)                     (* ReactNativeWebView.postMessage(data) *)
| OriginalOpen (url target features : JSValue)    (* originalOpen.call(window, ...) *)
| PreventDefault.                                 (* e.preventDefault() *)

(** A function of the script: it completes normally or throws, and
    leaves a trace. *)
Definition Doc (A : Type) : Type := Completion A * list DocEffect.

Definition doc_ret {A} (a : A) : Doc A := (Normal a, []).

Definition doc_bind {A B} (m : Doc A) (f : A -> Doc B) : Doc B :=
  match m with
  | (Normal a, t1) => let '(r, t2) := f a in (r, (t1 ++ t2)%list)
  | (Throw e, t1) => (Throw e, t1)
  end.

Definition doc_emit (e : DocEffect) : Doc unit := (Normal tt, [e]).

Notation "m ;>> k" := (doc_bind m (fun _ => k))
  (at level 61, right associativity).

(** [window.ReactNativeWebView.postMessage(JSON.stringify(message))]:
    a TypeError when the host object is not there. The messages of the
    script are objects, which JSON.stringify always serialises. *)
Definition postMessage_JSON (w : Window) (message : JSValue) : Doc unit :=
  if ReactNativeWebView w then
    match JSON.stringify message with
    | Some text => doc_emit (PostMessage text)
    | None => doc_emit (PostMessage "undefined")
    end
  else (Throw (error_object "TypeError"), []).

Definition external_link_message (url : JSValue) : JSValue :=
  VObj [("type", VStr "external_link"); ("url", url)].

Definition resize_message (h : number) : JSValue :=
  VObj [("type", VStr "resize"); ("height", VNum h)].

(** The function assigned to [window.open] (lines 84-93). *)
Definition window_open (w : Window) (url target features : JSValue) : Doc JSValue :=
  if truthy url && ReactNativeWebView w then
    postMessage_JSON w (external_link_message url) ;>>
    doc_ret VNull
  else
    doc_emit (OriginalOpen url target features) ;>>
    doc_ret (originalOpen_result w url target features).

(** The click listener (lines 96-105); [link] is the [href] of
    [e.target.closest('a[target=_blank]')], if there is such an
    element. *)
Definition on_click (w : Window) (link : option string) : Doc unit :=
  match link with
  | Some href =>
      if truthy (VStr href) then
        doc_emit PreventDefault ;>>
        postMessage_JSON w (external_link_message (VStr href))
      else doc_ret tt
  | None => doc_ret tt
  end.

(** Math.max of two Numbers. *)
Definition Math_max (x y : number) : number :=
  match SFcompare x y with
  | None => S754_nan
  | Some Lt => y
  | Some Gt => x
  | Some Eq =>
      match x with
      | S754_zero true => y
      | _ => x
      end
  end.

(** [reportHeight] (lines 108-116) *)
Definition reportHeight (w : Window) : Doc unit :=
  let height := Math_max (body_scrollHeight w) (documentElement_scrollHeight w) in
  if ReactNativeWebView w then postMessage_JSON w (resize_message height)
  else doc_ret tt.

(** What the script has registered (lines 84, 96, 118-120), as the
    events that call it: a call of [window.open], a click, and the
    three occasions of [reportHeight]: the ResizeObserver of the body,
    the timeout set on load, the interval. *)
Inductive DocEvent : Type :=
| OpenCalled (url target features : JSValue)
| Clicked (link : option string)
| BodyResized
| LoadTimeout
| IntervalTick.

Definition injected (w : Window) (ev : DocEvent) : Doc unit :=
  match ev with
  | OpenCalled url target features =>
      doc_bind (window_open w url target features) (fun _ => doc_ret tt)
  | Clicked link => on_click w link
  | BodyResized | LoadTimeout | IntervalTick => reportHeight w
  end.

(** The messages a trace of the document hands to the host: each is
    one [onMessage] event of the WebView. *)
Fixpoint posted (t : list DocEffect) : list string :=
  match t with
  | [] => []
  | PostMessage data :: t' => data :: posted t'
  | _ :: t' => posted t'
  end.

(** A window inside the WebView, and one outside of it. *)
Definition webview_window (body root : number) : Window :=
  {| ReactNativeWebView := true;
     originalOpen_result := fun _ _ _ => VNull;
     body_scrollHeight := body;
     documentElement_scrollHeight := root |}.

Definition bare_window : Window :=
  {| ReactNativeWebView := false;
     originalOpen_result := fun _ _ _ => VObj [];
     body_scrollHeight := Number.of_Z 0;
     documentElement_scrollHeight := Number.of_Z 0 |}.


(** ** Vocabulary of the further properties *)

(** The messages of a document trace, as the events they are for the
    host. *)
Definition delivered (t : list DocEffect) : list Event := map Message (posted t).

(** An event that the handler reads as a resize. *)
Definition is_resize (ev : Event) : bool :=
  match ev with
  | Message text =>
      match JSON.parse text with
      | Some data => actionable_resize data
      | None => false
      end
  | _ => false
  end.

(** The URLs that one event hands to the opener of a native platform. *)
Definition requested (ev : Event) : list JSValue :=
  match ev with
  | Message text =>
      match JSON.parse text with
      | Some data => if actionable_link data then [field data "url"] else []
      | None => []
      end
  | NavigationRequest url =>
      if allowed_in_document url then []
      else if startsWith url "http" then [VStr url] else []
  | _ => []
  end.

(** Every character of [s] satisfies [p]. *)
Fixpoint all_chars (p : ascii -> bool) (s : string) : bool :=
  match s with
  | EmptyString => true
  | String c s' => p c && all_chars p s'
  end.

(** The first character of a JSON number: a minus sign or a digit. *)
Definition starts_number (s : string) : bool :=
  match s with
  | String c _ => Ascii.eqb c "-" || Number.is_digit c
  | EmptyString => false
  end.

(** * Properties *)

(** ** The platform model on examples *)

Example toString_integers :
  Number.toString (Number.of_Z 37) = "37"
  /\ Number.toString (Number.of_Z (-122)) = "-122"
  /\ Number.toString (Number.of_Z 600) = "600"
  /\ Number.toString (Number.of_Z 0) = "0"
  /\ Number.toString (Number.of_Z (10 ^ 21)) = "1e+21"
  /\ Number.toString (Number.of_Z 123456789012345680000) = "123456789012345680000".
Proof. repeat (split; [vm_compute; reflexivity|]). vm_compute. reflexivity. Qed.

Example toString_fractions :
  Number.toString (Number.of_decimal false 1 (-1)) = "0.1"
  /\ Number.toString (Number.of_decimal false 377749295 (-7)) = "37.7749295"
  /\ Number.toString (Number.of_decimal true 1224194155 (-7)) = "-122.4194155"
  /\ Number.toString (Number.of_decimal false 1 (-6)) = "0.000001"
  /\ Number.toString (Number.of_decimal false 1 (-7)) = "1e-7"
  /\ Number.toString (Number.of_decimal false 5 (-324)) = "5e-324"
  /\ Number.toString (Number.of_decimal false 17976931348623157 292)
     = "1.7976931348623157e+308"
  /\ Number.toString (Number.of_decimal false 30000000000000004 (-17))
     = "0.30000000000000004".
Proof. repeat (split; [vm_compute; reflexivity|]). vm_compute. reflexivity. Qed.

Example of_literal_examples :
  Number.of_literal "842" = Some (Number.of_Z 842)
  /\ Number.of_literal "-0" = Some (S754_zero true)
  /\ Number.of_literal "8.42e2" = Some (Number.of_Z 842)
  /\ Number.of_literal "1e999" = Some (S754_infinity false)
  /\ Number.of_literal "0.1" = Some (S754_finite false 7205759403792794 (-56))
  /\ Number.of_literal "9007199254740993" = Some (Number.of_Z 9007199254740992)
  /\ Number.of_literal "01" = None
  /\ Number.of_literal "1." = None
  /\ Number.of_literal ".5" = None
  /\ Number.of_literal "+1" = None
  /\ Number.of_literal "1e" = None.
Proof. repeat (split; [vm_compute; reflexivity|]). vm_compute. reflexivity. Qed.

Example JSON_parse_examples :
  JSON.parse (message_text "resize" "height" "842")
    = Some (VObj [("type", VStr "resize"); ("height", VNum (Number.of_Z 842))])
  /\ JSON.parse (" [1, true, null, {" ++ q "a" ++ ": []}, " ++ q "b\n" ++ "] ")
     = Some (VArr [VNum (Number.of_Z 1); VBool true; VNull; VObj [("a", VArr [])];
                   VStr ("b" ++ nl)])
  /\ JSON.parse ("{" ++ q "a" ++ ":1," ++ q "b" ++ ":2," ++ q "a" ++ ":3}")
     = Some (VObj [("a", VNum (Number.of_Z 3)); ("b", VNum (Number.of_Z 2))])
  /\ JSON.parse (q "\u0041\u00e9\ud83d\ude00")
     = Some (VStr ("A" ++ JSON.utf8 233 ++ JSON.utf8 128512))
  /\ JSON.parse "null" = Some VNull
  /\ JSON.parse EmptyString = None
  /\ JSON.parse "[object Object]" = None
  /\ JSON.parse "{'type':'resize'}" = None
  /\ JSON.parse "[1,]" = None
  /\ JSON.parse "tru" = None
  /\ JSON.parse "1 2" = None
  /\ JSON.parse (q ("tab" ++ String "009"%char EmptyString)) = None.
Proof. repeat (split; [vm_compute; reflexivity|]). vm_compute. reflexivity. Qed.

(** ** Strings *)

Lemma prefix_spec (p s : string) :
  String.prefix p s = true <-> exists rest, s = p ++ rest.
Proof.
  revert s. induction p as [|c p IH]; intros s; simpl.
  - split; [intros _; exists s; reflexivity | intros _; destruct s; reflexivity].
  - destruct s as [|d s].
    + split; [discriminate | intros [rest H]; discriminate].
    + simpl. destruct (ascii_dec c d) as [->|Hcd].
      * rewrite IH. split; intros [rest H]; exists rest.
        -- now rewrite H.
        -- now injection H.
      * split; [discriminate | intros [rest H]; injection H; congruence].
Qed.

Lemma includes_spec (s needle : string) :
  includes s needle = true <-> exists pre post, s = pre ++ needle ++ post.
Proof.
  induction s as [|c s IH]; cbn [includes].
  - rewrite orb_false_r, prefix_spec. split.
    + intros [rest H]. exists EmptyString, rest. exact H.
    + intros [pre [post H]]. destruct pre; simpl in H; [now exists post | discriminate].
  - rewrite orb_true_iff, prefix_spec, IH. split.
    + intros [[rest H] | [pre [post H]]].
      * exists EmptyString, rest. exact H.
      * exists (String c pre), post. simpl. now rewrite H.
    + intros [pre [post H]]. destruct pre as [|d pre]; simpl in H.
      * left. now exists post.
      * right. exists pre, post. now injection H.
Qed.

Lemma append_empty_r (s : string) : s ++ EmptyString = s.
Proof. induction s as [|c s IH]; simpl; [reflexivity | now rewrite IH]. Qed.

Lemma append_assoc (s1 s2 s3 : string) : (s1 ++ s2) ++ s3 = s1 ++ s2 ++ s3.
Proof. induction s1 as [|c s1 IH]; simpl; [reflexivity | now rewrite IH]. Qed.

Lemma allowed_in_document_spec (url : string) :
  allowed_in_document url = true <-> allow_listed url.
Proof.
  unfold allowed_in_document, allow_listed, startsWith, trusted_hosts.
  rewrite !orb_true_iff, String.eqb_eq, prefix_spec, !includes_spec. split.
  - intros [[[[H | H] | [pre [post H]]] | [pre [post H]]] | [pre [post H]]]; auto.
    + right; right. exists "widget.prxengage.com", pre, post. simpl; auto.
    + right; right. exists "api.prxengage.com", pre, post. simpl; auto.
    + right; right. exists "api-staging.prxengage.com", pre, post. simpl; auto 6.
  - intros [H | [H | [host [pre [post [Hin H]]]]]]; auto.
    simpl in Hin. destruct Hin as [<- | [<- | [<- | []]]]; eauto 8.
Qed.

(** ** JSON.parse *)

Module JSONFacts.
Import JSON.

Lemma progress_SyntaxError {A : Type} (n : nat) : progress (@SyntaxError A) n.
Proof. split; [discriminate | intros; discriminate]. Qed.

Lemma progress_Parsed {A : Type} (a : A) (r : list token) (n : nat) :
  List.length r < n -> progress (Parsed a r) n.
Proof. intros H. split; [discriminate | intros a' r' E; now inversion E; subst]. Qed.

(** After a call that made progress: the result of the caller, which
    wraps a parsed value and keeps its rest. *)
Ltac after_call f IH :=
  let Hne := fresh "Hne" in
  let Hlen := fresh "Hlen" in
  destruct IH as [Hne Hlen];
  match goal with
  | |- context [f ?fuel ?ts] => destruct (f fuel ts) eqn:?
  end;
  [ specialize (Hlen _ _ eq_refl) | apply progress_SyntaxError | now elim Hne ].

Lemma parse_fuel_enough (fuel : nat) :
  (forall ts, 2 * List.length ts + 1 <= fuel ->
     progress (parse_value fuel ts) (List.length ts))
  /\ (forall ts, 2 * List.length ts + 2 <= fuel ->
     progress (parse_elements fuel ts) (List.length ts))
  /\ (forall ts, 2 * List.length ts + 2 <= fuel ->
     progress (parse_members fuel ts) (List.length ts)).
Proof.
  induction fuel as [|fuel [IHv [IHe IHm]]]; [repeat split; intros; lia|].
  split; [|split]; intros ts Hf.
  - destruct ts as [|t r]; [apply progress_SyntaxError|].
    cbn [List.length] in Hf.
    destruct t; cbn [parse_value];
      try apply progress_SyntaxError; try (apply progress_Parsed; cbn; lia).
    + (* an object *)
      destruct r as [|t' r'].
      * after_call parse_members (IHm [] ltac:(cbn; lia)).
        cbn in *. lia.
      * assert (Hcall : progress (parse_members fuel (t' :: r')) (List.length (t' :: r')))
          by (apply IHm; cbn [List.length] in *; lia).
        destruct t';
          try (after_call parse_members Hcall;
               apply progress_Parsed; cbn in *; lia).
        apply progress_Parsed. cbn. lia.
    + (* an array *)
      destruct r as [|t' r'].
      * after_call parse_elements (IHe [] ltac:(cbn; lia)).
        cbn in *. lia.
      * assert (Hcall : progress (parse_elements fuel (t' :: r')) (List.length (t' :: r')))
          by (apply IHe; cbn [List.length] in *; lia).
        destruct t';
          try (after_call parse_elements Hcall;
               apply progress_Parsed; cbn in *; lia).
        apply progress_Parsed. cbn. lia.
  - cbn [parse_elements].
    after_call parse_value (IHv ts ltac:(lia)).
    destruct rest as [|t r2]; [apply progress_SyntaxError|].
    destruct t; try apply progress_SyntaxError.
    + apply progress_Parsed. cbn in *. lia.
    + after_call parse_elements (IHe r2 ltac:(cbn [List.length] in *; lia)).
      apply progress_Parsed. cbn in *. lia.
  - cbn [parse_members].
    destruct ts as [|t r]; [apply progress_SyntaxError|].
    destruct t; try apply progress_SyntaxError.
    destruct r as [|t r]; [apply progress_SyntaxError|].
    destruct t; try apply progress_SyntaxError.
    after_call parse_value (IHv r ltac:(cbn [List.length] in *; lia)).
    destruct rest as [|t r2]; [apply progress_SyntaxError|].
    destruct t; try apply progress_SyntaxError.
    + apply progress_Parsed. cbn in *. lia.
    + after_call parse_members (IHm r2 ltac:(cbn [List.length] in *; lia)).
      apply progress_Parsed. cbn in *. lia.
Qed.

(** The fuel [JSON.parse] gives its parser is enough: a [None] is a
    syntax error, never a parse cut short. *)
Lemma parse_has_fuel (ts : list token) :
  parse_value (parse_fuel ts) ts <> OutOfFuel.
Proof. apply (parse_fuel_enough (parse_fuel ts)). unfold parse_fuel. lia. Qed.

(** Inside a string literal the lexer copies safe characters as they
    are. *)
Lemma lex_InString_safe (s acc rest : string) :
  json_safe s = true ->
  lex (InString acc) (s ++ rest) = lex (InString (acc ++ s)) rest.
Proof.
  revert acc. induction s as [|c s IH]; intros acc Hs.
  - now rewrite append_empty_r.
  - cbn [json_safe] in Hs. apply andb_true_iff in Hs as [Hc Hs].
    unfold json_safe_char in Hc.
    apply andb_true_iff in Hc as [Hc H32]. apply andb_true_iff in Hc as [Hq Hb].
    apply negb_true_iff in Hq, Hb, H32.
    cbn [append lex]. rewrite Hq, Hb, H32, (IH _ Hs).
    unfold snoc. now rewrite append_assoc.
Qed.

Lemma lex_config (widgetId : string) :
  json_safe widgetId = true ->
  lex Between (config widgetId)
  = Some [TLBrace;
          TString "widget_id"; TColon; TString widgetId; TComma;
          TString "consent_position"; TColon; TString "above-condition"; TComma;
          TString "button_background_color"; TColon; TString "#233b65"; TComma;
          TString "text_accent_color"; TColon; TString "#120c0e"; TComma;
          TString "max_height_mode"; TColon; TString "fill"; TComma;
          TString "container_style"; TColon; TString "none";
          TRBrace].
Proof.
  intros Hs. unfold config, q, dq. cbn.
  rewrite append_assoc, (lex_InString_safe _ _ _ Hs). vm_compute. reflexivity.
Qed.

End JSONFacts.

(** ** The handlers, run *)

Lemma getProp_some (data : JSValue) (k k' : string) (x : JSValue) :
  getProp data k = Some x -> getProp data k' = Some (field data k').
Proof.
  unfold field. destruct data; simpl; try discriminate; intros _; try reflexivity.
  destruct (lookup k' props); reflexivity.
Qed.

Lemma field_getProp (data : JSValue) (k : string) (x : JSValue) :
  getProp data k = Some x -> field data k = x.
Proof. unfold field. now intros ->. Qed.

Lemma has_kind_and_run (data : JSValue) (kind fld : string) (st : State) :
  has_kind_and data kind fld st =
  match getProp data "type" with
  | Some _ => (Normal (is_kind data kind && truthy (field data fld)), st, [])
  | None => (Throw (error_object "TypeError"), st, [])
  end.
Proof.
  unfold has_kind_and, get, bind, is_kind.
  destruct (getProp data "type") as [t|] eqn:Ht; [|reflexivity].
  rewrite (field_getProp _ _ _ Ht). cbn.
  destruct (strict_eq_str t kind); [|reflexivity].
  rewrite (getProp_some _ _ fld _ Ht). reflexivity.
Qed.

Lemma is_kind_exclusive (data : JSValue) (k1 k2 : string) :
  k1 <> k2 -> is_kind data k1 = true -> is_kind data k2 = false.
Proof.
  unfold is_kind, strict_eq_str. intros Hne.
  destruct (field data "type"); try discriminate.
  rewrite String.eqb_eq. intros ->. now apply String.eqb_neq.
Qed.

(** [handleMessage] always completes normally, with the state and the
    trace of [message_outcome]. *)
Lemma handleMessage_run (dev : Device) (text : string) (st : State) :
  handleMessage dev text st =
  (Normal tt, fst (message_outcome dev text st), snd (message_outcome dev text st)).
Proof.
  unfold handleMessage, message_outcome, JSON_parse_M, try_catch.
  destruct (JSON.parse text) as [data|]; [|reflexivity].
  unfold bind at 1. unfold ret at 1.
  unfold bind at 1. rewrite has_kind_and_run.
  unfold actionable_resize, actionable_link.
  destruct (getProp data "type") as [t|] eqn:Ht.
  - destruct (is_kind data "resize" && truthy (field data "height")) eqn:Hr.
    + apply andb_true_iff in Hr as [Hk _].
      unfold when, bind, get. rewrite (getProp_some _ _ "height" _ Ht).
      cbn. rewrite has_kind_and_run, Ht.
      rewrite (is_kind_exclusive data "resize" "external_link") by (discriminate || assumption).
      reflexivity.
    + unfold when at 1. unfold bind at 1. unfold ret at 1.
      unfold bind at 1. rewrite has_kind_and_run, Ht.
      destruct (is_kind data "external_link" && truthy (field data "url")) eqn:Hl.
      * unfold when, bind, get, Linking.openURL, bind, emit, ret, throw, promise_catch,
          open_report.
        rewrite (getProp_some _ _ "url" _ Ht).
        destruct (Linking.valid_url (field data "url")); [|reflexivity].
        destruct (open_result dev (field data "url")); reflexivity.
      * reflexivity.
  - assert (Hk : forall k, is_kind data k = false).
    { intros k. unfold is_kind, field. now rewrite Ht. }
    rewrite !Hk. reflexivity.
Qed.

(** A URL that starts with http is one that [Linking.openURL] takes. *)
Lemma valid_url_web_scheme (url : string) :
  startsWith url "http" = true -> Linking.valid_url (VStr url) = true.
Proof. destruct url; [discriminate | reflexivity]. Qed.

Lemma open_report_valid (dev : Device) (url : JSValue) :
  Linking.valid_url url = true ->
  open_report dev url
  = match open_result dev url with
    | Resolved _ => []
    | Rejected err => [ConsoleError "Failed to open URL:" err]
    end.
Proof. unfold open_report. now intros ->. Qed.

Lemma valid_url_nonempty (url : string) :
  url <> EmptyString -> Linking.valid_url (VStr url) = true.
Proof. intros H. apply String.eqb_neq in H. cbn. now rewrite H. Qed.

Lemma handleNavigationRequest_run (dev : Device) (url : string) (st : State) :
  handleNavigationRequest dev url st =
  if allowed_in_document url then (Normal true, st, [])
  else if startsWith url "http"
       then (Normal false, st, OpenURL (VStr url) :: open_report dev (VStr url))
       else (Normal true, st, []).
Proof.
  unfold handleNavigationRequest.
  destruct (allowed_in_document url); [reflexivity|].
  destruct (startsWith url "http") eqn:Hh; [|reflexivity].
  unfold bind, Linking.openURL, bind, emit, ret, promise_catch, open_report.
  rewrite (valid_url_web_scheme _ Hh).
  destruct (open_result dev (VStr url)); reflexivity.
Qed.

(** ** Navigation policy *)

(** What [handleNavigationRequest] decides, for every URL. A request
    is allowed in-document when its URL is about:blank, starts with
    data:, or has one of the host names widget.prxengage.com,
    api.prxengage.com, api-staging.prxengage.com anywhere in its text;
    any other URL that starts with http is handed to the external
    opener, exactly once, and vetoed; every remaining URL is allowed.
    The state is never touched and nothing is thrown. *)
Theorem handleNavigationRequest_policy (dev : Device) (url : string) (st : State) :
  ((allow_listed url
      /\ handleNavigationRequest dev url st = (Normal true, st, []))
   \/ (~ allow_listed url /\ web_scheme url
      /\ handleNavigationRequest dev url st
         = (Normal false, st, OpenURL (VStr url) :: open_report dev (VStr url))
      /\ open_requests (snd (handleNavigationRequest dev url st)) = [VStr url])
   \/ (~ allow_listed url /\ ~ web_scheme url
      /\ handleNavigationRequest dev url st = (Normal true, st, [])))
  /\ handleNavigationRequest dev "https://widget.prxengage.com/asset.js" st
     = (Normal true, st, [])
  /\ handleNavigationRequest dev "https://evil.example.com" st
     = (Normal false, st,
        OpenURL (VStr "https://evil.example.com")
          :: open_report dev (VStr "https://evil.example.com")).
Proof.
  split; [|split; rewrite handleNavigationRequest_run; reflexivity].
  rewrite handleNavigationRequest_run.
  destruct (allowed_in_document url) eqn:Ha.
  - left. split; [now apply allowed_in_document_spec | reflexivity].
  - assert (Hn : ~ allow_listed url).
    { intros H. apply allowed_in_document_spec in H. congruence. }
    destruct (startsWith url "http") eqn:Hh.
    + right; left. repeat split; trivial.
      * now apply prefix_spec.
      * rewrite (open_report_valid _ _ (valid_url_web_scheme _ Hh)).
        cbn. destruct (open_result dev (VStr url)); reflexivity.
    + right; right. repeat split; trivial.
      intros H. apply prefix_spec in H. unfold startsWith in Hh. congruence.
Qed.

(** C1. The handler at a URL of a foreign origin. This URL is not
    about:blank, has no data: scheme, and its origin,
    evil.example.com, is none of the trusted origins (nor does the URL
    start with one); it starts with http. The claim has it vetoed and
    handed to the external opener, and so do the comments of the
    handler: the first test is there to allow the initial load and the
    widget's resources, the second to open an external link in the
    native browser. The handler allows it in-document and does not
    call the opener, because the host name widget.prxengage.com occurs
    in its query: the first test looks for the host names anywhere in
    the text of the URL. *)
Lemma navigation_matches_substring_not_origin :
  "https://evil.example.com/?next=widget.prxengage.com" <> "about:blank"
  /\ startsWith "https://evil.example.com/?next=widget.prxengage.com" "data:" = false
  /\ origin_host "https://evil.example.com/?next=widget.prxengage.com"
     = Some "evil.example.com"
  /\ spec_matches_trusted_origin "https://evil.example.com/?next=widget.prxengage.com"
     = false
  /\ spec_has_trusted_prefix "https://evil.example.com/?next=widget.prxengage.com"
     = false
  /\ startsWith "https://evil.example.com/?next=widget.prxengage.com" "http" = true
  /\ handleNavigationRequest android_no_browser
       "https://evil.example.com/?next=widget.prxengage.com" mount
     = (Normal true, mount, [])
  /\ open_requests
       (snd (handleNavigationRequest android_no_browser
               "https://evil.example.com/?next=widget.prxengage.com" mount))
     = [].
Proof. repeat split; try reflexivity. discriminate. Qed.

(** ** Messages from the embedded document *)

Lemma message_outcome_parsed (dev : Device) (text : string) (data : JSValue) (st : State) :
  JSON.parse text = Some data ->
  message_outcome dev text st =
  if actionable_resize data then (with_height st (field data "height"), [])
  else if actionable_link data then
    (st, OpenURL (field data "url") :: open_report dev (field data "url"))
  else (st, []).
Proof. unfold message_outcome. now intros ->. Qed.

Lemma is_kind_getProp (data : JSValue) (kind : string) :
  getProp data "type" = Some (VStr kind) -> is_kind data kind = true.
Proof.
  intros H. unfold is_kind. rewrite (field_getProp _ _ _ H).
  apply String.eqb_refl.
Qed.

(** C2, as the code decides it. A message whose parsed payload has
    type resize and a height that is a number other than 0 (of either
    sign) and NaN sets ContainerHeight to exactly that number: nothing
    is clamped, nothing else in the state changes, nothing is sent to
    the opener, nothing is thrown. *)
Theorem resize_sets_height (dev : Device) (text : string) (data : JSValue)
    (h : number) (st : State) :
  JSON.parse text = Some data ->
  getProp data "type" = Some (VStr "resize") ->
  getProp data "height" = Some (VNum h) ->
  Number.truthy h = true ->
  handleMessage dev text st = (Normal tt, with_height st (VNum h), [])
  /\ height (with_height st (VNum h)) = VNum h
  /\ loading (with_height st (VNum h)) = loading st
  /\ userLocation (with_height st (VNum h)) = userLocation st.
Proof.
  intros Hp Ht Hh Htr.
  rewrite handleMessage_run, (message_outcome_parsed _ _ _ _ Hp).
  unfold actionable_resize.
  rewrite (is_kind_getProp _ _ Ht), (field_getProp _ _ _ Hh). simpl.
  rewrite Htr. repeat split.
Qed.

(** The message of the specification's example: height 842. *)
Lemma resize_842_sets_height :
  JSON.parse (message_text "resize" "height" "842")
    = Some (VObj [("type", VStr "resize"); ("height", VNum (Number.of_Z 842))])
  /\ handleMessage ios (message_text "resize" "height" "842") mount
     = (Normal tt, with_height mount (VNum (Number.of_Z 842)), []).
Proof.
  split; [reflexivity|].
  apply (resize_sets_height ios (message_text "resize" "height" "842")
           (VObj [("type", VStr "resize"); ("height", VNum (Number.of_Z 842))])
           (Number.of_Z 842) mount); reflexivity.
Defined.

(** Every resize message is applied as it arrives: two in a row leave
    the height of the second, and a third with height 0 changes
    nothing. *)
Example resize_messages_in_a_row :
  run ios WIDGET_ID
    [Message (message_text "resize" "height" "842");
     Message (message_text "resize" "height" "-3.5");
     Message (message_text "resize" "height" "0")] mount
  = (Normal tt, with_height mount (VNum (Number.of_decimal true 35 (-1))), []).
Proof. vm_compute. reflexivity. Qed.

(** C2, as stated, fails at height 0: the payload has type resize and
    the numeric height 0, and ContainerHeight stays at its initial 600
    instead of becoming 0. *)
Lemma resize_zero_keeps_height :
  JSON.parse (message_text "resize" "height" "0")
    = Some (VObj [("type", VStr "resize"); ("height", VNum (Number.of_Z 0))])
  /\ handleMessage ios (message_text "resize" "height" "0") mount
     = (Normal tt, mount, [])
  /\ height mount = VNum (Number.of_Z 600)
  /\ height mount <> VNum (Number.of_Z 0).
Proof. repeat split; try reflexivity. discriminate. Qed.

(** C3, as the code decides it. A message whose parsed payload has
    type external_link and a url that is a string other than the empty
    one makes the handler call the external opener exactly once, with
    exactly that URL. The
    handler returns nothing to the document host and leaves the state,
    and with it the rendered WebView and its source document, as they
    were. When the opener fails, the failure is written to the console
    and nothing is thrown. *)
Theorem external_link_opens_once (dev : Device) (widgetId text : string)
    (data : JSValue) (url : string) (st : State) :
  JSON.parse text = Some data ->
  getProp data "type" = Some (VStr "external_link") ->
  getProp data "url" = Some (VStr url) ->
  url <> EmptyString ->
  exists st' trace,
    handleMessage dev text st = (Normal tt, st', trace)
    /\ st' = st
    /\ PRxWidget dev widgetId st' = PRxWidget dev widgetId st
    /\ open_requests trace = [VStr url]
    /\ trace = OpenURL (VStr url) :: open_report dev (VStr url)
    /\ (forall err, open_result dev (VStr url) = Rejected err ->
        trace = [OpenURL (VStr url); ConsoleError "Failed to open URL:" err])
    /\ (open_result dev (VStr url) = Resolved tt -> trace = [OpenURL (VStr url)]).
Proof.
  intros Hp Ht Hu Hne.
  exists st, (OpenURL (VStr url) :: open_report dev (VStr url)).
  rewrite handleMessage_run, (message_outcome_parsed _ _ _ _ Hp).
  unfold actionable_resize, actionable_link.
  pose proof (is_kind_getProp _ _ Ht) as Hk.
  rewrite (is_kind_exclusive data "external_link" "resize") by (discriminate || assumption).
  rewrite Hk, (field_getProp _ _ _ Hu). simpl.
  pose proof (open_report_valid dev _ (valid_url_nonempty _ Hne)) as Hreport.
  apply String.eqb_neq in Hne. rewrite Hne. simpl.
  repeat split.
  - rewrite Hreport. destruct (open_result dev (VStr url)); reflexivity.
  - intros err He. rewrite Hreport. now rewrite He.
  - intros He. rewrite Hreport. now rewrite He.
Qed.

(** The message of the specification's example, on a device whose
    opener fails. *)
Lemma external_link_example_opens_once :
  exists st' trace,
    handleMessage android_no_browser
      (message_text "external_link" "url" (q "https://example.com/x")) mount
    = (Normal tt, st', trace)
    /\ st' = mount
    /\ PRxWidget android_no_browser WIDGET_ID st' = PRxWidget android_no_browser WIDGET_ID mount
    /\ open_requests trace = [VStr "https://example.com/x"]
    /\ trace = OpenURL (VStr "https://example.com/x")
                 :: open_report android_no_browser (VStr "https://example.com/x")
    /\ (forall err,
          open_result android_no_browser (VStr "https://example.com/x") = Rejected err ->
          trace = [OpenURL (VStr "https://example.com/x");
                   ConsoleError "Failed to open URL:" err])
    /\ (open_result android_no_browser (VStr "https://example.com/x") = Resolved tt ->
        trace = [OpenURL (VStr "https://example.com/x")]).
Proof.
  apply (external_link_opens_once android_no_browser WIDGET_ID
           (message_text "external_link" "url" (q "https://example.com/x"))
           (VObj [("type", VStr "external_link"); ("url", VStr "https://example.com/x")])
           "https://example.com/x" mount); try reflexivity.
  discriminate.
Defined.

(** C3, as stated, fails at the empty string: the payload has type
    external_link and a string for url, and no request reaches the
    opener. *)
Lemma external_link_empty_url_not_opened :
  JSON.parse (message_text "external_link" "url" (q EmptyString))
    = Some (VObj [("type", VStr "external_link"); ("url", VStr EmptyString)])
  /\ handleMessage ios (message_text "external_link" "url" (q EmptyString)) mount
     = (Normal tt, mount, [])
  /\ open_requests
       (snd (handleMessage ios (message_text "external_link" "url" (q EmptyString)) mount))
     = [].
Proof. repeat split. Qed.

(** C4, as the code decides it. A message that is not JSON, or whose
    parsed value is neither a type resize payload with a truthy height
    nor a type external_link payload with a truthy url (null, a number,
    a string, an array, an object with another or no type, or with a
    falsy payload field), is discarded: the whole state is unchanged,
    the opener is not called, nothing is logged and nothing is thrown. *)
Theorem unusable_message_discarded (dev : Device) (text : string) (st : State) :
  (JSON.parse text = None
   \/ exists data, JSON.parse text = Some data
                   /\ actionable_resize data = false
                   /\ actionable_link data = false) ->
  handleMessage dev text st = (Normal tt, st, []).
Proof.
  intros [Hp | [data [Hp [Hr Hl]]]]; rewrite handleMessage_run.
  - unfold message_outcome. now rewrite Hp.
  - rewrite (message_outcome_parsed _ _ _ _ Hp), Hr, Hl. reflexivity.
Qed.

(** Text that is not JSON, JSON null, and a payload whose discriminator
    sits in a field named kind instead of type. *)
Lemma unusable_messages_discarded :
  handleMessage ios "[object Object]" mount = (Normal tt, mount, [])
  /\ handleMessage ios "null" mount = (Normal tt, mount, [])
  /\ handleMessage ios ("{" ++ q "kind" ++ ":" ++ q "resize" ++ "," ++ q "height" ++ ":842}")
       mount = (Normal tt, mount, []).
Proof.
  split; [|split].
  - apply (unusable_message_discarded ios "[object Object]" mount).
    left. reflexivity.
  - apply (unusable_message_discarded ios "null" mount).
    right. exists VNull. repeat split.
  - apply (unusable_message_discarded ios
             ("{" ++ q "kind" ++ ":" ++ q "resize" ++ "," ++ q "height" ++ ":842}") mount).
    right. exists (VObj [("kind", VStr "resize"); ("height", VNum (Number.of_Z 842))]).
    repeat split.
Defined.

(** C4, as stated, fails: this message does not conform to the
    contract, its height being a string, and it is not discarded:
    ContainerHeight becomes that string. *)
Lemma nonconforming_resize_changes_height :
  JSON.parse (message_text "resize" "height" (q "tall"))
    = Some (VObj [("type", VStr "resize"); ("height", VStr "tall")])
  /\ spec_conforms_to_contract (VObj [("type", VStr "resize"); ("height", VStr "tall")]) = false
  /\ handleMessage ios (message_text "resize" "height" (q "tall")) mount
     = (Normal tt, with_height mount (VStr "tall"), [])
  /\ height (with_height mount (VStr "tall")) <> height mount.
Proof. repeat split; try reflexivity. discriminate. Qed.

(** C9. A message with the right discriminator and a falsy payload
    field, a resize whose height is falsy or an external_link whose url
    is falsy, changes no state and calls no opener. The test is
    truthiness: 0, NaN, a missing field (undefined) and the empty
    string are all falsy. *)
Theorem falsy_payload_ignored (dev : Device) (text : string) (data : JSValue) (st : State) :
  JSON.parse text = Some data ->
  (getProp data "type" = Some (VStr "resize") /\ truthy (field data "height") = false)
  \/ (getProp data "type" = Some (VStr "external_link") /\ truthy (field data "url") = false) ->
  handleMessage dev text st = (Normal tt, st, [])
  /\ open_requests (snd (handleMessage dev text st)) = []
  /\ truthy (VNum (S754_zero false)) = false
  /\ truthy (VNum (S754_zero true)) = false
  /\ truthy (VNum S754_nan) = false
  /\ truthy VUndefined = false
  /\ truthy (VStr EmptyString) = false.
Proof.
  intros Hp H.
  assert (Hrun : handleMessage dev text st = (Normal tt, st, [])).
  { rewrite handleMessage_run, (message_outcome_parsed _ _ _ _ Hp).
    unfold actionable_resize, actionable_link.
    destruct H as [[Ht Hf] | [Ht Hf]]; pose proof (is_kind_getProp _ _ Ht) as Hk.
    - rewrite (is_kind_exclusive data "resize" "external_link") by (discriminate || assumption).
      rewrite Hk, Hf. reflexivity.
    - rewrite (is_kind_exclusive data "external_link" "resize") by (discriminate || assumption).
      rewrite Hk, Hf. reflexivity. }
  rewrite Hrun. repeat split.
Qed.

(** A resize with height 0, a resize without height, and an
    external_link with the empty url. *)
Lemma falsy_payloads_ignored :
  handleMessage ios (message_text "resize" "height" "0") mount = (Normal tt, mount, [])
  /\ handleMessage ios (message_text "resize" "width" "842") mount = (Normal tt, mount, [])
  /\ handleMessage ios (message_text "external_link" "url" (q EmptyString)) mount
     = (Normal tt, mount, []).
Proof.
  split; [|split].
  - apply (falsy_payload_ignored ios (message_text "resize" "height" "0")
             (VObj [("type", VStr "resize"); ("height", VNum (Number.of_Z 0))]) mount).
    + reflexivity.
    + left. split; reflexivity.
  - apply (falsy_payload_ignored ios (message_text "resize" "width" "842")
             (VObj [("type", VStr "resize"); ("width", VNum (Number.of_Z 842))]) mount).
    + reflexivity.
    + left. split; reflexivity.
  - apply (falsy_payload_ignored ios (message_text "external_link" "url" (q EmptyString))
             (VObj [("type", VStr "external_link"); ("url", VStr EmptyString)]) mount).
    + reflexivity.
    + right. split; reflexivity.
Defined.

(** ** The component's life *)

Lemma requestLocation_run (L : Location.Service) (st : State) :
  requestLocation L st =
  match Location.requestForegroundPermissionsAsync L with
  | Resolved status =>
      if String.eqb status "granted" then
        match Location.getCurrentPositionAsync L with
        | Resolved l =>
            (Normal tt,
             {| loading := loading st; height := height st; userLocation := Some l |}, [])
        | Rejected err =>
            (Normal tt, st, [ConsoleLog "Location permission denied or error:" err])
        end
      else (Normal tt, st, [])
  | Rejected err => (Normal tt, st, [ConsoleLog "Location permission denied or error:" err])
  end.
Proof.
  unfold requestLocation, try_catch, bind, await, when.
  destruct (Location.requestForegroundPermissionsAsync L) as [status|err]; [|reflexivity].
  cbn. destruct (String.eqb status "granted"); [|reflexivity].
  destruct (Location.getCurrentPositionAsync L) as [[la lo]|err]; reflexivity.
Qed.

Lemma requestLocation_unavailable (L : Location.Service) (st : State) :
  location_unavailable L ->
  exists log, requestLocation L st = (Normal tt, st, log) /\ open_requests log = [].
Proof.
  intros H. rewrite requestLocation_run.
  destruct H as [[status [Hs Hne]] | [[err He] | [err He]]].
  - rewrite Hs. apply String.eqb_neq in Hne. rewrite Hne. now exists [].
  - rewrite He. eexists; split; reflexivity.
  - rewrite He. destruct (Location.requestForegroundPermissionsAsync L) as [status|e].
    + destruct (String.eqb status "granted"); eexists; split; reflexivity.
    + eexists; split; reflexivity.
Qed.

Lemma open_requests_app (t1 t2 : list Effect) :
  open_requests (t1 ++ t2) = (open_requests t1 ++ open_requests t2)%list.
Proof.
  induction t1 as [|e t1 IH]; [reflexivity|].
  destruct e; simpl; now rewrite IH.
Qed.

(** Without a stored coordinate the script has no override block. *)
Lemma no_location_no_override (st : State) :
  userLocation st = None ->
  installed_override st = None
  /\ locationOverride (userLocation st) = EmptyString
  /\ includes (getInjectedJavaScript st) "geolocation" = false
  /\ getInjectedJavaScript st = getInjectedJavaScript mount.
Proof.
  intros H. unfold installed_override, getInjectedJavaScript. rewrite H.
  split; [reflexivity|]. split; [reflexivity|].
  split; [vm_compute; reflexivity | reflexivity].
Qed.

(** Closes a goal [exists st' trace, m st = (Normal tt, st', trace) /\ ...]
    once [m st] has been computed. *)
Ltac step_done :=
  do 2 eexists; (split; [reflexivity|]); repeat split; auto; try discriminate.

Section Lifecycle.

Variable dev : Device.
Variable widgetId : string.

Lemma rendered_WebView_PRxWidget (st : State) :
  rendered_WebView (PRxWidget dev widgetId st) =
  if String.eqb (Platform.OS dev) "web" then None else Some (native_WebView dev widgetId st).
Proof.
  unfold PRxWidget. destruct (String.eqb (Platform.OS dev) "web"); [reflexivity|].
  destruct (loading st); reflexivity.
Qed.

(** What one event can do: it completes normally; only a settled
    location request writes [userLocation]; only [onLoadEnd] writes
    [loading], and it writes [false]. *)
Lemma step_effect (ev : Event) (st : State) :
  exists st' trace,
    step dev widgetId ev st = (Normal tt, st', trace)
    /\ (is_LocationSettled ev = false -> userLocation st' = userLocation st)
    /\ (is_LoadEnd ev = false -> loading st' = loading st)
    /\ (loading st = false -> loading st' = false)
    /\ (is_LocationSettled ev = true -> height st' = height st).
Proof.
  destruct ev as [L | | data | url]; unfold step;
    [rewrite requestLocation_run | rewrite rendered_WebView_PRxWidget ..].
  - destruct (Location.requestForegroundPermissionsAsync L) as [status|err];
      [destruct (String.eqb status "granted");
       [destruct (Location.getCurrentPositionAsync L)|]|]; step_done.
  - destruct (String.eqb (Platform.OS dev) "web"); step_done.
  - destruct (String.eqb (Platform.OS dev) "web"); [step_done|].
    cbn [onMessage native_WebView]. rewrite handleMessage_run. unfold message_outcome.
    destruct (JSON.parse data) as [d|];
      [destruct (actionable_resize d); [|destruct (actionable_link d)]|]; step_done.
  - destruct (String.eqb (Platform.OS dev) "web"); [step_done|].
    cbn [onShouldStartLoadWithRequest native_WebView].
    unfold bind at 1. rewrite handleNavigationRequest_run.
    destruct (allowed_in_document url); [|destruct (startsWith url "http")]; step_done.
Qed.

Lemma run_cons (ev : Event) (evs : list Event) (st st1 : State) (t1 : list Effect) :
  step dev widgetId ev st = (Normal tt, st1, t1) ->
  run dev widgetId (ev :: evs) st =
  let '(r, st2, t2) := run dev widgetId evs st1 in (r, st2, (t1 ++ t2)%list).
Proof. intros H. cbn [run]. unfold bind at 1. now rewrite H. Qed.

(** A run of events always completes normally. *)
Lemma run_normal (evs : list Event) (st : State) :
  exists st' trace, run dev widgetId evs st = (Normal tt, st', trace).
Proof.
  revert st. induction evs as [|ev evs IH]; intros st.
  - now exists st, [].
  - destruct (step_effect ev st) as [st1 [t1 [Hs _]]].
    destruct (IH st1) as [st2 [t2 Hr]].
    exists st2, (t1 ++ t2)%list. rewrite (run_cons _ _ _ _ _ Hs), Hr. reflexivity.
Qed.

(** C8. LoadingFlag is true on mount; it stays true as long as no
    load-end event arrives; on a native platform a load-end event makes
    it false; and once false it is false after every further run of
    events, whatever they are: no handler sets it back to true. *)
Theorem loading_false_is_permanent :
  loading mount = true
  /\ (forall evs st st' r trace,
        forallb (fun ev => negb (is_LoadEnd ev)) evs = true ->
        run dev widgetId evs st = (r, st', trace) -> loading st' = loading st)
  /\ (Platform.OS dev <> "web" ->
      forall st, exists st',
        step dev widgetId LoadEnd st = (Normal tt, st', []) /\ loading st' = false)
  /\ (forall evs st st' r trace,
        loading st = false ->
        run dev widgetId evs st = (r, st', trace) -> loading st' = false).
Proof.
  split; [reflexivity|]. split; [|split].
  - induction evs as [|ev evs IH]; intros st st' r trace Hall Hrun.
    + cbn in Hrun. now inversion Hrun.
    + cbn [forallb] in Hall. apply andb_true_iff in Hall as [Hev Hall].
      destruct (step_effect ev st) as [st1 [t1 [Hs [_ [Hl _]]]]].
      rewrite (run_cons _ _ _ _ _ Hs) in Hrun.
      destruct (run dev widgetId evs st1) as [[r2 st2] t2] eqn:Hr.
      inversion Hrun; subst.
      rewrite (IH _ _ _ _ Hall Hr). apply Hl. now destruct ev.
  - intros Hos st. apply String.eqb_neq in Hos.
    unfold step. rewrite rendered_WebView_PRxWidget, Hos.
    eexists. split; reflexivity.
  - induction evs as [|ev evs IH]; intros st st' r trace Hf Hrun.
    + cbn in Hrun. inversion Hrun; now subst.
    + destruct (step_effect ev st) as [st1 [t1 [Hs [_ [_ [Hk _]]]]]].
      rewrite (run_cons _ _ _ _ _ Hs) in Hrun.
      destruct (run dev widgetId evs st1) as [[r2 st2] t2] eqn:Hr.
      inversion Hrun; subst.
      apply (IH _ _ _ _ (Hk Hf) Hr).
Qed.

Lemma run_location_unavailable (evs : list Event) :
  Forall (fun ev => forall L, ev = LocationSettled L -> location_unavailable L) evs ->
  forall st, userLocation st = None ->
  exists st' trace trace',
    run dev widgetId evs st = (Normal tt, st', trace)
    /\ userLocation st' = None
    /\ run dev widgetId (filter (fun ev => negb (is_LocationSettled ev)) evs) st
       = (Normal tt, st', trace')
    /\ open_requests trace' = open_requests trace.
Proof.
  induction 1 as [|ev evs Hev _ IH]; intros st Hst.
  - exists st, [], []. repeat split; assumption.
  - destruct (is_LocationSettled ev) eqn:Hk.
    + destruct ev as [L | | |]; try discriminate.
      destruct (requestLocation_unavailable L st (Hev L eq_refl)) as [log [Hs Hlog]].
      destruct (IH st Hst) as [st' [t [t' [Hr [Hu [Hr' Ho]]]]]].
      exists st', (log ++ t)%list, t'.
      rewrite (run_cons (LocationSettled L) evs st st log Hs), Hr.
      cbn [filter is_LocationSettled negb]. rewrite open_requests_app, Hlog.
      repeat split; assumption.
    + destruct (step_effect ev st) as [st1 [t1 [Hs [Hu _]]]].
      destruct (IH st1) as [st' [t [t' [Hr [Hu' [Hr' Ho]]]]]].
      { rewrite (Hu Hk). exact Hst. }
      exists st', (t1 ++ t)%list, (t1 ++ t')%list.
      cbn [filter]. rewrite Hk. cbn [negb].
      rewrite !(run_cons _ _ _ _ _ Hs), Hr, Hr', !open_requests_app, Ho.
      repeat split; assumption.
Qed.

(** C6. When permission is refused, or the permission request or the
    position fix fails, the mount effect completes without throwing and
    stores no coordinate; in every run of events after mount the
    injected script then has no geolocation override (the document
    keeps its own getCurrentPosition), and the run ends in the same
    state, with the same requests to the opener, as the run without the
    location events: display is unaffected. *)
Theorem location_unavailable_no_override (evs : list Event) :
  Forall (fun ev => forall L, ev = LocationSettled L -> location_unavailable L) evs ->
  (forall L st, In (LocationSettled L) evs ->
     exists log, requestLocation L st = (Normal tt, st, log))
  /\ exists st' trace trace',
      run dev widgetId evs mount = (Normal tt, st', trace)
      /\ userLocation st' = None
      /\ installed_override st' = None
      /\ locationOverride (userLocation st') = EmptyString
      /\ includes (getInjectedJavaScript st') "geolocation" = false
      /\ run dev widgetId (filter (fun ev => negb (is_LocationSettled ev)) evs) mount
         = (Normal tt, st', trace')
      /\ open_requests trace' = open_requests trace.
Proof.
  intros Hall. split.
  - intros L st Hin. rewrite Forall_forall in Hall.
    destruct (requestLocation_unavailable L st (Hall _ Hin L eq_refl)) as [log [Hl _]].
    now exists log.
  - destruct (run_location_unavailable evs Hall mount eq_refl)
      as [st' [t [t' [Hr [Hu [Hr' Ho]]]]]].
    destruct (no_location_no_override st' Hu) as [H1 [H2 [H3 _]]].
    exists st', t, t'. repeat split; assumption.
Qed.

(** *** The web platform *)

Section Web.

Hypothesis on_web : Platform.OS dev = "web".

Lemma step_web (ev : Event) (st : State) :
  exists st' trace,
    step dev widgetId ev st = (Normal tt, st', trace)
    /\ height st' = height st
    /\ open_requests trace = []
    /\ (is_LocationSettled ev = false -> st' = st /\ trace = []).
Proof.
  destruct ev as [L | | data | url]; unfold step;
    [rewrite requestLocation_run | rewrite rendered_WebView_PRxWidget, on_web ..].
  - destruct (Location.requestForegroundPermissionsAsync L) as [status|err];
      [destruct (String.eqb status "granted");
       [destruct (Location.getCurrentPositionAsync L)|]|]; step_done.
  - now exists st, [].
  - now exists st, [].
  - now exists st, [].
Qed.

(** C10. On the web platform the component renders the markup in an
    inline frame whose height is the constant 700, whatever the state:
    ContainerHeight, with its initial 600, does not occur in the
    output. The output has no WebView, so it has no message handler: a
    message event reaches no handler, and no run of events changes
    ContainerHeight, the rendered output, or calls the opener. *)
Theorem web_renders_fixed_iframe :
  (forall st, PRxWidget dev widgetId st
              = View [iframe (html widgetId) (Number.of_Z 700) "PRx Widget" "geolocation"])
  /\ (forall st, rendered_WebView (PRxWidget dev widgetId st) = None)
  /\ (forall text st, step dev widgetId (Message text) st = (Normal tt, st, []))
  /\ (forall evs st, exists st' trace,
        run dev widgetId evs st = (Normal tt, st', trace)
        /\ height st' = height st
        /\ open_requests trace = []
        /\ PRxWidget dev widgetId st' = PRxWidget dev widgetId st).
Proof.
  assert (Hrender : forall st, PRxWidget dev widgetId st
            = View [iframe (html widgetId) (Number.of_Z 700) "PRx Widget" "geolocation"]).
  { intros st. unfold PRxWidget. now rewrite on_web. }
  split; [exact Hrender|]. split; [|split].
  - intros st. now rewrite rendered_WebView_PRxWidget, on_web.
  - intros text st.
    destruct (step_web (Message text) st) as [st' [t [Hs [_ [_ He]]]]].
    destruct (He eq_refl) as [-> ->]. exact Hs.
  - induction evs as [|ev evs IH]; intros st.
    + exists st, []. repeat split.
    + destruct (step_web ev st) as [st1 [t1 [Hs [Hh [Ho _]]]]].
      destruct (IH st1) as [st2 [t2 [Hr [Hh2 [Ho2 _]]]]].
      exists st2, (t1 ++ t2)%list.
      rewrite (run_cons _ _ _ _ _ Hs), Hr, open_requests_app, Ho, Ho2, Hh2, Hh, !Hrender.
      repeat split.
Qed.

End Web.

End Lifecycle.

Lemma denied_unavailable : location_unavailable denied.
Proof. left. exists "denied". split; [reflexivity | discriminate]. Defined.

(** Permission refused between a resize message and the end of the
    load. *)
Lemma location_denied_no_override :
  exists st' trace trace',
    run ios WIDGET_ID
      [Message (message_text "resize" "height" "842"); LocationSettled denied; LoadEnd] mount
    = (Normal tt, st', trace)
    /\ userLocation st' = None
    /\ installed_override st' = None
    /\ locationOverride (userLocation st') = EmptyString
    /\ includes (getInjectedJavaScript st') "geolocation" = false
    /\ run ios WIDGET_ID
         (filter (fun ev => negb (is_LocationSettled ev))
            [Message (message_text "resize" "height" "842"); LocationSettled denied; LoadEnd])
         mount
       = (Normal tt, st', trace')
    /\ open_requests trace' = open_requests trace.
Proof.
  apply (location_unavailable_no_override ios WIDGET_ID
           [Message (message_text "resize" "height" "842"); LocationSettled denied; LoadEnd]).
  apply Forall_cons; [intros L H; discriminate|].
  apply Forall_cons; [intros L H; injection H as <-; exact denied_unavailable|].
  apply Forall_cons; [intros L H; discriminate | apply Forall_nil].
Defined.

(** In a browser, a resize message, an external_link message and a
    granted location change nothing that is rendered. *)
Lemma web_renders_fixed_iframe_example :
  Platform.OS web = "web"
  /\ PRxWidget web WIDGET_ID mount
     = View [iframe (html WIDGET_ID) (Number.of_Z 700) "PRx Widget" "geolocation"]
  /\ step web WIDGET_ID (Message (message_text "resize" "height" "842")) mount
     = (Normal tt, mount, [])
  /\ step web WIDGET_ID
       (Message (message_text "external_link" "url" (q "https://example.com/x"))) mount
     = (Normal tt, mount, [])
  /\ exists st' trace,
      run web WIDGET_ID
        [Message (message_text "resize" "height" "842");
         LocationSettled (granted_at (Number.of_Z 37) (Number.of_Z (-122)));
         Message (message_text "external_link" "url" (q "https://example.com/x"))] mount
      = (Normal tt, st', trace)
      /\ height st' = height mount
      /\ open_requests trace = []
      /\ PRxWidget web WIDGET_ID st' = PRxWidget web WIDGET_ID mount.
Proof.
  split; [reflexivity|].
  destruct (web_renders_fixed_iframe web WIDGET_ID eq_refl) as [Hrender [_ [Hmsg Hrun]]].
  split; [apply Hrender|]. split; [apply Hmsg|]. split; [apply Hmsg|]. apply Hrun.
Defined.

(** ** The geolocation override *)

(** C5. With the coordinate (37, -122) stored, the injected script
    carries the override block with these two numbers, and the
    override, called by the document with a success callback, calls
    that callback, once and at once, with a position whose coords have
    latitude 37, longitude -122, accuracy 100 (not null), null
    altitude, altitudeAccuracy, heading and speed, and whose timestamp
    is the clock reading of the call. *)
Theorem geolocation_override_delivers_coordinate (st : State) :
  userLocation st = Some {| lat := Number.of_Z 37; long := Number.of_Z (-122) |} ->
  includes (getInjectedJavaScript st)
    "navigator.geolocation.getCurrentPosition = function(success, error, options) {" = true
  /\ includes (getInjectedJavaScript st)
       "const nativeCoords = { latitude: 37, longitude: -122 };" = true
  /\ exists nativeCoords,
      installed_override st = Some nativeCoords
      /\ forall (R : Type) (success : JSValue -> R) (error options : JSValue) (now : number),
          exists position coords,
            getCurrentPosition_override nativeCoords now success error options
            = success position
            /\ getProp position "coords" = Some coords
            /\ getProp coords "latitude" = Some (VNum (Number.of_Z 37))
            /\ getProp coords "longitude" = Some (VNum (Number.of_Z (-122)))
            /\ getProp coords "accuracy" = Some (VNum (Number.of_Z 100))
            /\ VNum (Number.of_Z 100) <> VNull
            /\ getProp coords "altitude" = Some VNull
            /\ getProp coords "altitudeAccuracy" = Some VNull
            /\ getProp coords "heading" = Some VNull
            /\ getProp coords "speed" = Some VNull
            /\ getProp position "timestamp" = Some (VNum now).
Proof.
  intros H. unfold installed_override, getInjectedJavaScript. rewrite H.
  split; [vm_compute; reflexivity|]. split; [vm_compute; reflexivity|].
  exists (VObj [("latitude", VNum (Number.of_Z 37)); ("longitude", VNum (Number.of_Z (-122)))]).
  split; [vm_compute; reflexivity|].
  intros R success error options now.
  unfold getCurrentPosition_override. do 2 eexists.
  split; [reflexivity|]. repeat split. discriminate.
Qed.

(** Permission granted and the fix (37, -122) obtained on mount. *)
Lemma geolocation_override_after_grant :
  requestLocation (granted_at (Number.of_Z 37) (Number.of_Z (-122))) mount
    = (Normal tt,
       {| loading := true; height := VNum (Number.of_Z 600);
          userLocation := Some {| lat := Number.of_Z 37; long := Number.of_Z (-122) |} |}, [])
  /\ includes
       (getInjectedJavaScript
          {| loading := true; height := VNum (Number.of_Z 600);
             userLocation := Some {| lat := Number.of_Z 37; long := Number.of_Z (-122) |} |})
       "const nativeCoords = { latitude: 37, longitude: -122 };" = true.
Proof.
  split; [reflexivity|].
  apply (geolocation_override_delivers_coordinate
           {| loading := true; height := VNum (Number.of_Z 600);
              userLocation := Some {| lat := Number.of_Z 37; long := Number.of_Z (-122) |} |}).
  reflexivity.
Defined.

(** ** The markup *)

(** Text without [<] is script text as it stands. *)
Lemma includes_char_cons (a c : ascii) (s : string) :
  includes (String a s) (String c EmptyString)
  = Ascii.eqb c a || includes s (String c EmptyString).
Proof.
  cbn [includes String.prefix].
  destruct (ascii_dec c a) as [->|Hne].
  - rewrite Ascii.eqb_refl. now destruct s.
  - apply Ascii.eqb_neq in Hne. now rewrite Hne.
Qed.

Lemma includes_char_app (s1 s2 : string) (c : ascii) :
  includes (s1 ++ s2) (String c EmptyString)
  = includes s1 (String c EmptyString) || includes s2 (String c EmptyString).
Proof.
  induction s1 as [|a s1 IH].
  - cbn [append]. now destruct s2.
  - cbn [append]. rewrite !includes_char_cons, IH. apply orb_assoc.
Qed.

Lemma lower_not_lt (a : ascii) :
  Ascii.eqb "<" a = false -> Ascii.eqb (lower "<") (lower a) = false.
Proof.
  destruct a as [[] [] [] [] [] [] [] []]; intros H; try reflexivity; discriminate H.
Qed.

Lemma script_data_text (s rest : string) :
  includes s "<" = false ->
  script_data (s ++ rest) = option_map (append s) (script_data rest).
Proof.
  induction s as [|a s IH]; intros Hs.
  - cbn [append]. now destruct (script_data rest).
  - rewrite includes_char_cons in Hs. apply orb_false_iff in Hs as [Ha Hs].
    pose proof (lower_not_lt a Ha) as Hl.
    cbn [append script_data].
    unfold at_comment_start, at_script_end_tag, drop_prefix_ci.
    cbn [drop_prefix_by]. rewrite Hl.
    rewrite (IH Hs). now destruct (script_data rest).
Qed.

Lemma config_has_no_markup (widgetId : string) :
  includes widgetId "<" = false -> includes (config widgetId) "<" = false.
Proof.
  intros H. unfold config, q. rewrite !includes_char_app, H. reflexivity.
Qed.

(** The block of the markup is the text between the braces of the
    template, whatever the identifier, as long as it has no [<]. *)
Lemma config_block_html (widgetId : string) :
  includes widgetId "<" = false -> config_block (html widgetId) = Some (config widgetId).
Proof.
  intros H. unfold config_block, html.
  assert (Hstart : forall rest,
             after_first config_start_tag (html_before_config ++ rest) = Some rest).
  { intros rest. vm_compute. reflexivity. }
  rewrite Hstart, (script_data_text _ _ (config_has_no_markup _ H)).
  assert (Hend : script_data html_after_config = Some EmptyString)
    by (vm_compute; reflexivity).
  rewrite Hend. cbn [option_map]. now rewrite append_empty_r.
Qed.

(** C7, as the code builds the markup. For every widget identifier
    that has no double quote, backslash or control character, and no
    [<], the configuration block of the markup is JSON, and the object
    it denotes has exactly six entries: widget_id, whose value is the
    identifier, character for character, and the five fixed
    presentation options. The identifier is written into the block as
    it is: nothing escapes it. *)
Theorem html_contains_widget_id (widgetId : string) :
  plain_identifier widgetId = true ->
  exists block data,
    config_block (html widgetId) = Some block
    /\ JSON.parse block = Some data
    /\ getProp data "widget_id" = Some (VStr widgetId)
    /\ data = VObj [("widget_id", VStr widgetId);
                    ("consent_position", VStr "above-condition");
                    ("button_background_color", VStr "#233b65");
                    ("text_accent_color", VStr "#120c0e");
                    ("max_height_mode", VStr "fill");
                    ("container_style", VStr "none")]
    /\ includes block (q "widget_id" ++ ": " ++ q widgetId ++ ",") = true.
Proof.
  unfold plain_identifier. intros H. apply andb_true_iff in H as [Hs Hm].
  apply negb_true_iff in Hm.
  exists (config widgetId), (config_object widgetId).
  split; [now apply config_block_html|]. split; [|split; [reflexivity|split; [reflexivity|]]].
  - unfold JSON.parse. rewrite (JSONFacts.lex_config _ Hs). reflexivity.
  - apply includes_spec. exists ("{" ++ nl ++ "  "). eexists.
    unfold config, q, dq, nl. rewrite !append_assoc. cbn. reflexivity.
Qed.

(** The identifier of App.tsx. *)
Lemma html_contains_WIDGET_ID :
  exists block data,
    config_block (html WIDGET_ID) = Some block
    /\ JSON.parse block = Some data
    /\ getProp data "widget_id" = Some (VStr "dd0ed535-3143-4209-876d-8779f0cde888")
    /\ data = VObj [("widget_id", VStr "dd0ed535-3143-4209-876d-8779f0cde888");
                    ("consent_position", VStr "above-condition");
                    ("button_background_color", VStr "#233b65");
                    ("text_accent_color", VStr "#120c0e");
                    ("max_height_mode", VStr "fill");
                    ("container_style", VStr "none")]
    /\ includes block
         (q "widget_id" ++ ": " ++ q "dd0ed535-3143-4209-876d-8779f0cde888" ++ ",") = true.
Proof. apply (html_contains_widget_id WIDGET_ID). vm_compute. reflexivity. Defined.

(** C7, as stated for every identifier, fails. The identifier
    [x", "widget_id": "evil] is a string; the markup built from it has
    a configuration block that is JSON, and the widget_id of that
    block is evil, not the identifier. The identifier [</script>] ends
    the script element where it stands: the block of that markup stops
    inside its widget_id entry and is not JSON. An identifier with a
    backslash or a tab leaves a block that is not JSON either. *)
Lemma widget_id_is_not_escaped :
  config_block (html forged_identifier) = Some (config forged_identifier)
  /\ JSON.parse (config forged_identifier)
     = Some (VObj [("widget_id", VStr "evil");
                   ("consent_position", VStr "above-condition");
                   ("button_background_color", VStr "#233b65");
                   ("text_accent_color", VStr "#120c0e");
                   ("max_height_mode", VStr "fill");
                   ("container_style", VStr "none")])
  /\ VStr "evil" <> VStr forged_identifier
  /\ config_block (html "</script>")
     = Some ("{" ++ nl ++ "  " ++ q "widget_id" ++ ": " ++ dq)
  /\ JSON.parse ("{" ++ nl ++ "  " ++ q "widget_id" ++ ": " ++ dq) = None
  /\ config_block (html "a\") = Some (config "a\")
  /\ JSON.parse (config "a\") = None
  /\ config_block (html (String "009" EmptyString))
     = Some (config (String "009" EmptyString))
  /\ JSON.parse (config (String "009" EmptyString)) = None.
Proof.
  repeat (split; [vm_compute; (reflexivity || discriminate)|]).
  vm_compute. reflexivity.
Qed.

(** The identifier of App.tsx in its block. *)
Example config_of_WIDGET_ID :
  json_safe WIDGET_ID = true
  /\ JSON.parse (config WIDGET_ID) = Some (config_object WIDGET_ID)
  /\ field (config_object WIDGET_ID) "widget_id"
     = VStr "dd0ed535-3143-4209-876d-8779f0cde888".
Proof. repeat (split; [vm_compute; reflexivity|]). vm_compute. reflexivity. Qed.

(** The identifier is interpolated as it is: one that holds a double
    quote leaves a block that is not JSON. *)
Example config_does_not_escape :
  includes (html dq) (q "widget_id" ++ ": " ++ q dq ++ ",") = true
  /\ JSON.parse (config dq) = None.
Proof. split; vm_compute; reflexivity. Qed.

(** * More of the code

    ** JSON.stringify, read back by JSON.parse *)

Module StringifyFacts.
Import JSON.

Lemma nat_of_ascii_ltb (c : ascii) (k : N) :
  (nat_of_ascii c <? N.to_nat k)%nat = (N_of_ascii c <? k)%N.
Proof.
  unfold nat_of_ascii.
  destruct (N.ltb_spec (N_of_ascii c) k) as [H|H].
  - apply Nat.ltb_lt. lia.
  - apply Nat.ltb_ge. lia.
Qed.

(** One quoted character is lexed back as that character. *)
Lemma lex_quote_char (c : ascii) (acc rest : string) :
  lex (InString acc) (quote_char c ++ rest) = lex (InString (snoc acc c)) rest.
Proof.
  unfold quote_char.
  destruct (Ascii.eqb c "034") eqn:Hq.
  { apply Ascii.eqb_eq in Hq. subst c. reflexivity. }
  destruct (Ascii.eqb c "092") eqn:Hb.
  { apply Ascii.eqb_eq in Hb. subst c. reflexivity. }
  destruct (N_of_ascii c <? 32)%N eqn:H32.
  - destruct c as [[] [] [] [] [] [] [] []];
      try (vm_compute in H32; discriminate H32); reflexivity.
  - assert (Hne : forall k, (k < 32)%N -> (N_of_ascii c =? k)%N = false).
    { intros k Hk. apply N.eqb_neq. apply N.ltb_ge in H32. lia. }
    rewrite !Hne by lia.
    cbn [append lex]. rewrite Hq, Hb.
    change 32 with (N.to_nat 32). rewrite nat_of_ascii_ltb, H32. reflexivity.
Qed.

Lemma no_surrogates_cons (c : ascii) (s : string) :
  no_surrogates (String c s) = true ->
  quote_body (String c s) = quote_char c ++ quote_body s /\ no_surrogates s = true.
Proof.
  cbn [no_surrogates quote_body].
  destruct s as [|b1 [|b2 s]]; try (intros H; split; [reflexivity | exact H]).
  destruct (surrogate_unit c b1 b2); [discriminate|].
  intros H. split; [reflexivity | exact H].
Qed.

(** A quoted string without surrogates is lexed back as itself. *)
Lemma lex_quote_body (s acc rest : string) :
  no_surrogates s = true ->
  lex (InString acc) (quote_body s ++ rest) = lex (InString (acc ++ s)) rest.
Proof.
  revert acc. induction s as [|c s IH]; intros acc Hs.
  - now rewrite append_empty_r.
  - destruct (no_surrogates_cons c s Hs) as [-> Hs'].
    rewrite append_assoc, lex_quote_char, (IH _ Hs').
    unfold snoc. now rewrite append_assoc.
Qed.

(** *** Number literals *)

Lemma all_chars_app (p : ascii -> bool) (s1 s2 : string) :
  all_chars p (s1 ++ s2) = all_chars p s1 && all_chars p s2.
Proof.
  induction s1 as [|c s1 IH]; [reflexivity|].
  cbn [append all_chars]. now rewrite IH, andb_assoc.
Qed.

Lemma span_digits_spec (s ds r : string) :
  Number.span_digits s = (ds, r) ->
  s = ds ++ r /\ all_chars Number.is_digit ds = true.
Proof.
  revert ds r. induction s as [|c s IH]; intros ds r; cbn [Number.span_digits].
  - intros H. inversion H. now split.
  - destruct (Number.is_digit c) eqn:Hc.
    + destruct (Number.span_digits s) as [ds' r'].
      destruct (IH ds' r' eq_refl) as [-> Hd].
      intros H. inversion H; subst. cbn [append all_chars]. now rewrite Hc, Hd.
    + intros H. inversion H. now split.
Qed.

Lemma digit_is_number_char (s : string) :
  all_chars Number.is_digit s = true -> all_chars is_number_char s = true.
Proof.
  induction s as [|c s IH]; [reflexivity|].
  cbn [all_chars]. intros H. apply andb_true_iff in H as [Hc Hs].
  unfold is_number_char at 1. now rewrite Hc, (IH Hs).
Qed.

(** The three optional parts of a literal, as [of_literal] splits them
    off. *)
Lemma minus_split (s s1 : string) (neg : bool) :
  match s with String "-"%char t => (true, t) | _ => (false, s) end = (neg, s1) ->
  exists sign, s = sign ++ s1 /\ all_chars is_number_char sign = true
               /\ (sign = EmptyString \/ sign = "-").
Proof.
  destruct s as [|c s]; [intros H; inversion H; exists EmptyString; auto|].
  destruct c as [[] [] [] [] [] [] [] []]; intros H; inversion H; subst;
    first [ exists EmptyString; now auto | exists "-"; now auto ].
Qed.

Lemma fraction_split (s2 fp s3 : string) (ok : bool) :
  match s2 with
  | String "."%char t =>
      let '(f, r) := Number.span_digits t in (f, Number.nonempty f, r)
  | _ => (EmptyString, true, s2)
  end = (fp, ok, s3) ->
  exists dot, s2 = dot ++ fp ++ s3 /\ all_chars is_number_char (dot ++ fp) = true.
Proof.
  destruct s2 as [|c s2]; [intros H; inversion H; exists EmptyString; auto|].
  destruct c as [[] [] [] [] [] [] [] []];
    try (intros H; inversion H; subst; exists EmptyString; now auto).
  destruct (Number.span_digits s2) as [f r] eqn:E.
  destruct (span_digits_spec _ _ _ E) as [-> Hd].
  intros H. inversion H; subst. exists ".". split; [reflexivity|].
  cbn [append all_chars]. now rewrite (digit_is_number_char _ Hd).
Qed.

Lemma exponent_split (s3 : string) (ex : Z) :
  match s3 with
  | EmptyString => (0%Z, true)
  | String ("e" | "E")%char t =>
      let '(eneg, t1) :=
        match t with
        | String "-"%char u => (true, u)
        | String "+"%char u => (false, u)
        | _ => (false, t)
        end in
      let '(ed, r) := Number.span_digits t1 in
      let e := Number.Z_of_digits 0 ed in
      ((if eneg then - e else e)%Z, Number.nonempty ed && negb (Number.nonempty r))
  | _ => (0%Z, false)
  end = (ex, true) ->
  all_chars is_number_char s3 = true.
Proof.
  destruct s3 as [|c t]; [reflexivity|].
  assert (Hexp : forall eneg t1,
             match t with
             | String "-"%char u => (true, u)
             | String "+"%char u => (false, u)
             | _ => (false, t)
             end = (eneg, t1) ->
             (let '(ed, r) := Number.span_digits t1 in
              let e := Number.Z_of_digits 0 ed in
              ((if eneg then - e else e)%Z,
               Number.nonempty ed && negb (Number.nonempty r))) = (ex, true) ->
             all_chars is_number_char t = true).
  { intros eneg t1 Hsign.
    assert (Ht : exists sign, t = sign ++ t1 /\ all_chars is_number_char sign = true).
    { destruct t as [|d t]; [inversion Hsign; exists EmptyString; auto|].
      destruct d as [[] [] [] [] [] [] [] []]; inversion Hsign; subst;
        first [ exists EmptyString; now auto | exists "-"; now auto | exists "+"; now auto ]. }
    destruct Ht as [sign [-> Hsg]].
    destruct (Number.span_digits t1) as [ed r] eqn:E.
    destruct (span_digits_spec _ _ _ E) as [-> Hd].
    intros H. injection H as _ Hok.
    apply andb_true_iff in Hok as [_ Hr]. apply negb_true_iff in Hr.
    destruct r; [|discriminate].
    rewrite !all_chars_app, Hsg, (digit_is_number_char _ Hd). reflexivity. }
  destruct c as [[] [] [] [] [] [] [] []]; try (intros H; discriminate H);
    destruct (match t with
              | String "-"%char u => (true, u)
              | String "+"%char u => (false, u)
              | _ => (false, t)
              end) as [eneg t1] eqn:Hsign;
    intros H; cbn [all_chars]; rewrite (Hexp _ _ eq_refl H); reflexivity.
Qed.

(** A text that [of_literal] accepts is made of number characters and
    starts with a minus sign or a digit. *)
Lemma of_literal_chars (s : string) (x : number) :
  Number.of_literal s = Some x ->
  all_chars is_number_char s = true /\ starts_number s = true.
Proof.
  unfold Number.of_literal.
  destruct (match s with String "-"%char t => (true, t) | _ => (false, s) end)
    as [neg s1] eqn:Hm.
  destruct (Number.span_digits s1) as [ip s2] eqn:Hi.
  destruct (match s2 with
            | String "."%char t =>
                let '(f, r) := Number.span_digits t in (f, Number.nonempty f, r)
            | _ => (EmptyString, true, s2)
            end) as [[fp frac_ok] s3] eqn:Hf.
  match goal with
  | |- context [let '(ex, exp_ok) := ?e in _] => destruct e as [ex exp_ok] eqn:He
  end.
  destruct (minus_split _ _ _ Hm) as [sign [-> [Hsg Hsign]]].
  destruct (span_digits_spec _ _ _ Hi) as [-> Hd].
  destruct (fraction_split _ _ _ _ Hf) as [dot [-> Hfr]].
  destruct ip as [|d ip].
  - discriminate.
  - intros H.
    assert (Hok : exp_ok = true).
    { destruct exp_ok; [reflexivity|].
      rewrite !andb_false_r in H. discriminate. }
    subst exp_ok. pose proof (exponent_split _ _ He) as Hex.
    rewrite !all_chars_app in *.
    rewrite Hsg, (digit_is_number_char _ Hd), Hex.
    apply andb_true_iff in Hfr as [-> ->]. split; [reflexivity|].
    cbn [all_chars] in Hd. apply andb_true_iff in Hd as [Hd0 _].
    destruct Hsign as [-> | ->]; cbn; [now rewrite Hd0, orb_true_r | reflexivity].
Qed.

Lemma lex_start_number (c : ascii) (k : lex_mode -> option (list token)) :
  Ascii.eqb c "-" || Number.is_digit c = true ->
  lex_start c k = k (InNumber (String c EmptyString)).
Proof.
  destruct c as [[] [] [] [] [] [] [] []]; intros H;
    try (vm_compute in H; discriminate H); reflexivity.
Qed.

Lemma lex_InNumber (t acc rest : string) (c : ascii) :
  all_chars is_number_char t = true ->
  is_number_char c = false ->
  lex (InNumber acc) (t ++ String c rest)
  = match Number.of_literal (acc ++ t) with
    | Some x => option_map (cons (TNumber x)) (lex_start c (fun m => lex m rest))
    | None => None
    end.
Proof.
  intros Ht Hc. revert acc Ht. induction t as [|d t IH]; intros acc Ht.
  - cbn [append lex]. now rewrite Hc, append_empty_r.
  - cbn [all_chars] in Ht. apply andb_true_iff in Ht as [Hd Ht].
    cbn [append lex]. rewrite Hd, (IH _ Ht). unfold snoc.
    now rewrite append_assoc.
Qed.

(** A number literal is lexed as one token, up to the first character
    that cannot be part of a number. *)
Lemma lex_number (t rest : string) (c : ascii) (x : number) :
  Number.of_literal t = Some x ->
  is_number_char c = false ->
  lex Between (t ++ String c rest)
  = option_map (cons (TNumber x)) (lex_start c (fun m => lex m rest)).
Proof.
  intros Hx Hc. destruct (of_literal_chars _ _ Hx) as [Hall Hstart].
  destruct t as [|d t]; [discriminate|].
  cbn [all_chars] in Hall. apply andb_true_iff in Hall as [_ Hall].
  cbn [append lex]. rewrite (lex_start_number _ _ Hstart).
  rewrite (lex_InNumber _ _ _ _ Hall Hc). cbn [append]. now rewrite Hx.
Qed.

(** *** The two messages of the script *)

Lemma stringify_external_link (url : string) :
  stringify (external_link_message (VStr url))
  = Some (message_text "external_link" "url" (quote url)).
Proof. reflexivity. Qed.

Lemma stringify_resize (h : number) :
  stringify (resize_message h) = Some (message_text "resize" "height" (number_text h)).
Proof. reflexivity. Qed.

Lemma lex_string_token (s rest : string) :
  json_safe s = true ->
  lex Between (String "034" (s ++ String "034" rest))
  = option_map (cons (TString s)) (lex Between rest).
Proof.
  intros Hs.
  change (lex (InString EmptyString) (s ++ String "034" rest)
          = option_map (cons (TString s)) (lex Between rest)).
  rewrite (JSONFacts.lex_InString_safe _ _ _ Hs). reflexivity.
Qed.

Lemma lex_quote (s rest : string) :
  no_surrogates s = true ->
  lex Between (quote s ++ rest) = option_map (cons (TString s)) (lex Between rest).
Proof.
  intros Hs. unfold quote, dq. rewrite !append_assoc.
  change (lex (InString EmptyString) (quote_body s ++ String "034" rest)
          = option_map (cons (TString s)) (lex Between rest)).
  rewrite (lex_quote_body _ _ _ Hs). reflexivity.
Qed.

(** The tokens of a message of the script, up to its payload. *)
Lemma lex_message_text (kind field value : string) :
  json_safe kind = true ->
  json_safe field = true ->
  lex Between (message_text kind field value)
  = option_map (fun ts => TLBrace :: TString "type" :: TColon :: TString kind :: TComma
                            :: TString field :: TColon :: ts)
      (lex Between (value ++ "}")).
Proof.
  intros Hk Hf. unfold message_text, q, dq.
  generalize (value ++ "}"). intros payload.
  assert (Ht : json_safe "type" = true) by reflexivity.
  revert Ht. generalize "type". intros type Ht.
  rewrite !append_assoc.
  change (option_map (cons TLBrace)
            (lex Between
               (String "034" (type ++ String "034"
                  (String ":" (String "034" (kind ++ String "034"
                     (String "," (String "034" (field ++ String "034"
                        (String ":" payload)))))))))) = option_map
                 (fun ts => TLBrace :: TString type :: TColon :: TString kind :: TComma
                              :: TString field :: TColon :: ts) (lex Between payload)).
  rewrite (lex_string_token _ _ Ht).
  change (lex Between (String ":" ?r)) with (option_map (cons TColon) (lex Between r)).
  rewrite (lex_string_token _ _ Hk).
  change (lex Between (String "," ?r)) with (option_map (cons TComma) (lex Between r)).
  rewrite (lex_string_token _ _ Hf).
  change (lex Between (String ":" ?r)) with (option_map (cons TColon) (lex Between r)).
  destruct (lex Between payload); reflexivity.
Qed.

Lemma parse_external_link (url : string) :
  no_surrogates url = true ->
  parse (message_text "external_link" "url" (quote url))
  = Some (external_link_message (VStr url)).
Proof.
  intros Hs. unfold parse.
  rewrite lex_message_text by reflexivity.
  rewrite (lex_quote _ _ Hs). reflexivity.
Qed.

Lemma parse_resize (t : string) (x : number) :
  Number.of_literal t = Some x ->
  parse (message_text "resize" "height" t) = Some (resize_message x).
Proof.
  intros Hx. unfold parse.
  rewrite lex_message_text by reflexivity.
  rewrite (lex_number t EmptyString "}" x Hx eq_refl). reflexivity.
Qed.

End StringifyFacts.

(** ** Number::toString, read back

    The scroll heights that the script reports are integers. *)
Module NumberFacts.
Import Number.

Local Open Scope Z_scope.

(** *** Integers below 2^53 are Numbers *)

Lemma digits2_pos_bounds (p : positive) :
  2 ^ (Zpos (digits2_pos p) - 1) <= Zpos p < 2 ^ Zpos (digits2_pos p).
Proof.
  induction p as [p IH | p IH |]; cbn [digits2_pos].
  - rewrite Pos2Z.inj_succ.
    replace (Z.succ (Zpos (digits2_pos p)) - 1) with (Z.succ (Zpos (digits2_pos p) - 1)) by lia.
    rewrite !Z.pow_succ_r by lia. lia.
  - rewrite Pos2Z.inj_succ.
    replace (Z.succ (Zpos (digits2_pos p)) - 1) with (Z.succ (Zpos (digits2_pos p) - 1)) by lia.
    rewrite !Z.pow_succ_r by lia. lia.
  - cbn. lia.
Qed.

Lemma iter_xO_spec (p d : positive) :
  Zpos (Pos.iter xO p d) = Zpos p * 2 ^ Zpos d
  /\ digits2_pos (Pos.iter xO p d) = (digits2_pos p + d)%positive.
Proof.
  induction d as [|d IH] using Pos.peano_ind.
  - cbn [Pos.iter digits2_pos]. split; lia.
  - rewrite Pos.iter_succ. destruct IH as [IHv IHd]. cbn [digits2_pos].
    rewrite IHd, Pos2Z.inj_succ, Z.pow_succ_r by lia. split; lia.
Qed.

(** A mantissa that is already in canonical position is not rounded. *)
Lemma binary_round_aux_canonical (m : positive) (e : Z) :
  fexp prec emax (Zpos (digits2_pos m) + e) = e ->
  e <= 971 ->
  binary_round_aux prec emax false (Zpos m) e loc_Exact = S754_finite false m e.
Proof.
  intros Hc He. unfold binary_round_aux, shr_fexp, Zdigits2.
  rewrite Hc, Z.sub_diag.
  cbn [shr shr_record_of_loc shr_m loc_of_shr_record round_nearest_even].
  rewrite Hc, Z.sub_diag. cbn [shr shr_record_of_loc shr_m].
  assert (H : (e <=? emax - prec) = true) by (apply Z.leb_le; unfold emax, prec; lia).
  now rewrite H.
Qed.

(** The Number of an integer below 2^53 is that integer: its mantissa
    is the integer shifted left into canonical position. *)
Lemma of_Z_exact (n : Z) :
  0 < n < 2 ^ 53 ->
  exists m e,
    of_Z n = S754_finite false m e /\ -52 <= e <= 0 /\ Zpos m = n * 2 ^ (- e)
    /\ 2 ^ (e + 52) <= n < 2 ^ (e + 53).
Proof.
  intros [Hpos Hlt]. destruct n as [|p|p]; try lia.
  pose proof (digits2_pos_bounds p) as [Hlo Hhi].
  assert (Hd : Zpos (digits2_pos p) <= 53).
  { destruct (Z.le_gt_cases (Zpos (digits2_pos p)) 53) as [H|H]; [exact H|].
    assert (2 ^ 53 <= 2 ^ (Zpos (digits2_pos p) - 1)) by (apply Z.pow_le_mono_r; lia).
    lia. }
  unfold of_Z, binary_normalize, binary_round, shl_align.
  assert (Hf : fexp prec emax (Zpos (digits2_pos p) + 0) = Zpos (digits2_pos p) - 53).
  { unfold fexp, emin, prec, emax. lia. }
  rewrite Hf.
  destruct (Zpos (digits2_pos p) - 53 - 0) as [|d|d] eqn:Hs; try lia.
  - exists p, 0. rewrite binary_round_aux_canonical.
    + split; [reflexivity|]. split; [lia|]. split; [cbn; lia|].
      replace (Zpos (digits2_pos p)) with 53 in * by lia. cbn in *. lia.
    + unfold fexp, emin, prec, emax. lia.
    + lia.
  - destruct (iter_xO_spec p d) as [Hv Hdig].
    exists (Pos.iter xO p d), (Zpos (digits2_pos p) - 53).
    rewrite binary_round_aux_canonical.
    + split; [reflexivity|]. split; [lia|]. split.
      * rewrite Hv. f_equal. f_equal. lia.
      * replace (Zpos (digits2_pos p) - 53 + 52) with (Zpos (digits2_pos p) - 1) by lia.
        replace (Zpos (digits2_pos p) - 53 + 53) with (Zpos (digits2_pos p)) by lia.
        lia.
    + rewrite Hdig. unfold fexp, emin, prec, emax. lia.
    + lia.
Qed.

Lemma SFeqb_eq_finite (y : spec_float) (m : positive) (e : Z) :
  SFeqb y (S754_finite false m e) = true ->
  match y with
  | S754_finite true _ _ | S754_zero true | S754_infinity true => False
  | _ => True
  end ->
  y = S754_finite false m e.
Proof.
  unfold SFeqb, SFcompare.
  destruct y as [sy|sy| |sy my ey]; try discriminate;
    try (destruct sy; discriminate).
  destruct sy; [intros _ []|].
  destruct (Z.compare ey e) eqn:He; try discriminate.
  apply Z.compare_eq in He.
  destruct (Pos.compare_cont Eq my m) eqn:Hm; try discriminate.
  apply Pos.compare_eq in Hm. intros _ _. now subst.
Qed.

Lemma SFeqb_refl_finite (s : bool) (m : positive) (e : Z) :
  SFeqb (S754_finite s m e) (S754_finite s m e) = true.
Proof.
  unfold SFeqb, SFcompare. rewrite Z.compare_refl.
  fold (Pos.compare m m). rewrite Pos.compare_refl. now destruct s.
Qed.

(** The Number of a positive integer has no minus sign. *)
Lemma binary_normalize_pos_sign (p : positive) :
  match binary_normalize prec emax (Zpos p) 0 false with
  | S754_finite true _ _ | S754_zero true | S754_infinity true => False
  | _ => True
  end.
Proof.
  unfold binary_normalize, binary_round.
  destruct (shl_align p 0 _) as [mz ez].
  unfold binary_round_aux.
  destruct (shr_fexp prec emax (Zpos mz) ez loc_Exact) as [mrs' e'].
  destruct (shr_fexp prec emax _ e' loc_Exact) as [mrs'' e''].
  destruct (shr_m mrs''); [exact I| |exact I].
  destruct (e'' <=? emax - prec); exact I.
Qed.

(** *** The decimal exponent *)

Lemma scaled_integer (n den j : Z) :
  1 <= n -> 0 < den ->
  (let '(a, b) := scaled (n * den) den j in a <? b) = true <-> 0 <= j /\ n < 10 ^ j.
Proof.
  intros Hn Hd. unfold scaled. destruct (0 <=? j) eqn:Hj.
  - apply Z.leb_le in Hj. rewrite Z.ltb_lt.
    assert (0 < 10 ^ j) by (apply Z.pow_pos_nonneg; lia). split.
    + intros H0. split; [exact Hj|].
      rewrite (Z.mul_comm n den) in H0. now apply Z.mul_lt_mono_pos_l in H0.
    + intros [_ H0]. rewrite (Z.mul_comm n den). now apply Z.mul_lt_mono_pos_l.
  - apply Z.leb_gt in Hj. rewrite Z.ltb_lt.
    assert (0 < 10 ^ (- j)) by (apply Z.pow_pos_nonneg; lia). split.
    + intros H0. exfalso.
      assert (den * 1 <= n * den * 10 ^ (- j)); [|lia].
      rewrite (Z.mul_comm n den), <- Z.mul_assoc.
      apply Z.mul_le_mono_nonneg_l; [lia|]. nia.
    + intros [H0 _]. lia.
Qed.

Lemma decimal_exponent_from_spec (fuel : nat) (n den s : Z) :
  1 <= n -> 0 < den ->
  let r := decimal_exponent_from fuel (n * den) den s in
  s <= r <= s + Z.of_nat fuel
  /\ (r = s + Z.of_nat fuel \/ (0 <= r /\ n < 10 ^ r))
  /\ forall j, s <= j < r -> ~ (0 <= j /\ n < 10 ^ j).
Proof.
  intros Hn Hd. revert s. induction fuel as [|fuel IH]; intros s.
  - cbn [decimal_exponent_from]. cbn zeta. split; [lia|]. split; [left; lia|]. intros j Hj. lia.
  - cbn [decimal_exponent_from].
    pose proof (scaled_integer n den s Hn Hd) as Hs.
    destruct (scaled (n * den) den s) as [a b].
    destruct (a <? b) eqn:Hab.
    + cbn zeta. split; [lia|]. split; [right; now apply Hs|]. intros j Hj. lia.
    + specialize (IH (s + 1)). cbn zeta in IH. destruct IH as [Hr [Hend Hfail]].
      cbn zeta. split; [lia|]. split.
      * destruct Hend as [He|He]; [left; lia | right; exact He].
      * intros j Hj. destruct (Z.eq_dec j s) as [->|Hne].
        -- intros H0. apply Hs in H0. discriminate.
        -- apply Hfail. lia.
Qed.

Lemma pow10_16 : 2 ^ 53 < 10 ^ 16.
Proof. reflexivity. Qed.

(** The decimal exponent of an integer below 2^53 is between 1 and 16. *)
Lemma decimal_exponent_bounds (n k : Z) :
  0 < n < 2 ^ 53 -> 0 <= k <= 52 ->
  1 <= decimal_exponent (n * 2 ^ k) (2 ^ k) <= 16.
Proof.
  intros Hn Hk. unfold decimal_exponent.
  assert (Hden : 0 < 2 ^ k) by (apply Z.pow_pos_nonneg; lia).
  rewrite Z.log2_mul_pow2, Z.log2_pow2 by lia.
  replace (k + Z.log2 n - k) with (Z.log2 n) by lia.
  assert (Hlog : 0 <= Z.log2 n <= 52).
  { split; [apply Z.log2_nonneg|].
    assert (Z.log2 n < 53) by (apply Z.log2_lt_pow2; lia). lia. }
  set (s := Z.log2 n * 30103 / 100000 - 2).
  assert (Hs : -2 <= s <= 13).
  { unfold s. pose proof (Z.div_mod (Z.log2 n * 30103) 100000 ltac:(lia)).
    pose proof (Z.mod_pos_bound (Z.log2 n * 30103) 100000 ltac:(lia)). lia. }
  pose proof (decimal_exponent_from_spec 8 n (2 ^ k) s ltac:(lia) Hden) as H.
  cbn zeta in H. destruct H as [Hr [Hend Hfail]].
  set (r := decimal_exponent_from 8 (n * 2 ^ k) (2 ^ k) s) in *.
  split.
  - destruct Hend as [He | [H0 Hlt]]; [lia|].
    destruct (Z.eq_dec r 0) as [E|E]; [rewrite E in Hlt; cbn in Hlt; lia | lia].
  - destruct (Z.le_gt_cases r 16) as [H|H]; [exact H|].
    exfalso. apply (Hfail 16); [lia|]. split; [lia|].
    pose proof pow10_16. lia.
Qed.
(** *** The digits *)

Lemma of_decimal_nonneg_exponent (d : positive) (p : Z) :
  0 <= p <= 400 ->
  of_decimal false (Zpos d) p = binary_normalize prec emax (Zpos d * 10 ^ p) 0 false.
Proof.
  intros Hp. unfold of_decimal.
  assert (H1 : (0 <=? p) = true) by (apply Z.leb_le; lia).
  assert (H2 : (400 <? p) = false) by (apply Z.ltb_ge; lia).
  now rewrite H1, H2.
Qed.

Lemma of_decimal_integer (n : Z) : 0 < n -> of_decimal false n 0 = of_Z n.
Proof.
  intros Hn. destruct n as [|p|p]; try lia.
  rewrite of_decimal_nonneg_exponent by lia. unfold of_Z.
  now rewrite Z.pow_0_r, Z.mul_1_r.
Qed.

Lemma shortest_decimal_S (fuel : nat) (k : Z) (x : number) (num den n : Z) :
  shortest_decimal (S fuel) k x num den n
  = let p := n - k in
    let '(a, b) := scaled num den p in
    let lo := a / b in
    let hi := lo + 1 in
    let ok_lo := SFeqb (of_decimal false lo p) x in
    let ok_hi := SFeqb (of_decimal false hi p) x in
    if ok_lo && ok_hi then
      match 2 * a ?= (2 * lo + 1) * b with
      | Lt => (lo, p)
      | Gt => (hi, p)
      | Eq => if Z.even lo then (lo, p) else (hi, p)
      end
    else if ok_lo then (lo, p)
    else if ok_hi then (hi, p)
    else shortest_decimal fuel (k + 1) x num den n.
Proof. reflexivity. Qed.

(** For an integer the search stops, at the latest when it has as many
    digits as the integer, with digits that read back as the Number. *)
Lemma shortest_decimal_integer (fuel : nat) (k : Z) (x : number) (n den n0 : Z) :
  0 < n -> 0 < den ->
  1 <= k <= n0 -> n0 - k < Z.of_nat fuel ->
  SFeqb (of_decimal false n 0) x = true ->
  let '(d, p) := shortest_decimal fuel k x (n * den) den n0 in
  SFeqb (of_decimal false d p) x = true
  /\ 0 <= p < n0
  /\ 0 <= d <= n / 10 ^ p + 1.
Proof.
  intros Hn Hd. revert k. induction fuel as [|fuel IH]; intros k Hk Hfuel Hx; [lia|].
  rewrite shortest_decimal_S. cbv zeta.
  assert (Hp : 0 <= n0 - k) by lia.
  unfold scaled. assert (H0 : (0 <=? n0 - k) = true) by (apply Z.leb_le; lia).
  rewrite H0.
  assert (Hpow : 0 < 10 ^ (n0 - k)) by (apply Z.pow_pos_nonneg; lia).
  assert (Hlo : n * den / (den * 10 ^ (n0 - k)) = n / 10 ^ (n0 - k)).
  { rewrite (Z.mul_comm n den). apply Z.div_mul_cancel_l; lia. }
  rewrite Hlo.
  assert (Hlo0 : 0 <= n / 10 ^ (n0 - k)) by (apply Z.div_pos; lia).
  set (lo := n / 10 ^ (n0 - k)) in *.
  destruct (SFeqb (of_decimal false lo (n0 - k)) x) eqn:Hoklo;
    destruct (SFeqb (of_decimal false (lo + 1) (n0 - k)) x) eqn:Hokhi;
    cbn [andb].
  - destruct (2 * (n * den) ?= (2 * lo + 1) * (den * 10 ^ (n0 - k)));
      [destruct (Z.even lo)| |]; repeat split; try assumption; lia.
  - repeat split; try assumption; lia.
  - repeat split; try assumption; lia.
  - assert (Hne : k <> n0).
    { intros ->. unfold lo in Hoklo. rewrite Z.sub_diag, Z.pow_0_r, Z.div_1_r in Hoklo.
      congruence. }
    specialize (IH (k + 1) ltac:(lia) ltac:(lia) Hx).
    destruct (shortest_decimal fuel (k + 1) x (n * den) den n0) as [d p].
    exact IH.
Qed.
(** *** Decimal strings *)

Lemma string_of_uint_digits (u : Decimal.uint) :
  all_chars is_digit (NilEmpty.string_of_uint u) = true.
Proof. induction u; cbn [NilEmpty.string_of_uint all_chars]; try rewrite IHu; reflexivity. Qed.

Ltac digit_val_compute :=
  match goal with
  | |- context [digit_val ?c] =>
      let v := eval vm_compute in (digit_val c) in change (digit_val c) with v
  end.

Lemma Z_of_digits_acc (u : Decimal.uint) (a : positive) :
  Z_of_digits (Zpos a) (NilEmpty.string_of_uint u) = Zpos (Pos.of_uint_acc u a).
Proof.
  revert a. induction u; intros a;
    cbn [NilEmpty.string_of_uint Z_of_digits Pos.of_uint_acc];
    [reflexivity | digit_val_compute; rewrite <- IHu; f_equal; lia ..].
Qed.

Lemma Z_of_digits_uint (u : Decimal.uint) :
  Z_of_digits 0 (NilEmpty.string_of_uint u) = Z.of_N (Pos.of_uint u).
Proof.
  induction u; cbn [NilEmpty.string_of_uint Z_of_digits Pos.of_uint];
    [reflexivity | exact IHu | digit_val_compute; apply Z_of_digits_acc ..].
Qed.

Lemma nzhead_not_D0 (u v : Decimal.uint) : Decimal.nzhead u <> Decimal.D0 v.
Proof. induction u; cbn [Decimal.nzhead]; try discriminate. exact IHu. Qed.

(** The decimal text of a positive integer: digits, the first of them
    not 0, that denote the integer. *)
Lemma Z_to_string_pos (d : Z) :
  0 < d ->
  exists c t,
    Z_to_string d = String c t
    /\ is_digit c = true /\ Ascii.eqb c "0" = false
    /\ all_chars is_digit t = true
    /\ Z_of_digits 0 (Z_to_string d) = d.
Proof.
  intros Hd. destruct d as [|p|p]; try lia.
  assert (Hs : Z_to_string (Zpos p) = NilEmpty.string_of_uint (Pos.to_uint p)).
  { unfold Z_to_string. cbn [Z.to_int NilZero.string_of_int].
    unfold NilZero.string_of_uint.
    pose proof (Unsigned.to_uint_nonnil p). now destruct (Pos.to_uint p). }
  assert (Hv : Z_of_digits 0 (Z_to_string (Zpos p)) = Zpos p).
  { now rewrite Hs, Z_of_digits_uint, Unsigned.of_to. }
  assert (Hnorm : Pos.to_uint p = Decimal.unorm (Pos.to_uint p)).
  { rewrite <- Unsigned.to_of, Unsigned.of_to. reflexivity. }
  pose proof (string_of_uint_digits (Pos.to_uint p)) as Hall.
  pose proof (Unsigned.to_uint_nonnil p) as Hnil.
  pose proof (Unsigned.to_uint_nonzero p) as Hzero.
  rewrite Hs in *. clear Hs.
  destruct (Pos.to_uint p) as [|u|u|u|u|u|u|u|u|u|u] eqn:Hu;
    try (cbn [NilEmpty.string_of_uint all_chars] in *;
         apply andb_true_iff in Hall as [_ Hall]; do 2 eexists;
         split; [reflexivity|]; split; [reflexivity|]; split; [reflexivity|];
         split; [exact Hall | exact Hv]).
  - contradiction.
  - exfalso. unfold Decimal.unorm in Hnorm.
    destruct (Decimal.nzhead (Decimal.D0 u)) eqn:Hh;
      try (symmetry in Hnorm; apply (nzhead_not_D0 (Decimal.D0 u) u); congruence).
Qed.

Lemma zeros_digits (j : nat) : all_chars is_digit (zeros j) = true.
Proof. induction j; [reflexivity | exact IHj]. Qed.

Lemma Z_of_digits_zeros (j : nat) (acc : Z) :
  Z_of_digits acc (zeros j) = acc * 10 ^ Z.of_nat j.
Proof.
  revert acc. induction j as [|j IH]; intros acc.
  - cbn. lia.
  - cbn [zeros Z_of_digits]. digit_val_compute.
    rewrite IH, Nat2Z.inj_succ, Z.pow_succ_r by lia. lia.
Qed.

Lemma Z_of_digits_app (s t : string) (acc : Z) :
  Z_of_digits acc (s ++ t) = Z_of_digits (Z_of_digits acc s) t.
Proof.
  revert acc. induction s as [|c s IH]; intros acc; [reflexivity|].
  cbn [append Z_of_digits]. apply IH.
Qed.

Lemma digit_val_bounds (c : ascii) : is_digit c = true -> 0 <= digit_val c <= 9.
Proof.
  unfold is_digit, digit_val. intros H. apply andb_true_iff in H as [H1 H2].
  apply Nat.leb_le in H1, H2. lia.
Qed.

(** A string of [k] digits denotes a number below [10^k]; with a first
    digit that is not 0, one that is at least [10^(k-1)]. *)
Lemma Z_of_digits_bounds (s : string) (acc : Z) :
  all_chars is_digit s = true -> 0 <= acc ->
  acc * 10 ^ Z.of_nat (String.length s) <= Z_of_digits acc s.
Proof.
  revert acc. induction s as [|c s IH]; intros acc Hs Hacc.
  - cbn. lia.
  - cbn [all_chars] in Hs. apply andb_true_iff in Hs as [Hc Hs].
    pose proof (digit_val_bounds c Hc).
    cbn [String.length Z_of_digits]. rewrite Nat2Z.inj_succ, Z.pow_succ_r by lia.
    specialize (IH (10 * acc + digit_val c) Hs ltac:(lia)).
    assert (0 <= 10 ^ Z.of_nat (String.length s)) by (apply Z.pow_nonneg; lia).
    nia.
Qed.

Lemma leading_digit_bound (c : ascii) (t : string) :
  is_digit c = true -> Ascii.eqb c "0" = false -> all_chars is_digit t = true ->
  10 ^ Z.of_nat (String.length t) <= Z_of_digits 0 (String c t).
Proof.
  intros Hc H0 Ht. cbn [Z_of_digits].
  assert (1 <= digit_val c).
  { pose proof (digit_val_bounds c Hc). unfold digit_val in *.
    destruct (Z.eq_dec (Z.of_nat (nat_of_ascii c)) 48) as [E|E]; [|lia].
    exfalso. apply Ascii.eqb_neq in H0. apply H0.
    rewrite <- (ascii_nat_embedding c).
    replace (nat_of_ascii c) with 48%nat by lia. reflexivity. }
  pose proof (Z_of_digits_bounds t (10 * 0 + digit_val c) Ht ltac:(lia)).
  assert (0 <= 10 ^ Z.of_nat (String.length t)) by (apply Z.pow_nonneg; lia).
  nia.
Qed.
(** *** Trailing zeros and the layout *)

Lemma zeros_app (i j : nat) : zeros (i + j) = zeros i ++ zeros j.
Proof. induction i as [|i IH]; [reflexivity|]. cbn [Nat.add zeros append]. now rewrite IH. Qed.

Lemma length_zeros (j : nat) : String.length (zeros j) = j.
Proof. induction j as [|j IH]; [reflexivity|]. cbn [zeros String.length]. now rewrite IH. Qed.

Lemma length_append (s t : string) :
  String.length (s ++ t) = (String.length s + String.length t)%nat.
Proof. induction s as [|c s IH]; [reflexivity|]. cbn [append String.length]. now rewrite IH. Qed.

Lemma string_of_list_ascii_app (l1 l2 : list ascii) :
  string_of_list_ascii (l1 ++ l2) = string_of_list_ascii l1 ++ string_of_list_ascii l2.
Proof. induction l1 as [|c l1 IH]; [reflexivity|]. cbn. now rewrite IH. Qed.

Lemma string_of_repeat_zero (z : nat) :
  string_of_list_ascii (repeat "0"%char z) = zeros z.
Proof. induction z as [|z IH]; [reflexivity|]. cbn. now rewrite IH. Qed.

Lemma rev_repeat {A : Type} (a : A) (z : nat) : rev (repeat a z) = repeat a z.
Proof.
  induction z as [|z IH]; [reflexivity|].
  cbn [repeat rev]. rewrite IH. symmetry. apply repeat_cons.
Qed.

Lemma strip_trailing_zeros_rev_spec (r : list ascii) :
  exists z, r = (repeat "0"%char z ++ strip_trailing_zeros_rev r)%list.
Proof.
  induction r as [|c r [z IH]]; [now exists 0%nat|].
  destruct (Ascii.eqb_spec c "0") as [->|Hne].
  - exists (S z). cbn [strip_trailing_zeros_rev repeat app]. now rewrite <- IH.
  - exists 0%nat. cbn [repeat app].
    destruct c as [[] [] [] [] [] [] [] []]; try reflexivity. now elim Hne.
Qed.

(** Stripping takes trailing zeros away and nothing else. *)
Lemma strip_trailing_zeros_spec (s : string) :
  exists z, s = strip_trailing_zeros s ++ zeros z.
Proof.
  unfold strip_trailing_zeros.
  destruct (strip_trailing_zeros_rev_spec (rev (list_ascii_of_string s))) as [z Hz].
  exists z. rewrite <- string_of_repeat_zero, <- string_of_list_ascii_app.
  rewrite <- (rev_repeat "0"%char z), <- rev_app_distr, <- Hz, rev_involutive.
  symmetry. apply string_of_list_ascii_of_string.
Qed.

(** The layout of digits that end before the decimal point: the digits,
    then zeros up to the point. *)
Lemma layout_integer (all : string) (p : Z) :
  0 <= p -> Z.of_nat (String.length all) + p <= 21 ->
  layout_decimal (strip_trailing_zeros all) (Z.of_nat (String.length all) + p)
  = all ++ zeros (Z.to_nat p).
Proof.
  intros Hp Hlen. destruct (strip_trailing_zeros_spec all) as [z Hz].
  set (ds := strip_trailing_zeros all) in *.
  assert (Hl : String.length all = (String.length ds + z)%nat).
  { rewrite Hz at 1. now rewrite length_append, length_zeros. }
  unfold layout_decimal.
  assert (H1 : (Z.of_nat (String.length ds) <=? Z.of_nat (String.length all) + p) = true)
    by (apply Z.leb_le; lia).
  assert (H2 : (Z.of_nat (String.length all) + p <=? 21) = true) by (apply Z.leb_le; lia).
  rewrite H1, H2. cbn [andb].
  replace (Z.to_nat (Z.of_nat (String.length all) + p - Z.of_nat (String.length ds)))
    with (z + Z.to_nat p)%nat by lia.
  rewrite zeros_app, <- append_assoc, <- Hz. reflexivity.
Qed.

(** *** Reading digits back *)

Lemma span_digits_all (s : string) :
  all_chars is_digit s = true -> span_digits s = (s, EmptyString).
Proof.
  induction s as [|c s IH]; [reflexivity|].
  cbn [all_chars span_digits]. intros H. apply andb_true_iff in H as [Hc Hs].
  now rewrite Hc, (IH Hs).
Qed.

(** Digits that do not start with 0 are a literal, and denote the
    integer they spell. *)
Lemma of_literal_digits (c : ascii) (t : string) :
  is_digit c = true -> Ascii.eqb c "0" = false -> all_chars is_digit t = true ->
  of_literal (String c t) = Some (of_decimal false (Z_of_digits 0 (String c t)) 0).
Proof.
  intros Hc H0 Ht.
  assert (Hspan : span_digits (String c t) = (String c t, EmptyString)).
  { apply span_digits_all. cbn [all_chars]. now rewrite Hc, Ht. }
  destruct c as [[] [] [] [] [] [] [] []]; try discriminate Hc; try discriminate H0;
    unfold of_literal; cbv iota beta; rewrite Hspan; cbv iota beta zeta;
    rewrite append_empty_r; reflexivity.
Qed.
(** *** Integers read back *)

Lemma toString_finite (m : positive) (e : Z) :
  toString (S754_finite false m e)
  = let num := if 0 <=? e then Zpos m * 2 ^ e else Zpos m in
    let den := if 0 <=? e then 1 else 2 ^ (- e) in
    let n0 := decimal_exponent num den in
    let '(d, p) := shortest_decimal 17 1 (S754_finite false m e) num den n0 in
    let all := Z_to_string d in
    layout_decimal (strip_trailing_zeros all) (Z.of_nat (String.length all) + p).
Proof.
  unfold toString. cbv zeta.
  destruct (shortest_decimal 17 1 _ _ _ _) as [d p]. reflexivity.
Qed.

(** The decimal text of a positive integer below 2^53 is a literal that
    denotes the integer. *)
Lemma toString_of_Z_reads_back (n : Z) :
  0 < n < 2 ^ 53 ->
  of_literal (toString (of_Z n)) = Some (of_Z n).
Proof.
  intros Hn. destruct (of_Z_exact n Hn) as [m [e [Hx [He [Hm _]]]]].
  assert (Hself : SFeqb (of_decimal false n 0) (S754_finite false m e) = true).
  { rewrite of_decimal_integer by lia. rewrite Hx. apply SFeqb_refl_finite. }
  rewrite Hx, toString_finite. cbv zeta.
  assert (Hden : 0 < 2 ^ (- e)) by (apply Z.pow_pos_nonneg; lia).
  assert (Hnum : (if 0 <=? e then Zpos m * 2 ^ e else Zpos m) = n * 2 ^ (- e)).
  { destruct (0 <=? e) eqn:H0; [|exact Hm].
    apply Z.leb_le in H0. assert (e = 0) by lia. subst e. cbn in *. lia. }
  assert (Hd2 : (if 0 <=? e then 1 else 2 ^ (- e)) = 2 ^ (- e)).
  { destruct (0 <=? e) eqn:H0; [|reflexivity].
    apply Z.leb_le in H0. assert (e = 0) by lia. now subst e. }
  rewrite Hnum, Hd2.
  pose proof (decimal_exponent_bounds n (- e) Hn ltac:(lia)) as Hn0.
  set (n0 := decimal_exponent (n * 2 ^ (- e)) (2 ^ (- e))) in *.
  pose proof (shortest_decimal_integer 17 1 (S754_finite false m e) n (2 ^ (- e)) n0
                ltac:(lia) Hden ltac:(lia) ltac:(lia) Hself) as Hsd.
  destruct (shortest_decimal 17 1 (S754_finite false m e) (n * 2 ^ (- e)) (2 ^ (- e)) n0)
    as [d p].
  destruct Hsd as [Hok [Hp Hd]].
  assert (Hdpos : 0 < d).
  { destruct (Z.eq_dec d 0) as [->|]; [|lia]. discriminate Hok. }
  destruct (Z_to_string_pos d Hdpos) as [c [t [Hs [Hc [Hc0 [Ht Hv]]]]]].
  assert (Hpow : 0 < 10 ^ p) by (apply Z.pow_pos_nonneg; lia).
  assert (Hsize : Z.of_nat (String.length (Z_to_string d)) + p <= 21).
  { pose proof (leading_digit_bound c t Hc Hc0 Ht) as Hlead.
    rewrite <- Hs, Hv in Hlead. rewrite Hs. cbn [String.length].
    assert (Hdp : d * 10 ^ p <= n + 10 ^ p).
    { pose proof (Z.mul_div_le n (10 ^ p) Hpow). nia. }
    assert (Hlt : 10 ^ (Z.of_nat (String.length t) + p) < 10 ^ 17).
    { rewrite Z.pow_add_r by lia.
      assert (10 ^ p <= 10 ^ 15) by (apply Z.pow_le_mono_r; lia).
      assert (10 ^ Z.of_nat (String.length t) * 10 ^ p <= d * 10 ^ p)
        by (apply Z.mul_le_mono_nonneg_r; lia).
      change (10 ^ 15) with 1000000000000000 in *.
      change (10 ^ 17) with 100000000000000000.
      change (2 ^ 53) with 9007199254740992 in *. lia. }
    apply Z.pow_lt_mono_r_iff in Hlt; lia. }
  rewrite (layout_integer (Z_to_string d) p (proj1 Hp) Hsize), Hs. cbn [append].
  rewrite of_literal_digits;
    [| exact Hc | exact Hc0
     | rewrite StringifyFacts.all_chars_app, Ht; apply zeros_digits].
  f_equal.
  change (String c (t ++ zeros (Z.to_nat p))) with (String c t ++ zeros (Z.to_nat p)).
  rewrite <- Hs, Z_of_digits_app, Hv, Z_of_digits_zeros, Z2Nat.id by lia.
  destruct d as [|dp|dp]; try lia.
  assert (Hprod : exists q, Zpos dp * 10 ^ p = Zpos q).
  { destruct (Zpos dp * 10 ^ p) as [|q|q] eqn:E; try lia. now exists q. }
  destruct Hprod as [q Hq].
  rewrite (of_decimal_nonneg_exponent dp p) in Hok by lia.
  rewrite Hq in *. rewrite of_decimal_nonneg_exponent by lia.
  rewrite Z.pow_0_r, Z.mul_1_r.
  apply SFeqb_eq_finite; [exact Hok | apply binary_normalize_pos_sign].
Qed.

(** *** Math.max of two integers *)

Lemma Math_max_of_Z (a b : Z) :
  0 <= a < 2 ^ 53 -> 0 <= b < 2 ^ 53 ->
  Math_max (of_Z a) (of_Z b) = of_Z (Z.max a b).
Proof.
  intros Ha Hb.
  destruct (Z.eq_dec a 0) as [->|Ha0]; destruct (Z.eq_dec b 0) as [->|Hb0].
  - reflexivity.
  - destruct (of_Z_exact b ltac:(lia)) as [m [e [Hx _]]].
    rewrite Z.max_r by lia. rewrite Hx. reflexivity.
  - destruct (of_Z_exact a ltac:(lia)) as [m [e [Hx _]]].
    rewrite Z.max_l by lia. rewrite Hx. reflexivity.
  - destruct (of_Z_exact a ltac:(lia)) as [ma [ea [Hxa [Hea [Hma Hra]]]]].
    destruct (of_Z_exact b ltac:(lia)) as [mb [eb [Hxb [Heb [Hmb Hrb]]]]].
    rewrite Hxa, Hxb. unfold Math_max, SFcompare.
    destruct (Z.compare ea eb) eqn:He.
    + apply Z.compare_eq in He. subst eb.
      assert (Hpow : 0 < 2 ^ (- ea)) by (apply Z.pow_pos_nonneg; lia).
      fold (Pos.compare ma mb). rewrite Pos2Z.inj_compare, Hma, Hmb.
      rewrite <- (Zmult_compare_compat_r a b (2 ^ (- ea))) by lia.
      destruct (Z.compare_spec a b) as [E|E|E].
      * subst b. rewrite Z.max_id. now rewrite Hxa.
      * rewrite Z.max_r by lia. now rewrite Hxb.
      * rewrite Z.max_l by lia. now rewrite Hxa.
    + rewrite Z.compare_lt_iff in He.
      assert (2 ^ (ea + 53) <= 2 ^ (eb + 52)) by (apply Z.pow_le_mono_r; lia).
      rewrite Z.max_r by lia. now rewrite Hxb.
    + rewrite Z.compare_gt_iff in He.
      assert (2 ^ (eb + 53) <= 2 ^ (ea + 52)) by (apply Z.pow_le_mono_r; lia).
      rewrite Z.max_l by lia. now rewrite Hxa.
Qed.

End NumberFacts.

(** ** From the document to the host

    The injected script posts its messages with [JSON.stringify]; the
    host reads them in [handleMessage] with [JSON.parse]. *)

Lemma native_eqb (dev : Device) :
  Platform.OS dev <> "web" -> String.eqb (Platform.OS dev) "web" = false.
Proof. apply String.eqb_neq. Qed.

Lemma step_message_native (dev : Device) (widgetId text : string) (st : State) :
  Platform.OS dev <> "web" ->
  step dev widgetId (Message text) st = handleMessage dev text st.
Proof.
  intros H. unfold step. now rewrite rendered_WebView_PRxWidget, (native_eqb _ H).
Qed.

Lemma step_navigation_native (dev : Device) (widgetId url : string) (st : State) :
  Platform.OS dev <> "web" ->
  step dev widgetId (NavigationRequest url) st
  = (handleNavigationRequest dev url ;;; ret tt) st.
Proof.
  intros H. unfold step. now rewrite rendered_WebView_PRxWidget, (native_eqb _ H).
Qed.

Lemma run_one (dev : Device) (widgetId : string) (ev : Event) (st st1 : State)
    (t1 : list Effect) :
  step dev widgetId ev st = (Normal tt, st1, t1) ->
  run dev widgetId [ev] st = (Normal tt, st1, t1).
Proof.
  intros H. rewrite (run_cons _ _ _ _ _ _ _ H). cbn. now rewrite app_nil_r.
Qed.

(** The host's answer to the external_link message of a URL. *)
Lemma external_link_message_run (dev : Device) (widgetId url : string) (st : State) :
  Platform.OS dev <> "web" ->
  url <> EmptyString ->
  JSON.no_surrogates url = true ->
  run dev widgetId [Message (message_text "external_link" "url" (JSON.quote url))] st
  = (Normal tt, st, OpenURL (VStr url) :: open_report dev (VStr url)).
Proof.
  intros Hn Hne Hs. apply run_one.
  rewrite (step_message_native _ _ _ _ Hn), handleMessage_run.
  rewrite (message_outcome_parsed _ _ _ _ (StringifyFacts.parse_external_link _ Hs)).
  apply String.eqb_neq in Hne.
  unfold actionable_link. cbn. now rewrite Hne.
Qed.

(** X1. Inside the WebView, a call of window.open with a URL that is a
    non-empty string posts one external_link message and returns null
    without calling the original window.open; the host, given that
    message, hands exactly that URL to the opener, once, and keeps its
    state. *)
Theorem window_open_reaches_opener (dev : Device) (widgetId : string) (w : Window)
    (url : string) (target features : JSValue) (st : State) :
  Platform.OS dev <> "web" ->
  ReactNativeWebView w = true ->
  url <> EmptyString ->
  JSON.no_surrogates url = true ->
  exists text,
    window_open w (VStr url) target features = (Normal VNull, [PostMessage text])
    /\ run dev widgetId (delivered [PostMessage text]) st
       = (Normal tt, st, OpenURL (VStr url) :: open_report dev (VStr url)).
Proof.
  intros Hn Hw Hne Hs.
  exists (message_text "external_link" "url" (JSON.quote url)). split.
  - unfold window_open, postMessage_JSON. cbn [truthy].
    apply String.eqb_neq in Hne. rewrite Hne, Hw.
    now rewrite StringifyFacts.stringify_external_link.
  - now apply external_link_message_run.
Qed.

(** A link that holds a quote, a backslash and a line break, opened on
    a device whose opener fails. *)
Lemma window_open_example_reaches_opener :
  exists text,
    window_open (webview_window (Number.of_Z 0) (Number.of_Z 0))
      (VStr ("https://example.org/a?b=" ++ dq ++ "\" ++ nl)) (VStr "_blank") VUndefined
    = (Normal VNull, [PostMessage text])
    /\ run android_no_browser WIDGET_ID (delivered [PostMessage text]) mount
       = (Normal tt, mount,
          OpenURL (VStr ("https://example.org/a?b=" ++ dq ++ "\" ++ nl))
            :: open_report android_no_browser
                 (VStr ("https://example.org/a?b=" ++ dq ++ "\" ++ nl))).
Proof.
  apply (window_open_reaches_opener android_no_browser WIDGET_ID
           (webview_window (Number.of_Z 0) (Number.of_Z 0))
           ("https://example.org/a?b=" ++ dq ++ "\" ++ nl) (VStr "_blank") VUndefined mount);
    [discriminate | reflexivity | discriminate | reflexivity].
Defined.

(** X2. Inside the WebView, a click on a link with target _blank and a
    non-empty href cancels the default action, then posts one
    external_link message; the host, given that message, hands exactly
    the href to the opener, once, and keeps its state. *)
Theorem blank_target_click_reaches_opener (dev : Device) (widgetId : string) (w : Window)
    (href : string) (st : State) :
  Platform.OS dev <> "web" ->
  ReactNativeWebView w = true ->
  href <> EmptyString ->
  JSON.no_surrogates href = true ->
  exists text,
    on_click w (Some href) = (Normal tt, [PreventDefault; PostMessage text])
    /\ run dev widgetId (delivered [PreventDefault; PostMessage text]) st
       = (Normal tt, st, OpenURL (VStr href) :: open_report dev (VStr href)).
Proof.
  intros Hn Hw Hne Hs.
  exists (message_text "external_link" "url" (JSON.quote href)). split.
  - unfold on_click, postMessage_JSON. cbn [truthy].
    apply String.eqb_neq in Hne. rewrite Hne, Hw.
    now rewrite StringifyFacts.stringify_external_link.
  - now apply external_link_message_run.
Qed.

Lemma blank_target_click_example :
  exists text,
    on_click (webview_window (Number.of_Z 0) (Number.of_Z 0))
      (Some "https://clinicaltrials.gov/study/NCT01234567")
    = (Normal tt, [PreventDefault; PostMessage text])
    /\ run ios WIDGET_ID (delivered [PreventDefault; PostMessage text]) mount
       = (Normal tt, mount,
          OpenURL (VStr "https://clinicaltrials.gov/study/NCT01234567")
            :: open_report ios (VStr "https://clinicaltrials.gov/study/NCT01234567")).
Proof.
  apply (blank_target_click_reaches_opener ios WIDGET_ID
           (webview_window (Number.of_Z 0) (Number.of_Z 0))
           "https://clinicaltrials.gov/study/NCT01234567" mount);
    [discriminate | reflexivity | discriminate | reflexivity].
Defined.

(** The host's answer to the resize message of a height. *)
Lemma resize_message_run (dev : Device) (widgetId : string) (h : number) (st : State) :
  Platform.OS dev <> "web" ->
  Number.of_literal (Number.toString h) = Some h ->
  Number.truthy h = true ->
  JSON.stringify (resize_message h)
  = Some (message_text "resize" "height" (Number.toString h))
  /\ run dev widgetId [Message (message_text "resize" "height" (Number.toString h))] st
     = (Normal tt, with_height st (VNum h), []).
Proof.
  intros Hn Hh Ht. split.
  - rewrite StringifyFacts.stringify_resize. unfold JSON.number_text.
    destruct h as [s | [|] | | s m e]; try reflexivity;
      try (vm_compute in Hh; discriminate Hh); discriminate Ht.
  - apply run_one.
    rewrite (step_message_native _ _ _ _ Hn), handleMessage_run.
    rewrite (message_outcome_parsed _ _ _ _ (StringifyFacts.parse_resize _ _ Hh)).
    unfold actionable_resize. cbn. now rewrite Ht.
Qed.

(** X3. Inside the WebView, each occasion of reportHeight (the resize
    observer of the body, the timeout after load, the interval) posts
    one resize message with the larger of the two scroll heights; when
    that height is not zero and its decimal text reads back as the
    same number, the host, given the message, sets ContainerHeight to
    exactly that height and does nothing else. *)
Theorem reported_height_becomes_container_height (dev : Device) (widgetId : string)
    (w : Window) (ev : DocEvent) (h : number) (st : State) :
  Platform.OS dev <> "web" ->
  ReactNativeWebView w = true ->
  In ev [BodyResized; LoadTimeout; IntervalTick] ->
  Math_max (body_scrollHeight w) (documentElement_scrollHeight w) = h ->
  Number.of_literal (Number.toString h) = Some h ->
  Number.truthy h = true ->
  exists text,
    injected w ev = (Normal tt, [PostMessage text])
    /\ reportHeight w = (Normal tt, [PostMessage text])
    /\ run dev widgetId (delivered [PostMessage text]) st
       = (Normal tt, with_height st (VNum h), []).
Proof.
  intros Hn Hw Hev Hmax Hh Ht.
  destruct (resize_message_run dev widgetId h st Hn Hh Ht) as [Hs Hr].
  exists (message_text "resize" "height" (Number.toString h)).
  assert (Hreport : reportHeight w
                    = (Normal tt, [PostMessage (message_text "resize" "height"
                                                  (Number.toString h))])).
  { unfold reportHeight, postMessage_JSON. now rewrite Hw, Hmax, Hs. }
  split; [|split; [exact Hreport | exact Hr]].
  destruct Hev as [<- | [<- | [<- | []]]]; exact Hreport.
Qed.

(** A body of 842 pixels in a document of 900. *)
Lemma reported_height_example :
  exists text,
    injected (webview_window (Number.of_Z 842) (Number.of_Z 900)) IntervalTick
    = (Normal tt, [PostMessage text])
    /\ reportHeight (webview_window (Number.of_Z 842) (Number.of_Z 900))
       = (Normal tt, [PostMessage text])
    /\ run ios WIDGET_ID (delivered [PostMessage text]) mount
       = (Normal tt, with_height mount (VNum (Number.of_Z 900)), []).
Proof.
  apply (reported_height_becomes_container_height ios WIDGET_ID
           (webview_window (Number.of_Z 842) (Number.of_Z 900)) IntervalTick
           (Number.of_Z 900) mount);
    [discriminate | reflexivity | right; right; left; reflexivity
     | vm_compute; reflexivity | vm_compute; reflexivity | reflexivity].
Defined.

Lemma resize_zero_run (dev : Device) (widgetId : string) (st : State) :
  Platform.OS dev <> "web" ->
  run dev widgetId [Message (message_text "resize" "height" "0")] st = (Normal tt, st, []).
Proof.
  intros Hn. apply run_one.
  rewrite (step_message_native _ _ _ _ Hn), handleMessage_run.
  assert (Hp : JSON.parse (message_text "resize" "height" "0")
               = Some (resize_message (Number.of_Z 0))) by (vm_compute; reflexivity).
  now rewrite (message_outcome_parsed _ _ _ _ Hp).
Qed.

(** X4. Scroll heights are integers. Inside the WebView, for all
    integer scroll heights of the body and of the document from 0 up
    to 2^53, each occasion of reportHeight posts one resize message,
    and the host, given that message, sets ContainerHeight to exactly
    the larger of the two heights: the number goes through Math.max,
    JSON.stringify and JSON.parse unchanged. When both heights are 0
    the message is posted and the host leaves its state as it is. *)
Theorem integer_scroll_heights_arrive (dev : Device) (widgetId : string) (w : Window)
    (ev : DocEvent) (a b : Z) (st : State) :
  Platform.OS dev <> "web" ->
  ReactNativeWebView w = true ->
  In ev [BodyResized; LoadTimeout; IntervalTick] ->
  body_scrollHeight w = Number.of_Z a ->
  documentElement_scrollHeight w = Number.of_Z b ->
  (0 <= a < 2 ^ 53)%Z ->
  (0 <= b < 2 ^ 53)%Z ->
  exists text,
    injected w ev = (Normal tt, [PostMessage text])
    /\ run dev widgetId (delivered [PostMessage text]) st
       = (Normal tt,
          (if (0 <? Z.max a b)%Z then with_height st (VNum (Number.of_Z (Z.max a b)))
           else st),
          []).
Proof.
  intros Hn Hw Hev Hbody Hroot Ha Hb.
  assert (Hinj : injected w ev = reportHeight w).
  { destruct Hev as [<- | [<- | [<- | []]]]; reflexivity. }
  rewrite Hinj. unfold reportHeight, postMessage_JSON.
  rewrite Hw, Hbody, Hroot, (NumberFacts.Math_max_of_Z a b Ha Hb).
  destruct (0 <? Z.max a b)%Z eqn:Hmax.
  - apply Z.ltb_lt in Hmax.
    assert (Hrange : (0 < Z.max a b < 2 ^ 53)%Z) by lia.
    assert (Htruthy : Number.truthy (Number.of_Z (Z.max a b)) = true).
    { destruct (NumberFacts.of_Z_exact _ Hrange) as [m [e [Hx _]]]. now rewrite Hx. }
    destruct (resize_message_run dev widgetId (Number.of_Z (Z.max a b)) st Hn
                (NumberFacts.toString_of_Z_reads_back _ Hrange) Htruthy) as [Hs Hr].
    rewrite Hs. eexists. split; [reflexivity | exact Hr].
  - apply Z.ltb_ge in Hmax. assert (Hz : Z.max a b = 0%Z) by lia. rewrite Hz.
    eexists. split; [reflexivity|]. now apply resize_zero_run.
Qed.

(** A body of 842 pixels in a document of 12000. *)
Lemma integer_scroll_heights_example :
  exists text,
    injected (webview_window (Number.of_Z 842) (Number.of_Z 12000)) BodyResized
    = (Normal tt, [PostMessage text])
    /\ run ios WIDGET_ID (delivered [PostMessage text]) mount
       = (Normal tt, with_height mount (VNum (Number.of_Z 12000)), []).
Proof.
  apply (integer_scroll_heights_arrive ios WIDGET_ID
           (webview_window (Number.of_Z 842) (Number.of_Z 12000)) BodyResized
           842 12000 mount);
    [discriminate | reflexivity | left; reflexivity | reflexivity | reflexivity
     | split; [discriminate | reflexivity] | split; [discriminate | reflexivity]].
Defined.

(** X5. In a document that has no ReactNativeWebView object the script
    never posts a message, whatever happens: window.open goes to the
    original window.open with the same arguments and returns its
    result, reportHeight does nothing, and a click on a link with
    target _blank and a non-empty href cancels the default action and
    then throws a TypeError. *)
Theorem no_bridge_no_message (w : Window) (ev : DocEvent) :
  ReactNativeWebView w = false ->
  posted (snd (injected w ev)) = []
  /\ (forall url target features,
        window_open w url target features
        = (Normal (originalOpen_result w url target features),
           [OriginalOpen url target features]))
  /\ reportHeight w = (Normal tt, [])
  /\ (forall href, href <> EmptyString ->
        on_click w (Some href) = (Throw (error_object "TypeError"), [PreventDefault])).
Proof.
  intros Hw.
  assert (Hopen : forall url target features,
             window_open w url target features
             = (Normal (originalOpen_result w url target features),
                [OriginalOpen url target features])).
  { intros url target features. unfold window_open.
    now rewrite Hw, andb_false_r. }
  assert (Hreport : reportHeight w = (Normal tt, [])).
  { unfold reportHeight. now rewrite Hw. }
  split; [|split; [exact Hopen | split; [exact Hreport|]]].
  - destruct ev as [url target features | [href|] | | |]; cbn [injected];
      rewrite ?Hopen, ?Hreport; try reflexivity.
    unfold on_click, postMessage_JSON. rewrite Hw.
    destruct (truthy (VStr href)); reflexivity.
  - intros href Hne. unfold on_click, postMessage_JSON. cbn [truthy].
    apply String.eqb_neq in Hne. now rewrite Hne, Hw.
Qed.

Lemma no_bridge_example :
  posted (snd (injected bare_window (Clicked (Some "https://example.org/")))) = []
  /\ (forall url target features,
        window_open bare_window url target features
        = (Normal (originalOpen_result bare_window url target features),
           [OriginalOpen url target features]))
  /\ reportHeight bare_window = (Normal tt, [])
  /\ (forall href, href <> EmptyString ->
        on_click bare_window (Some href)
        = (Throw (error_object "TypeError"), [PreventDefault])).
Proof.
  apply (no_bridge_no_message bare_window (Clicked (Some "https://example.org/"))).
  reflexivity.
Defined.

(** ** Runs of events on a native platform *)

Lemma open_requests_report (dev : Device) (url : JSValue) :
  open_requests (OpenURL url :: open_report dev url) = [url].
Proof.
  unfold open_report. destruct (Linking.valid_url url); [|reflexivity].
  destruct (open_result dev url); reflexivity.
Qed.

Lemma run_app (dev : Device) (widgetId : string) (evs1 evs2 : list Event)
    (st st1 st2 : State) (t1 t2 : list Effect) :
  run dev widgetId evs1 st = (Normal tt, st1, t1) ->
  run dev widgetId evs2 st1 = (Normal tt, st2, t2) ->
  run dev widgetId (evs1 ++ evs2) st = (Normal tt, st2, (t1 ++ t2)%list).
Proof.
  revert st t1. induction evs1 as [|ev evs1 IH]; intros st t1 H1 H2.
  - cbn in H1. inversion H1; subst. exact H2.
  - destruct (step_effect dev widgetId ev st) as [sa [ta [Hs _]]].
    rewrite (run_cons _ _ _ _ _ _ _ Hs) in H1.
    destruct (run dev widgetId evs1 sa) as [[r sb] tb] eqn:Hr.
    inversion H1; subst.
    cbn [app]. rewrite (run_cons _ _ _ _ _ _ _ Hs), (IH _ _ Hr H2).
    now rewrite app_assoc.
Qed.

(** One event on a native platform: what it asks of the opener, and
    what it does to the height. *)
Lemma step_native (dev : Device) (widgetId : string) (ev : Event) (st : State) :
  Platform.OS dev <> "web" ->
  exists st' trace,
    step dev widgetId ev st = (Normal tt, st', trace)
    /\ open_requests trace = requested ev
    /\ (is_resize ev = false -> height st' = height st)
    /\ (forall text data, ev = Message text -> JSON.parse text = Some data ->
        actionable_resize data = true -> height st' = field data "height").
Proof.
  intros Hn. destruct ev as [L | | text | url].
  - unfold step. rewrite requestLocation_run.
    destruct (Location.requestForegroundPermissionsAsync L) as [status|err];
      [destruct (String.eqb status "granted");
       [destruct (Location.getCurrentPositionAsync L)|]|];
      do 2 eexists; (split; [reflexivity|]); repeat split; discriminate.
  - unfold step. rewrite rendered_WebView_PRxWidget, (native_eqb _ Hn).
    do 2 eexists. split; [reflexivity|]. repeat split; discriminate.
  - rewrite (step_message_native _ _ _ _ Hn), handleMessage_run.
    unfold message_outcome, requested, is_resize.
    destruct (JSON.parse text) as [d|] eqn:Hparse.
    + destruct (actionable_resize d) eqn:Hr.
      * assert (Hl : actionable_link d = false).
        { unfold actionable_resize in Hr. apply andb_true_iff in Hr as [Hk _].
          unfold actionable_link.
          rewrite (is_kind_exclusive d "resize" "external_link")
            by (discriminate || assumption).
          reflexivity. }
        rewrite Hl. do 2 eexists. split; [reflexivity|].
        split; [reflexivity|]. split; [discriminate|].
        intros text' data He Hp _. injection He as <-.
        rewrite Hparse in Hp. injection Hp as <-. reflexivity.
      * destruct (actionable_link d) eqn:Hl; do 2 eexists; (split; [reflexivity|]).
        -- split; [apply open_requests_report|]. split; [reflexivity|].
           intros text' data He Hp Ha. injection He as <-.
           rewrite Hparse in Hp. injection Hp as <-. congruence.
        -- split; [reflexivity|]. split; [reflexivity|].
           intros text' data He Hp Ha. injection He as <-.
           rewrite Hparse in Hp. injection Hp as <-. congruence.
    + do 2 eexists. split; [reflexivity|]. repeat split.
      intros text' data He Hp. injection He as <-. congruence.
  - rewrite (step_navigation_native _ _ _ _ Hn).
    unfold bind at 1. rewrite handleNavigationRequest_run. unfold requested.
    destruct (allowed_in_document url);
      [|destruct (startsWith url "http")];
      do 2 eexists; (split; [reflexivity|]); cbn [app];
      rewrite ?app_nil_r; repeat split; try discriminate.
    apply open_requests_report.
Qed.

(** Events that are not a resize leave the height alone. *)
Lemma run_keeps_height (dev : Device) (widgetId : string) (evs : list Event) (st : State) :
  Platform.OS dev <> "web" ->
  forallb (fun ev => negb (is_resize ev)) evs = true ->
  exists st' trace,
    run dev widgetId evs st = (Normal tt, st', trace) /\ height st' = height st.
Proof.
  intros Hn. revert st. induction evs as [|ev evs IH]; intros st Hall.
  - now exists st, [].
  - cbn [forallb] in Hall. apply andb_true_iff in Hall as [Hev Hall].
    apply negb_true_iff in Hev.
    destruct (step_native dev widgetId ev st Hn) as [s1 [t1 [Hs [_ [Hh _]]]]].
    destruct (IH s1 Hall) as [s2 [t2 [Hr Hh2]]].
    exists s2, (t1 ++ t2)%list.
    rewrite (run_cons _ _ _ _ _ _ _ Hs), Hr. split; [reflexivity|].
    now rewrite Hh2, (Hh Hev).
Qed.

(** X6. On a native platform the height after a run of events is the
    payload of the last message that the handler reads as a resize,
    whatever came before it and whatever other events (load end,
    navigation requests, settled location requests, other messages)
    come after it; the WebView is then rendered with that height. *)
Theorem last_resize_sets_height (dev : Device) (widgetId : string)
    (before after : list Event) (text : string) (data : JSValue) (st : State) :
  Platform.OS dev <> "web" ->
  JSON.parse text = Some data ->
  actionable_resize data = true ->
  forallb (fun ev => negb (is_resize ev)) after = true ->
  exists st' trace,
    run dev widgetId (before ++ Message text :: after) st = (Normal tt, st', trace)
    /\ height st' = field data "height"
    /\ option_map style_height (rendered_WebView (PRxWidget dev widgetId st'))
       = Some (field data "height").
Proof.
  intros Hn Hp Ha Hall.
  destruct (run_normal dev widgetId before st) as [s1 [t1 Hr1]].
  destruct (step_native dev widgetId (Message text) s1 Hn) as [s2 [t2 [Hs [_ [_ Hh]]]]].
  destruct (run_keeps_height dev widgetId after s2 Hn Hall) as [s3 [t3 [Hr3 Hh3]]].
  exists s3, (t1 ++ t2 ++ t3)%list. split; [|split].
  - apply (run_app _ _ _ _ _ _ _ _ _ Hr1).
    now rewrite (run_cons _ _ _ _ _ _ _ Hs), Hr3.
  - rewrite Hh3. apply (Hh text data eq_refl Hp Ha).
  - rewrite rendered_WebView_PRxWidget, (native_eqb _ Hn). cbn.
    now rewrite Hh3, (Hh text data eq_refl Hp Ha).
Qed.

(** Two resize messages with a load end, a navigation request, a
    granted location and a link message around them. *)
Lemma last_resize_example :
  exists st' trace,
    run ios WIDGET_ID
      ([Message (message_text "resize" "height" "842"); LoadEnd]
         ++ Message (message_text "resize" "height" "300")
         :: [NavigationRequest "https://example.org/";
             LocationSettled (granted_at (Number.of_Z 37) (Number.of_Z (-122)));
             Message (message_text "external_link" "url" (q "https://example.org/"));
             Message "resize"]) mount
    = (Normal tt, st', trace)
    /\ height st' = VNum (Number.of_Z 300)
    /\ option_map style_height (rendered_WebView (PRxWidget ios WIDGET_ID st'))
       = Some (VNum (Number.of_Z 300)).
Proof.
  apply (last_resize_sets_height ios WIDGET_ID
           [Message (message_text "resize" "height" "842"); LoadEnd]
           [NavigationRequest "https://example.org/";
            LocationSettled (granted_at (Number.of_Z 37) (Number.of_Z (-122)));
            Message (message_text "external_link" "url" (q "https://example.org/"));
            Message "resize"]
           (message_text "resize" "height" "300")
           (VObj [("type", VStr "resize"); ("height", VNum (Number.of_Z 300))]) mount);
    [discriminate | vm_compute; reflexivity | reflexivity | vm_compute; reflexivity].
Defined.

(** X7. On a native platform the opener is called, over a whole run of
    events, once for every message the handler reads as a link and
    once for every navigation request it vetoes, in the order of the
    events and with their URLs; a URL that comes twice is opened twice,
    and no other event calls the opener. *)
Theorem run_opens_in_order (dev : Device) (widgetId : string) (evs : list Event)
    (st : State) :
  Platform.OS dev <> "web" ->
  exists st' trace,
    run dev widgetId evs st = (Normal tt, st', trace)
    /\ open_requests trace = flat_map requested evs.
Proof.
  intros Hn. revert st. induction evs as [|ev evs IH]; intros st.
  - now exists st, [].
  - destruct (step_native dev widgetId ev st Hn) as [s1 [t1 [Hs [Ho _]]]].
    destruct (IH s1) as [s2 [t2 [Hr Ho2]]].
    exists s2, (t1 ++ t2)%list.
    rewrite (run_cons _ _ _ _ _ _ _ Hs), Hr. split; [reflexivity|].
    cbn [flat_map]. now rewrite open_requests_app, Ho, Ho2.
Qed.

(** The same link twice, as a message and as a navigation request,
    between events that open nothing. *)
Lemma run_opens_in_order_example :
  exists st' trace,
    run android_no_browser WIDGET_ID
      [Message (message_text "external_link" "url" (q "https://example.org/a"));
       LoadEnd;
       NavigationRequest "https://widget.prxengage.com/widget.js";
       NavigationRequest "https://example.org/a";
       Message (message_text "resize" "height" "842");
       NavigationRequest "mailto:team@example.org";
       Message (message_text "external_link" "url" (q "https://example.org/a"))] mount
    = (Normal tt, st', trace)
    /\ open_requests trace
       = [VStr "https://example.org/a"; VStr "https://example.org/a";
          VStr "https://example.org/a"].
Proof.
  apply (run_opens_in_order android_no_browser WIDGET_ID
           [Message (message_text "external_link" "url" (q "https://example.org/a"));
            LoadEnd;
            NavigationRequest "https://widget.prxengage.com/widget.js";
            NavigationRequest "https://example.org/a";
            Message (message_text "resize" "height" "842");
            NavigationRequest "mailto:team@example.org";
            Message (message_text "external_link" "url" (q "https://example.org/a"))]
           mount).
  discriminate.
Defined.

(** X8. A string goes through JSON.stringify and JSON.parse unchanged:
    quotes, backslashes and control characters are escaped by the one
    and read back by the other. This is the path of every URL between
    the script's postMessage and the host's handleMessage. *)
Theorem stringify_string_parses_back (s : string) :
  JSON.no_surrogates s = true ->
  exists text,
    JSON.stringify (VStr s) = Some text
    /\ JSON.parse text = Some (VStr s)
    /\ JSON.stringify (external_link_message (VStr s))
       = Some (message_text "external_link" "url" text)
    /\ JSON.parse (message_text "external_link" "url" text)
       = Some (external_link_message (VStr s)).
Proof.
  intros Hs. exists (JSON.quote s). split; [reflexivity|]. split; [|split].
  - unfold JSON.parse.
    rewrite <- (append_empty_r (JSON.quote s)), (StringifyFacts.lex_quote _ _ Hs).
    reflexivity.
  - reflexivity.
  - now apply StringifyFacts.parse_external_link.
Qed.

(** A URL with a quote, a backslash, a tab, a line break and a
    two-byte character. *)
Lemma stringify_string_example :
  exists text,
    JSON.stringify (VStr ("a" ++ dq ++ "\" ++ String "009" nl ++ JSON.utf8 233))
    = Some text
    /\ JSON.parse text = Some (VStr ("a" ++ dq ++ "\" ++ String "009" nl ++ JSON.utf8 233))
    /\ JSON.stringify
         (external_link_message
            (VStr ("a" ++ dq ++ "\" ++ String "009" nl ++ JSON.utf8 233)))
       = Some (message_text "external_link" "url" text)
    /\ JSON.parse (message_text "external_link" "url" text)
       = Some (external_link_message
                 (VStr ("a" ++ dq ++ "\" ++ String "009" nl ++ JSON.utf8 233))).
Proof.
  apply (stringify_string_parses_back
           ("a" ++ dq ++ "\" ++ String "009" nl ++ JSON.utf8 233)).
  vm_compute. reflexivity.
Defined.

(** ** The stored location *)

(** Events other than a settled location request leave the stored
    location alone. *)
Lemma run_keeps_location (dev : Device) (widgetId : string) (evs : list Event)
    (st : State) :
  forallb (fun ev => negb (is_LocationSettled ev)) evs = true ->
  exists st' trace,
    run dev widgetId evs st = (Normal tt, st', trace)
    /\ userLocation st' = userLocation st.
Proof.
  revert st. induction evs as [|ev evs IH]; intros st Hall.
  - now exists st, [].
  - cbn [forallb] in Hall. apply andb_true_iff in Hall as [Hev Hall].
    apply negb_true_iff in Hev.
    destruct (step_effect dev widgetId ev st) as [s1 [t1 [Hs [Hu _]]]].
    destruct (IH s1 Hall) as [s2 [t2 [Hr Hu2]]].
    exists s2, (t1 ++ t2)%list.
    rewrite (run_cons _ _ _ _ _ _ _ Hs), Hr. split; [reflexivity|].
    now rewrite Hu2, (Hu Hev).
Qed.

Lemma includes_intro (s needle pre post : string) :
  s = pre ++ needle ++ post -> includes s needle = true.
Proof. intros H. apply includes_spec. now exists pre, post. Qed.

(** X9. On every platform, when permission is granted and the position
    fix arrives, the fix is stored as it is, whatever was stored
    before, and stays stored through every later load end, message and
    navigation request; the script built from that state defines
    nativeCoords with the decimal texts of exactly these two numbers. *)
Theorem granted_fix_is_injected (dev : Device) (widgetId : string)
    (before after : list Event) (L : Location.Service) (l : UserLocation) (st : State) :
  Location.requestForegroundPermissionsAsync L = Resolved "granted" ->
  Location.getCurrentPositionAsync L = Resolved l ->
  forallb (fun ev => negb (is_LocationSettled ev)) after = true ->
  exists st' trace,
    run dev widgetId (before ++ LocationSettled L :: after) st = (Normal tt, st', trace)
    /\ userLocation st' = Some l
    /\ installed_override st' = nativeCoords l
    /\ includes (getInjectedJavaScript st')
         ("const nativeCoords = { latitude: " ++ Number.toString (lat l)
            ++ ", longitude: " ++ Number.toString (long l) ++ " };") = true.
Proof.
  intros Hg Hf Hall.
  destruct (run_normal dev widgetId before st) as [s1 [t1 Hr1]].
  assert (Hs : step dev widgetId (LocationSettled L) s1
               = (Normal tt,
                  {| loading := loading s1; height := height s1; userLocation := Some l |},
                  [])).
  { unfold step. now rewrite requestLocation_run, Hg, Hf. }
  destruct (run_keeps_location dev widgetId after
              {| loading := loading s1; height := height s1; userLocation := Some l |} Hall)
    as [s3 [t3 [Hr3 Hu3]]].
  cbn [userLocation] in Hu3.
  exists s3, (t1 ++ [] ++ t3)%list. split; [|split; [exact Hu3|split]].
  - apply (run_app _ _ _ _ _ _ _ _ _ Hr1).
    now rewrite (run_cons _ _ _ _ _ _ _ Hs), Hr3.
  - unfold installed_override. now rewrite Hu3.
  - unfold getInjectedJavaScript, locationOverride. rewrite Hu3.
    apply includes_spec.
    exists ("
      (function() {
        " ++ "
        // Override geolocation with native location
        ").
    eexists. rewrite !append_assoc. cbn [append]. reflexivity.
Qed.

(** A second fix, (51.5074, -0.1278), after a first one and followed by
    other events. *)
Lemma granted_fix_example :
  exists st' trace,
    run ios WIDGET_ID
      ([LocationSettled (granted_at (Number.of_Z 37) (Number.of_Z (-122))); LoadEnd]
         ++ LocationSettled (granted_at (Number.of_decimal false 515074 (-4))
                                        (Number.of_decimal true 1278 (-4)))
         :: [Message (message_text "resize" "height" "842");
             NavigationRequest "https://example.org/"]) mount
    = (Normal tt, st', trace)
    /\ userLocation st' = Some {| lat := Number.of_decimal false 515074 (-4);
                                  long := Number.of_decimal true 1278 (-4) |}
    /\ installed_override st'
       = Some (VObj [("latitude", VNum (Number.of_decimal false 515074 (-4)));
                     ("longitude", VNum (Number.of_decimal true 1278 (-4)))])
    /\ includes (getInjectedJavaScript st')
         "const nativeCoords = { latitude: 51.5074, longitude: -0.1278 };" = true.
Proof.
  assert (Htext : "const nativeCoords = { latitude: 51.5074, longitude: -0.1278 };"
                  = "const nativeCoords = { latitude: "
                      ++ Number.toString (Number.of_decimal false 515074 (-4))
                      ++ ", longitude: "
                      ++ Number.toString (Number.of_decimal true 1278 (-4)) ++ " };")
    by (vm_compute; reflexivity).
  assert (Hcoords : Some (VObj [("latitude", VNum (Number.of_decimal false 515074 (-4)));
                                ("longitude", VNum (Number.of_decimal true 1278 (-4)))])
                    = nativeCoords {| lat := Number.of_decimal false 515074 (-4);
                                      long := Number.of_decimal true 1278 (-4) |})
    by (vm_compute; reflexivity).
  rewrite Htext, Hcoords.
  apply (granted_fix_is_injected ios WIDGET_ID
           [LocationSettled (granted_at (Number.of_Z 37) (Number.of_Z (-122))); LoadEnd]
           [Message (message_text "resize" "height" "842");
            NavigationRequest "https://example.org/"]
           (granted_at (Number.of_decimal false 515074 (-4))
                       (Number.of_decimal true 1278 (-4)))
           {| lat := Number.of_decimal false 515074 (-4);
              long := Number.of_decimal true 1278 (-4) |} mount);
    reflexivity.
Defined.

(** ** The loader *)

(** X10. On a native platform the loader is rendered, before the
    WebView, exactly as long as LoadingFlag is true; after a load end
    has arrived the component renders the WebView alone, whatever
    events follow. *)
Theorem loader_gone_after_load (dev : Device) (widgetId : string)
    (before after : list Event) (st : State) :
  Platform.OS dev <> "web" ->
  PRxWidget dev widgetId mount
  = View [View [ActivityIndicator "large" "#0891b2"];
          WebView (native_WebView dev widgetId mount)]
  /\ exists st' trace,
      run dev widgetId (before ++ LoadEnd :: after) st = (Normal tt, st', trace)
      /\ loading st' = false
      /\ PRxWidget dev widgetId st' = View [WebView (native_WebView dev widgetId st')].
Proof.
  intros Hn. pose proof (native_eqb _ Hn) as Hos. split.
  - unfold PRxWidget. now rewrite Hos.
  - destruct (run_normal dev widgetId before st) as [s1 [t1 Hr1]].
    assert (Hs : step dev widgetId LoadEnd s1
                 = (Normal tt,
                    {| loading := false; height := height s1;
                       userLocation := userLocation s1 |}, [])).
    { unfold step. now rewrite rendered_WebView_PRxWidget, Hos. }
    assert (Hkeep : forall evs s, loading s = false ->
              exists s' t, run dev widgetId evs s = (Normal tt, s', t)
                           /\ loading s' = false).
    { induction evs as [|ev evs IH]; intros s Hl.
      - now exists s, [].
      - destruct (step_effect dev widgetId ev s) as [sa [ta [Hsa [_ [_ [Hk _]]]]]].
        destruct (IH sa (Hk Hl)) as [sb [tb [Hrb Hlb]]].
        exists sb, (ta ++ tb)%list.
        now rewrite (run_cons _ _ _ _ _ _ _ Hsa), Hrb. }
    destruct (Hkeep after _ (eq_refl : loading {| loading := false; height := height s1;
                                                   userLocation := userLocation s1 |} = false))
      as [s3 [t3 [Hr3 Hl3]]].
    exists s3, (t1 ++ [] ++ t3)%list. split; [|split; [exact Hl3|]].
    + apply (run_app _ _ _ _ _ _ _ _ _ Hr1).
      now rewrite (run_cons _ _ _ _ _ _ _ Hs), Hr3.
    + unfold PRxWidget. now rewrite Hos, Hl3.
Qed.

Lemma loader_example :
  PRxWidget ios WIDGET_ID mount
  = View [View [ActivityIndicator "large" "#0891b2"];
          WebView (native_WebView ios WIDGET_ID mount)]
  /\ exists st' trace,
      run ios WIDGET_ID
        ([Message (message_text "resize" "height" "842")]
           ++ LoadEnd
           :: [Message (message_text "resize" "height" "300");
               NavigationRequest "https://example.org/"]) mount
      = (Normal tt, st', trace)
      /\ loading st' = false
      /\ PRxWidget ios WIDGET_ID st' = View [WebView (native_WebView ios WIDGET_ID st')].
Proof.
  apply (loader_gone_after_load ios WIDGET_ID
           [Message (message_text "resize" "height" "842")]
           [Message (message_text "resize" "height" "300");
            NavigationRequest "https://example.org/"] mount).
  discriminate.
Defined.

(** ** What a message cannot do *)

(** X11. Whatever text arrives, on whatever device, handleMessage
    completes without throwing, and does at most one thing: it changes
    the height and calls nothing, or it calls Linking.openURL once,
    with a truthy url, and changes nothing, or it does neither. When
    the url is a string the call reaches the device, and a failure of
    the device is written to the console; when the url is not a string
    the call itself throws, the handler swallows the throw and nothing
    is written. It never touches LoadingFlag or the stored location. *)
Theorem message_does_one_thing (dev : Device) (text : string) (st : State) :
  exists st' trace,
    handleMessage dev text st = (Normal tt, st', trace)
    /\ loading st' = loading st
    /\ userLocation st' = userLocation st
    /\ ((trace = [] /\ exists h, st' = with_height st h)
        \/ (st' = st
            /\ exists url,
                truthy url = true
                /\ ((Linking.valid_url url = true
                     /\ open_result dev url = Resolved tt
                     /\ trace = [OpenURL url])
                    \/ (Linking.valid_url url = true
                        /\ exists err,
                            open_result dev url = Rejected err
                            /\ trace = [OpenURL url; ConsoleError "Failed to open URL:" err])
                    \/ (Linking.valid_url url = false
                        /\ (forall s, url <> VStr s)
                        /\ trace = [OpenURL url])))
        \/ (st' = st /\ trace = [])).
Proof.
  rewrite handleMessage_run. unfold message_outcome.
  destruct (JSON.parse text) as [data|].
  - destruct (actionable_resize data).
    + do 2 eexists. split; [reflexivity|]. repeat split.
      left. split; [reflexivity|]. now eexists.
    + destruct (actionable_link data) eqn:Hl; do 2 eexists; (split; [reflexivity|]);
        (split; [reflexivity|]); (split; [reflexivity|]).
      * right. left. split; [reflexivity|].
        unfold actionable_link in Hl. apply andb_true_iff in Hl as [_ Hu].
        exists (field data "url"). split; [exact Hu|].
        unfold open_report.
        destruct (Linking.valid_url (field data "url")) eqn:Hv.
        -- destruct (open_result dev (field data "url")) as [[]|err] eqn:Ho.
           ++ left. now repeat split.
           ++ right; left. split; [reflexivity|]. now exists err.
        -- right; right. split; [reflexivity|]. split; [|reflexivity].
           intros s Hs. rewrite Hs in Hv, Hu. cbn in Hv, Hu. congruence.
      * right. right. now split.
  - do 2 eexists. split; [reflexivity|]. repeat split. right. right. now split.
Qed.

(** A link message whose url is a number, on a device whose opener
    fails: the call is made and throws, nothing is written to the
    console; and the same device with a url that is a string. *)
Example link_message_with_a_number :
  handleMessage android_no_browser ("{" ++ q "type" ++ ":" ++ q "external_link" ++ ","
                                      ++ q "url" ++ ":123}") mount
  = (Normal tt, mount, [OpenURL (VNum (Number.of_Z 123))])
  /\ handleMessage android_no_browser
       (message_text "external_link" "url" (q "https://example.org/")) mount
     = (Normal tt, mount,
        [OpenURL (VStr "https://example.org/");
         ConsoleError "Failed to open URL:" (VStr "No Activity found to handle Intent")]).
Proof. split; vm_compute; reflexivity. Qed.
